(** * Accountant report generator: a model of
      [scripts/generate_accountant_reports.py].

    The script reads a list of scored transaction records (JSON objects) and
    writes seven CSV files.  The model keeps the Python data as it is:

    - JSON values are a tagged union; a record is a dict, kept as an
      association list in insertion order;
    - numbers ([int] and [float]) are an interface [PyNumber]: the script only
      compares, adds, takes absolute values and formats them.  Sums are folded
      in the order the script adds them, so nothing relies on associativity;
    - an operation that raises in Python returns [Raise]; a call that raises
      ends in [Failed] with the store it leaves (the files written before an
      exception are not described);
    - the objects that the script can reach and that Python could mutate (the
      results list, its records, the lists it builds) live in a store and are
      passed by reference;
    - a [str] is kept as its UTF-8 bytes; [len] and slices count code
      points;
    - a CSV file is the sequence of rows handed to [writer.writerow]; the text
      encoding done by the [csv] module is not part of the model;
    - a file is known by the path string it is opened with, and the paths
      given to [open] are recorded in the order of the calls; the failures
      of the file system are not part of the model. *)

From Stdlib Require Import ZArith String Ascii.
From stdpp Require Import base option list gmap strings pretty sorting.

Local Open Scope Z_scope.
Local Open Scope string_scope.
Local Open Scope list_scope.
Local Open Scope stdpp_scope.

(** ** Python numbers *)

(** What the script needs from [int] and [float]: integer literals, [==],
    [<], [+], [abs] and the format [f"{x:,.2f}"]. *)
Class PyNumber (num : Type) := {
  num_of_Z : Z → num;
  num_eqb : num → num → bool;
  num_ltb : num → num → bool;
  num_add : num → num → num;
  num_abs : num → num;
  num_money : num → string;
}.

(** The laws used by the ordering and grouping proofs.  Python's [int] and
    [float] satisfy them as long as no value is a NaN. *)
Class PyNumberLaws (num : Type) `{PyNumber num} : Prop := {
  num_eqb_refl a : num_eqb a a = true;
  num_eqb_sym a b : num_eqb a b = num_eqb b a;
  num_eqb_trans a b c :
    num_eqb a b = true → num_eqb b c = true → num_eqb a c = true;
  num_ltb_asym a b : num_ltb a b = true → num_ltb b a = false;
  num_ltb_negtrans a b c :
    num_ltb a b = false → num_ltb b c = false → num_ltb a c = false;
  num_ltb_of_Z x y : num_ltb (num_of_Z x) (num_of_Z y) = Z.ltb x y;
}.

(** What [abs] is: it fixes the integer literals up to their sign, leaves a
    number that is not below zero as it is, and takes a number below zero
    above zero. *)
Class PyAbsLaws (num : Type) `{PyNumber num} : Prop := {
  num_abs_of_Z z : num_abs (num_of_Z z) = num_of_Z (Z.abs z);
  num_abs_nonneg a :
    num_ltb a (num_of_Z 0) = false → num_eqb (num_abs a) a = true;
  num_abs_neg a :
    num_ltb a (num_of_Z 0) = true → num_ltb (num_of_Z 0) (num_abs a) = true;
}.

(** *** The instance for Python's [int] *)

Fixpoint group3 (n : nat) (digits : list ascii) : list ascii :=
  match digits with
  | [] => []
  | c :: rest =>
      match n with
      | O => "," %char :: c :: group3 2 rest
      | S n' => c :: group3 n' rest
      end
  end.

(** [float(z)] as an integer: the format [f] of an [int] goes through
    [float], which keeps 53 significant bits and rounds to the nearest, ties
    to even.  Up to [2^53] nothing is lost. *)
Definition Z_float (z : Z) : Z :=
  let a := Z.abs z in
  let e := Z.log2 a - 52 in
  if Z.leb e 0 then z
  else
    let q := Z.shiftr a e in
    let r := Z.land a (Z.ones e) in
    let half := Z.shiftl 1 (e - 1) in
    let up := Z.ltb half r || (Z.eqb r half && Z.odd q) in
    Z.sgn z * Z.shiftl (if up then q + 1 else q) e.

(** [f"{z:,.2f}"] for an integer [z].  From about [1.8e308] on [float(z)]
    raises [OverflowError] and so does the format; the model formats such
    an integer as well (see [money]). *)
Definition Z_money (z : Z) : string :=
  let f := Z_float z in
  let digits := list_ascii_of_string (pretty (Z.to_N (Z.abs f))) in
  (if Z.ltb f 0 then "-" else "")
    +:+ string_of_list_ascii (rev (group3 3 (rev digits))) +:+ ".00".

#[global] Instance Z_PyNumber : PyNumber Z := {|
  num_of_Z z := z;
  num_eqb := Z.eqb;
  num_ltb := Z.ltb;
  num_add := Z.add;
  num_abs := Z.abs;
  num_money := Z_money;
|}.

(** ** Exceptions *)

(** The Python exceptions the script can raise on JSON data.  [NoObject] is not
    one of them: it is the model's answer when a reference is not in the
    store, a state Python does not have. *)
Inductive exn := TypeError | AttributeError | KeyError | NoObject.

Inductive result (A : Type) :=
  | Ok (a : A)
  | Raise (e : exn).
Arguments Ok {A} a.
Arguments Raise {A} e.

#[global] Instance result_ret : MRet result := λ A a, Ok a.
#[global] Instance result_bind : MBind result := λ A B f m,
  match m with
  | Ok a => f a
  | Raise e => Raise e
  end.
#[global] Instance result_fmap : FMap result := λ A B f m,
  match m with
  | Ok a => Ok (f a)
  | Raise e => Raise e
  end.

(** [[f(x) for x in l]] where [f] may raise. *)
Fixpoint mapR {A B} (f : A → result B) (l : list A) : result (list B) :=
  match l with
  | [] => Ok []
  | x :: l' => y ← f x; k ← mapR f l'; Ok (y :: k)
  end.

(** [[x for x in l if p(x)]] where [p] may raise. *)
Fixpoint filterM {A} (p : A → result bool) (l : list A) : result (list A) :=
  match l with
  | [] => Ok []
  | x :: l' =>
      b ← p x;
      k ← filterM p l';
      Ok (if b : bool then x :: k else k)
  end.

(** [for x in l: acc = step(acc, x)], where [step] may raise. *)
Fixpoint foldM {A B} (step : B → A → result B) (acc : B) (l : list A)
  : result B :=
  match l with
  | [] => Ok acc
  | x :: l' => acc' ← step acc x; foldM step acc' l'
  end.

Section Model.
Context {num : Type} `{!PyNumber num}.

(** ** JSON values as Python objects *)

#[local] Set Warnings "-register-all".
Inductive value :=
  | VNone
  | VBool (b : bool)
  | VNum (n : num)
  | VStr (s : string)
  | VList (l : list value)
  | VDict (d : list (string * value)).

(** A transaction record is a dict; the pairs are its items in insertion
    order (distinct keys in a dict built by Python). *)
Abbreviation record := (list (string * value)).

(** An integer literal. *)
Definition VInt (z : Z) : value := VNum (num_of_Z z).

(** [r.get(k, default)]; [r.get(k)] is [dict_get r k VNone]. *)
Fixpoint dict_get (r : record) (k : string) (default : value) : value :=
  match r with
  | [] => default
  | (k', v) :: r' => if String.eqb k' k then v else dict_get r' k default
  end.

(** [bool(v)]. *)
Definition truthy (v : value) : bool :=
  match v with
  | VNone => false
  | VBool b => b
  | VNum n => negb (num_eqb n (num_of_Z 0))
  | VStr s => match s with EmptyString => false | _ => true end
  | VList l => match l with [] => false | _ => true end
  | VDict d => match d with [] => false | _ => true end
  end.

(** [v or d]. *)
Definition py_or (v d : value) : value := if truthy v then v else d.

(** ['Yes' if v else 'No'] and ['YES - REVIEW' if v else 'No']. *)
Definition yes_no (v : value) : value :=
  VStr (if truthy v then "Yes" else "No").
Definition review_no (v : value) : value :=
  VStr (if truthy v then "YES - REVIEW" else "No").

(** The numeric value of an [int], [float] or [bool] ([bool] is a subclass of
    [int]); nothing else takes part in arithmetic. *)
Definition as_num (v : value) : option num :=
  match v with
  | VNum n => Some n
  | VBool b => Some (num_of_Z (if b then 1 else 0))
  | _ => None
  end.

(** [a < b].  Numbers compare by value, strings by code point; [None] and
    dicts are unordered, and so is any mix of the classes.  Two lists do
    compare in Python; the model raises there, which is indifferent for the
    script: a list-valued amount makes the comparison with [500], [abs] or
    [+=] raise in the same call, and a list is not hashable as a key. *)
Definition py_lt (a b : value) : result bool :=
  match as_num a, as_num b with
  | Some x, Some y => Ok (num_ltb x y)
  | _, _ =>
      match a, b with
      | VStr s, VStr t => Ok (String.ltb s t)
      | _, _ => Raise TypeError
      end
  end.

(** [a > b] is [b < a] on numbers and strings. *)
Definition py_gt (a b : value) : result bool := py_lt b a.

(** [v] as the operand of [abs] or of [+] with a number. *)
Definition py_num (v : value) : result num :=
  match as_num v with
  | Some n => Ok n
  | None => Raise TypeError
  end.

(** [abs(v)]. *)
Definition py_abs (v : value) : result num := n ← py_num v; Ok (num_abs n).

Definition item_str (v : value) : result string :=
  match v with
  | VStr s => Ok s
  | _ => Raise TypeError
  end.

(** *** Text

    A Python [str] is kept as its UTF-8 bytes (a lone surrogate, which JSON
    can escape, is encoded like any other code point).  A byte [10xxxxxx]
    continues the code point that an earlier byte began; the order of the
    bytes is the order of the code points. *)
Definition continues (c : ascii) : bool :=
  match c with
  | Ascii _ _ _ _ _ _ b6 b7 => b7 && negb b6
  end.

(** [len(s)]: the number of code points. *)
Fixpoint str_len (s : string) : nat :=
  match s with
  | EmptyString => 0%nat
  | String c s' => if continues c then str_len s' else S (str_len s')
  end.

(** [s[:n]] on a string: its first [n] code points. *)
Fixpoint str_take (n : nat) (s : string) : string :=
  match s with
  | EmptyString => EmptyString
  | String c s' =>
      if continues c then String c (str_take n s')
      else match n with
           | O => EmptyString
           | S n' => String c (str_take n' s')
           end
  end.

(** [s] starts in the middle of a code point. *)
Definition starts_inside (s : string) : bool :=
  match s with
  | String c _ => continues c
  | EmptyString => false
  end.

(** [list(s)]: the characters of [s], one string per code point. *)
Fixpoint code_points (s : string) : list string :=
  match s with
  | EmptyString => []
  | String c s' =>
      match code_points s' with
      | p :: ps =>
          if starts_inside s' then String c p :: ps
          else String c EmptyString :: p :: ps
      | [] => [String c EmptyString]
      end
  end.

(** [sep.join(v)]: [v] is iterated; every item has to be a string.  A string
    yields its characters and a dict its keys. *)
Definition str_join (sep : string) (v : value) : result string :=
  match v with
  | VList l => parts ← mapR item_str l; Ok (String.concat sep parts)
  | VStr s => Ok (String.concat sep (code_points s))
  | VDict d => Ok (String.concat sep (d.*1))
  | _ => Raise TypeError
  end.

(** [v[:n]]: strings and lists can be sliced (a dict raises [TypeError] up to
    Python 3.11 and [KeyError] from 3.12 on; the model says [TypeError]). *)
Definition slice_to (n : nat) (v : value) : result value :=
  match v with
  | VStr s => Ok (VStr (str_take n s))
  | VList l => Ok (VList (take n l))
  | _ => Raise TypeError
  end.

(** ** The rows of the five transaction listings *)

Abbreviation row := (list value).

Definition master_header : row :=
  VStr <$> ["Financial Year"; "Date"; "Transaction ID"; "Supplier"; "Amount";
            "Description"; "Category"; "Category Confidence";
            "Deduction Type"; "Claimable Amount"; "Fully Deductible";
            "R&D Candidate"; "R&D Confidence"; "R&D Reasoning";
            "FBT Risk"; "Div7A Risk"; "Requires Documentation";
            "Compliance Notes"].

Definition master_row (r : record) : result row :=
  notes ← str_join "; " (py_or (dict_get r "compliance_notes" VNone) (VList []));
  let desc := py_or (dict_get r "transaction_description" VNone) (VStr "") in
  let reasoning := py_or (dict_get r "rnd_reasoning" VNone) (VStr "") in
  desc100 ← slice_to 100 desc;
  reasoning150 ← slice_to 150 reasoning;
  Ok [ dict_get r "financial_year" (VStr "");
       dict_get r "transaction_date" (VStr "");
       dict_get r "transaction_id" (VStr "");
       dict_get r "supplier_name" (VStr "");
       dict_get r "transaction_amount" (VStr "");
       desc100;
       dict_get r "primary_category" (VStr "");
       dict_get r "category_confidence" (VStr "");
       dict_get r "deduction_type" (VStr "");
       dict_get r "claimable_amount" (VStr "");
       yes_no (dict_get r "is_fully_deductible" VNone);
       yes_no (dict_get r "is_rnd_candidate" VNone);
       dict_get r "rnd_confidence" (VStr "");
       reasoning150;
       review_no (dict_get r "fbt_implications" VNone);
       review_no (dict_get r "division7a_risk" VNone);
       yes_no (dict_get r "requires_documentation" VNone);
       VStr (str_take 200 notes) ].

(** [(r.get('claimable_amount') or 0) > 500] *)
Definition is_high_value (r : record) : result bool :=
  py_gt (py_or (dict_get r "claimable_amount" VNone) (VInt 0)) (VInt 500).

(** [lambda x: x.get('claimable_amount', 0)] *)
Definition hv_key (x : record) : value := dict_get x "claimable_amount" (VInt 0).

Definition hv_header : row :=
  VStr <$> ["PRIORITY"; "Financial Year"; "Date"; "Supplier"; "Amount";
            "Claimable"; "Deduction Type"; "Category"; "Confidence";
            "Transaction ID"; "Documentation Required"; "Notes"].

Definition hv_row (i : nat) (r : record) : result row :=
  notes ← str_join "; " (py_or (dict_get r "compliance_notes" VNone) (VList []));
  Ok [ VInt (Z.of_nat i);
       dict_get r "financial_year" (VStr "");
       dict_get r "transaction_date" (VStr "");
       dict_get r "supplier_name" (VStr "");
       dict_get r "transaction_amount" (VStr "");
       dict_get r "claimable_amount" (VStr "");
       dict_get r "deduction_type" (VStr "");
       dict_get r "primary_category" (VStr "");
       dict_get r "deduction_confidence" (VStr "");
       dict_get r "transaction_id" (VStr "");
       yes_no (dict_get r "requires_documentation" VNone);
       VStr (str_take 150 notes) ].

(** [r.get('is_rnd_candidate')] as a condition. *)
Definition is_rnd (r : record) : result bool :=
  Ok (truthy (dict_get r "is_rnd_candidate" VNone)).

(** [lambda x: x.get('transaction_amount', 0) or 0] *)
Definition rnd_key (x : record) : value :=
  py_or (dict_get x "transaction_amount" (VInt 0)) (VInt 0).

Definition rnd_header : row :=
  VStr <$> ["Financial Year"; "Date"; "Supplier"; "Amount";
            "Activity Type"; "R&D Confidence"; "Meets Div355";
            "Outcome Unknown"; "Systematic"; "New Knowledge";
            "Scientific Method"; "Reasoning"; "Transaction ID"].

Definition rnd_row (r : record) : result row :=
  let reasoning := py_or (dict_get r "rnd_reasoning" VNone) (VStr "") in
  reasoning200 ← slice_to 200 reasoning;
  Ok [ dict_get r "financial_year" (VStr "");
       dict_get r "transaction_date" (VStr "");
       dict_get r "supplier_name" (VStr "");
       dict_get r "transaction_amount" (VStr "");
       dict_get r "rnd_activity_type" (VStr "");
       dict_get r "rnd_confidence" (VStr "");
       yes_no (dict_get r "meets_div355_criteria" VNone);
       yes_no (dict_get r "div355_outcome_unknown" VNone);
       yes_no (dict_get r "div355_systematic_approach" VNone);
       yes_no (dict_get r "div355_new_knowledge" VNone);
       yes_no (dict_get r "div355_scientific_method" VNone);
       reasoning200;
       dict_get r "transaction_id" (VStr "") ].

Definition is_fbt (r : record) : result bool :=
  Ok (truthy (dict_get r "fbt_implications" VNone)).

Definition is_div7a (r : record) : result bool :=
  Ok (truthy (dict_get r "division7a_risk" VNone)).

(** The FBT and the Division 7A listings have the same columns. *)
Definition review_header : row :=
  VStr <$> ["Financial Year"; "Date"; "Supplier"; "Amount";
            "Category"; "Description"; "Compliance Notes"; "Transaction ID"].

Definition review_row (r : record) : result row :=
  notes ← str_join "; " (py_or (dict_get r "compliance_notes" VNone) (VList []));
  let desc := py_or (dict_get r "transaction_description" VNone) (VStr "") in
  desc100 ← slice_to 100 desc;
  Ok [ dict_get r "financial_year" (VStr "");
       dict_get r "transaction_date" (VStr "");
       dict_get r "supplier_name" (VStr "");
       dict_get r "transaction_amount" (VStr "");
       dict_get r "primary_category" (VStr "");
       desc100;
       VStr (str_take 200 notes);
       dict_get r "transaction_id" (VStr "") ].

(** ** Sorting *)

(** [list.sort] and [sorted] are stable and use [<] only.  On keys that [<]
    orders (a strict weak order) every stable sort returns the same list, so
    the model sorts by insertion; on keys of mixed classes some comparison
    raises, here as in Python. *)
Fixpoint insert_by {A} (lt : A → A → result bool) (x : A) (l : list A)
  : result (list A) :=
  match l with
  | [] => Ok [x]
  | y :: l' =>
      b ← lt y x;
      if b : bool then k ← insert_by lt x l'; Ok (y :: k)
      else Ok (x :: y :: l')
  end.

Fixpoint sort_by {A} (lt : A → A → result bool) (l : list A)
  : result (list A) :=
  match l with
  | [] => Ok []
  | x :: l' => s ← sort_by lt l'; insert_by lt x s
  end.

(** The same insertion sort for a comparison that cannot raise. *)
Fixpoint insert_pure {A} (ltb : A → A → bool) (x : A) (l : list A) : list A :=
  match l with
  | [] => [x]
  | y :: l' => if ltb y x then y :: insert_pure ltb x l' else x :: y :: l'
  end.

Fixpoint isort {A} (ltb : A → A → bool) (l : list A) : list A :=
  match l with
  | [] => []
  | x :: l' => insert_pure ltb x (isort ltb l')
  end.

(** [sorted(l, key=key, reverse=reverse)]: the keys are computed first, then
    compared.  With [reverse=True] equal keys keep their original order: the
    list is reversed before and after the ascending stable sort. *)
Definition py_sorted {A} (key : A → result value) (reverse : bool)
    (l : list A) : result (list A) :=
  keyed ← mapR (λ x, k ← key x; Ok (k, x)) l;
  let keyed := if reverse then list.reverse keyed else keyed in
  s ← sort_by (λ a b, py_lt a.1 b.1) keyed;
  Ok ((if reverse then list.reverse s else s).*2).

(** ** The two summaries: dicts keyed by a field value *)

(** Lists and dicts are not hashable. *)
Definition hashable (v : value) : bool :=
  match v with
  | VList _ | VDict _ => false
  | _ => true
  end.

(** [a == b] on hashable values, the equality a dict looks keys up with:
    [1 == 1.0 == True]. *)
Definition key_eqb (a b : value) : bool :=
  match a, b with
  | VNone, VNone => true
  | VStr s, VStr t => String.eqb s t
  | _, _ =>
      match as_num a, as_num b with
      | Some x, Some y => num_eqb x y
      | _, _ => false
      end
  end.

(** A dict with arbitrary hashable keys: its items in insertion order. *)
Abbreviation pydict A := (list (value * A)).

(** [k in d] *)
Definition dict_contains {A} (d : pydict A) (k : value) : result bool :=
  if hashable k then Ok (existsb (λ p, key_eqb p.1 k) d) else Raise TypeError.

(** [d[k]] *)
Fixpoint dict_item {A} (d : pydict A) (k : value) : result A :=
  match d with
  | [] => Raise KeyError
  | (k', a) :: d' => if key_eqb k' k then Ok a else dict_item d' k
  end.

(** [d[k] = f(d[k])] for a key that is present. *)
Fixpoint dict_update {A} (d : pydict A) (k : value) (f : A → A) : pydict A :=
  match d with
  | [] => []
  | (k', a) :: d' =>
      if key_eqb k' k then (k', f a) :: d' else (k', a) :: dict_update d' k f
  end.

Record fy_entry := FyEntry {
  fy_count : nat;
  fy_total : num;
  fy_claimable : num;
  fy_rnd : nat;
  fy_fbt : nat;
  fy_div7a : nat;
}.

Definition bump (v : value) (n : nat) : nat := if truthy v then S n else n.

(** One turn of the loop that fills [by_fy].  The six in-place updates of
    [by_fy[fy]] are applied together, once [abs] and the operand of [+=] have
    been evaluated (in the order of the source). *)
Definition by_fy_step (by_fy : pydict fy_entry) (r : record)
  : result (pydict fy_entry) :=
  let fy := dict_get r "financial_year" (VStr "Unknown") in
  present ← dict_contains by_fy fy;
  let by_fy :=
    if present : bool then by_fy
    else by_fy ++ [(fy, FyEntry 0 (num_of_Z 0) (num_of_Z 0) 0 0 0)] in
  a ← py_abs (py_or (dict_get r "transaction_amount" (VInt 0)) (VInt 0));
  c ← py_num (py_or (dict_get r "claimable_amount" (VInt 0)) (VInt 0));
  Ok (dict_update by_fy fy (λ d,
        FyEntry (S (fy_count d))
                (num_add (fy_total d) a)
                (num_add (fy_claimable d) c)
                (bump (dict_get r "is_rnd_candidate" VNone) (fy_rnd d))
                (bump (dict_get r "fbt_implications" VNone) (fy_fbt d))
                (bump (dict_get r "division7a_risk" VNone) (fy_div7a d)))).

(** [f"${x:,.2f}"].  The format is taken as total.  In Python it raises
    [OverflowError] on an [int] too large for a [float] (from about
    [1.8e308]); for a total that large the model describes a run that
    returns where the script raises, so the statements below, which are
    about runs that return, say nothing of the script on such an input. *)
Definition money (x : num) : value := VStr ("$" +:+ num_money x).

Definition fy_header : row :=
  VStr <$> ["Financial Year"; "Transaction Count"; "Total Amount";
            "Claimable Amount"; "R&D Candidates"; "FBT Issues";
            "Div7A Issues"].

Definition fy_row (by_fy : pydict fy_entry) (fy : value) : result row :=
  d ← dict_item by_fy fy;
  Ok [ fy; VInt (Z.of_nat (fy_count d)); money (fy_total d);
       money (fy_claimable d); VInt (Z.of_nat (fy_rnd d));
       VInt (Z.of_nat (fy_fbt d)); VInt (Z.of_nat (fy_div7a d)) ].

Record cat_entry := CatEntry {
  cat_count : nat;
  cat_total : num;
  cat_claimable : num;
}.

(** One turn of the loop that fills [by_cat]. *)
Definition by_cat_step (by_cat : pydict cat_entry) (r : record)
  : result (pydict cat_entry) :=
  let cat := dict_get r "primary_category" (VStr "Unknown") in
  present ← dict_contains by_cat cat;
  let by_cat :=
    if present : bool then by_cat
    else by_cat ++ [(cat, CatEntry 0 (num_of_Z 0) (num_of_Z 0))] in
  a ← py_abs (py_or (dict_get r "transaction_amount" (VInt 0)) (VInt 0));
  c ← py_num (py_or (dict_get r "claimable_amount" (VInt 0)) (VInt 0));
  Ok (dict_update by_cat cat (λ d,
        CatEntry (S (cat_count d))
                 (num_add (cat_total d) a)
                 (num_add (cat_claimable d) c))).

Definition cat_header : row :=
  VStr <$> ["Category"; "Transaction Count"; "Total Amount";
            "Claimable Amount"].

(** [lambda x: by_cat[x]['claimable']] *)
Definition cat_key (by_cat : pydict cat_entry) (x : value) : result value :=
  d ← dict_item by_cat x; Ok (VNum (cat_claimable d)).

Definition cat_row (by_cat : pydict cat_entry) (cat : value) : result row :=
  d ← dict_item by_cat cat;
  Ok [ cat; VInt (Z.of_nat (cat_count d)); money (cat_total d);
       money (cat_claimable d) ].

(** ** The store *)

(** The objects the script reaches by reference: lists of references (the
    results list and the lists it builds from it) and dicts (the records).
    Field values are never written through and stay values. *)
Definition loc := nat.

Inductive obj :=
  | OList (items : list loc)
  | ODict (d : record).

Abbreviation store := (gmap loc obj).

(** The dict behind [r.get]: anything but a dict has no [get]. *)
Definition heap_dict (h : store) (r : loc) : result record :=
  match h !! r with
  | Some (ODict d) => Ok d
  | Some (OList _) => Raise AttributeError
  | None => Raise NoObject
  end.

(** The items of [for r in l].  Iterating a dict yields its keys, which are
    strings: the first [r.get] of every loop of the script then raises
    [AttributeError]; an empty dict yields nothing. *)
Definition heap_iter (h : store) (l : loc) : result (list loc) :=
  match h !! l with
  | Some (OList items) => Ok items
  | Some (ODict []) => Ok []
  | Some (ODict (_ :: _)) => Raise AttributeError
  | None => Raise NoObject
  end.

(** [len(l)] *)
Definition heap_len (h : store) (l : loc) : result nat :=
  match h !! l with
  | Some (OList items) => Ok (length items)
  | Some (ODict d) => Ok (length d)
  | None => Raise NoObject
  end.

(** ** The state of a run and its monad *)

(** The store, the CSV files by path, the lines printed, and the paths that
    were given to [open], in the order of the calls.  A file is known by the
    path string it is opened with: whether two strings name one file on
    disk (a relative and an absolute path, a link, a file system that
    ignores case) is outside the model.  The statements below are about the
    seven paths that a run opens, seven names in one directory, and say
    nothing of a file under any other path. *)
Record state := State {
  heap : store;
  files : gmap string (list row);
  stdout : list string;
  opened : list string;
}.

(** How a call ends: it returns a value and leaves a state, or it raises an
    exception.  Of a call that raises, the store is kept, as the caller that
    catches the exception still holds the objects it passed; the files that
    were written by then are not described. *)
Inductive outcome (A : Type) : Type :=
  | Done (a : A) (st : state)
  | Failed (e : exn) (h : store).
Arguments Done {A}.
Arguments Failed {A}.

Definition M (A : Type) : Type := state → outcome A.

#[global] Instance M_ret : MRet M := λ A a st, Done a st.
#[global] Instance M_bind : MBind M := λ A B f m st,
  match m st with
  | Done a st' => f a st'
  | Failed e h => Failed e h
  end.

(** The value and the state of a call that returns, the exception of one
    that raises. *)
Definition returned {A} (o : outcome A) : result (A * state) :=
  match o with
  | Done a st => Ok (a, st)
  | Failed e _ => Raise e
  end.

(** The store a call leaves, however it ends. *)
Definition store_after {A} (o : outcome A) : store :=
  match o with
  | Done _ st => heap st
  | Failed _ h => h
  end.

(** A computation that only reads the store. *)
Definition read {A} (f : store → result A) : M A :=
  λ st, match f (heap st) with
        | Ok a => Done a st
        | Raise e => Failed e (heap st)
        end.

Definition lift {A} (r : result A) : M A := read (λ _, r).

Definition load_dict (r : loc) : M record := read (λ h, heap_dict h r).
Definition iter (l : loc) : M (list loc) := read (λ h, heap_iter h l).
Definition len (l : loc) : M nat := read (λ h, heap_len h l).

(** A new list object. *)
Definition new_list (items : list loc) : M loc := λ st,
  Done (fresh (dom (heap st)))
       (State (<[fresh (dom (heap st)) := OList items]> (heap st))
              (files st) (stdout st) (opened st)).

(** Overwrite the items of the list object [l]. *)
Definition store_list (l : loc) (items : list loc) : M unit := λ st,
  Done () (State (<[l := OList items]> (heap st)) (files st) (stdout st)
                 (opened st)).

(** [open(path, 'w')]: the file is created or truncated.  The exceptions of
    the file system ([OSError]: no such directory, no permission, disk full)
    are left out, here and in [writerow]: a call that returns has met
    none. *)
Definition open_w (path : string) : M unit := λ st,
  Done () (State (heap st) (<[path := []]> (files st)) (stdout st)
                 (opened st ++ [path])).

(** [writer.writerow(r)] on the writer of the file at [path]: the row is
    kept as the values passed, before [csv] turns them into text.  The
    [UnicodeEncodeError] of a text that the encoding of the file cannot
    hold (a lone surrogate) is left out as well. *)
Definition writerow (path : string) (r : row) : M unit := λ st,
  Done () (State (heap st) (alter (λ rows, rows ++ [r]) path (files st))
                 (stdout st) (opened st)).

Definition print (line : string) : M unit := λ st,
  Done () (State (heap st) (files st) (stdout st ++ [line]) (opened st)).

Fixpoint for_each {A} (l : list A) (body : A → M unit) : M unit :=
  match l with
  | [] => mret ()
  | x :: l' => body x;; for_each l' body
  end.

(** [for r in l: body(r)] *)
Definition for_in (l : loc) (body : loc → M unit) : M unit :=
  items ← iter l; for_each items body.

(** [enumerate(l, start)] *)
Fixpoint enumerate {A} (start : nat) (l : list A) : list (nat * A) :=
  match l with
  | [] => []
  | x :: l' => (start, x) :: enumerate (S start) l'
  end.

(** [for i, r in enumerate(l, start): body(i, r)] *)
Definition for_enumerate (l : loc) (start : nat) (body : nat → loc → M unit)
  : M unit :=
  items ← iter l; for_each (enumerate start items) (λ p, body p.1 p.2).

(** [[r for r in src if cond(r)]]: a new list of the same record objects. *)
Definition list_comp (src : loc) (cond : record → result bool) : M loc :=
  items ← iter src;
  kept ← read (λ h, filterM (λ r, d ← heap_dict h r; cond d) items);
  new_list kept.

(** [l.sort(key=key, reverse=reverse)]: sorts the list object in place. *)
Definition list_sort (l : loc) (key : record → value) (reverse : bool)
  : M unit :=
  items ← iter l;
  sorted ← read (λ h,
    py_sorted (λ x, d ← heap_dict h x; Ok (key d)) reverse items);
  store_list l sorted.

(** [acc = init; for r in l: acc = step(acc, r)] for a local [acc]. *)
Definition fold_in {B} (l : loc) (step : B → record → result B) (init : B)
  : M B :=
  items ← iter l;
  read (λ h, foldM (λ acc r, d ← heap_dict h r; step acc d) init items).

(** ** The script *)

(** The dict returned by [generate_csv_reports]. *)
Record stats := Stats {
  total_transactions : nat;
  high_value : nat;
  rnd_candidates : nat;
  fbt_issues : nat;
  div7a_issues : nat;
}.

(** [data.get('results', [])] on the parsed JSON document. *)
Definition load_json (data : value) : result value :=
  match data with
  | VDict d => Ok (dict_get d "results" (VList []))
  | _ => Raise AttributeError
  end.

(** [f"{output_dir}/{company_name}{suffix}"] *)
Definition report_path (output_dir company_name suffix : string) : string :=
  output_dir +:+ "/" +:+ company_name +:+ suffix.

Definition created (path : string) : string := "Created: " +:+ path.
Definition created_n (path : string) (n : nat) : string :=
  "Created: " +:+ path +:+ " (" +:+ pretty n +:+ " records)".

(** [os.makedirs(output_dir, exist_ok=True)] is left out: the file system
    of the model is flat, a map from path strings to files, and its failures
    are not modelled (see [open_w]). *)
Definition generate_csv_reports (results : loc)
    (company_name output_dir : string) : M stats :=
  (* 1. MASTER TRANSACTION LIST *)
  let master_file :=
    report_path output_dir company_name "_All_Transactions.csv" in
  open_w master_file;;
  writerow master_file master_header;;
  for_in results (λ r,
    d ← load_dict r; cells ← lift (master_row d);
    writerow master_file cells);;
  print (created master_file);;
  (* 2. HIGH-VALUE DEDUCTIONS (>$500) *)
  high_value ← list_comp results is_high_value;
  list_sort high_value hv_key true;;
  let hv_file :=
    report_path output_dir company_name "_High_Value_Deductions.csv" in
  open_w hv_file;;
  writerow hv_file hv_header;;
  for_enumerate high_value 1 (λ i r,
    d ← load_dict r; cells ← lift (hv_row i d);
    writerow hv_file cells);;
  n ← len high_value;
  print (created_n hv_file n);;
  (* 3. R&D CANDIDATES *)
  rnd ← list_comp results is_rnd;
  list_sort rnd rnd_key true;;
  let rnd_file := report_path output_dir company_name "_RnD_Candidates.csv" in
  open_w rnd_file;;
  writerow rnd_file rnd_header;;
  for_in rnd (λ r,
    d ← load_dict r; cells ← lift (rnd_row d);
    writerow rnd_file cells);;
  n ← len rnd;
  print (created_n rnd_file n);;
  (* 4. FBT IMPLICATIONS *)
  fbt ← list_comp results is_fbt;
  let fbt_file :=
    report_path output_dir company_name "_FBT_Review_Required.csv" in
  open_w fbt_file;;
  writerow fbt_file review_header;;
  for_in fbt (λ r,
    d ← load_dict r; cells ← lift (review_row d);
    writerow fbt_file cells);;
  n ← len fbt;
  print (created_n fbt_file n);;
  (* 5. DIVISION 7A RISKS *)
  div7a ← list_comp results is_div7a;
  let div7a_file :=
    report_path output_dir company_name "_Division7A_Review.csv" in
  open_w div7a_file;;
  writerow div7a_file review_header;;
  for_in div7a (λ r,
    d ← load_dict r; cells ← lift (review_row d);
    writerow div7a_file cells);;
  n ← len div7a;
  print (created_n div7a_file n);;
  (* 6. BY FINANCIAL YEAR SUMMARY *)
  by_fy ← fold_in results by_fy_step [];
  let summary_file :=
    report_path output_dir company_name "_Summary_By_FY.csv" in
  open_w summary_file;;
  writerow summary_file fy_header;;
  years ← lift (py_sorted Ok false (by_fy.*1));
  for_each years (λ fy,
    cells ← lift (fy_row by_fy fy);
    writerow summary_file cells);;
  print (created summary_file);;
  (* 7. DEDUCTIONS BY CATEGORY *)
  by_cat ← fold_in results by_cat_step [];
  let cat_file := report_path output_dir company_name "_By_Category.csv" in
  open_w cat_file;;
  writerow cat_file cat_header;;
  cats ← lift (py_sorted (cat_key by_cat) true (by_cat.*1));
  for_each cats (λ cat,
    cells ← lift (cat_row by_cat cat);
    writerow cat_file cells);;
  print (created cat_file);;
  n_results ← len results;
  n_high_value ← len high_value;
  n_rnd ← len rnd;
  n_fbt ← len fbt;
  n_div7a ← len div7a;
  mret (Stats n_results n_high_value n_rnd n_fbt n_div7a).

(** ** Vocabulary of the statements *)

(** The object at [l] is a list whose items are the records [rs]. *)
Definition records_at (h : store) (l : loc) (rs : list record) : Prop :=
  ∃ items, h !! l = Some (OList items) ∧
           Forall2 (λ i r, h !! i = Some (ODict r)) items rs.

(** The entries [es] pair references with the records they hold in [h]. *)
Definition bound (h : store) (es : list (loc * record)) : Prop :=
  Forall (λ e, h !! e.1 = Some (ODict e.2)) es.

(** A new list object holding [items], at the next free reference. *)
Definition alloc (items : list loc) (h : store) : store :=
  <[fresh (dom h) := OList items]> h.

(** The computation [m], run on a store that holds the objects of [h0],
    leaves them as they are, whether it returns or raises; a value it
    returns satisfies [Q]. *)
Definition keeps {A} (h0 : store) (m : M A) (Q : A → Prop) : Prop :=
  ∀ st, h0 ⊆ heap st →
    match m st with
    | Done a st' => h0 ⊆ heap st' ∧ Q a
    | Failed _ h => h0 ⊆ h
    end.

(** *** The run in closed form

    What a run computes from the items of the results list, and the state it
    leaves; [generate_csv_reports_run] below proves that the script does just
    this.  The items are entries of any type [E] that give a record: a
    reference paired with its record for the run on the store, the record
    alone for the statements about the files. *)
Record contents (E : Type) := Contents {
  c_master : list row;
  c_high_value : list E;
  c_hv_rows : list row;
  c_rnd : list E;
  c_rnd_rows : list row;
  c_fbt : list E;
  c_fbt_rows : list row;
  c_div7a : list E;
  c_div7a_rows : list row;
  c_by_fy : pydict fy_entry;
  c_years : list value;
  c_fy_rows : list row;
  c_by_cat : pydict cat_entry;
  c_cats : list value;
  c_cat_rows : list row;
}.
Arguments Contents {E}.
Arguments c_master {E}.
Arguments c_high_value {E}.
Arguments c_hv_rows {E}.
Arguments c_rnd {E}.
Arguments c_rnd_rows {E}.
Arguments c_fbt {E}.
Arguments c_fbt_rows {E}.
Arguments c_div7a {E}.
Arguments c_div7a_rows {E}.
Arguments c_by_fy {E}.
Arguments c_years {E}.
Arguments c_fy_rows {E}.
Arguments c_by_cat {E}.
Arguments c_cats {E}.
Arguments c_cat_rows {E}.

Definition render {E} (rec : E → record) (es : list E) : result (contents E) :=
  m ← mapR (λ e, master_row (rec e)) es;
  hv0 ← filterM (λ e, is_high_value (rec e)) es;
  hv ← py_sorted (λ e, Ok (hv_key (rec e))) true hv0;
  hv_rows ← mapR (λ p, hv_row p.1 (rec p.2)) (enumerate 1 hv);
  rnd0 ← filterM (λ e, is_rnd (rec e)) es;
  rnd ← py_sorted (λ e, Ok (rnd_key (rec e))) true rnd0;
  rnd_rows ← mapR (λ e, rnd_row (rec e)) rnd;
  fbt ← filterM (λ e, is_fbt (rec e)) es;
  fbt_rows ← mapR (λ e, review_row (rec e)) fbt;
  div7a ← filterM (λ e, is_div7a (rec e)) es;
  div7a_rows ← mapR (λ e, review_row (rec e)) div7a;
  by_fy ← foldM (λ a e, by_fy_step a (rec e)) [] es;
  years ← py_sorted Ok false (by_fy.*1);
  fy_rows ← mapR (fy_row by_fy) years;
  by_cat ← foldM (λ a e, by_cat_step a (rec e)) [] es;
  cats ← py_sorted (cat_key by_cat) true (by_cat.*1);
  cat_rows ← mapR (cat_row by_cat) cats;
  Ok (Contents m hv hv_rows rnd rnd_rows fbt fbt_rows div7a div7a_rows
               by_fy years fy_rows by_cat cats cat_rows).

Definition contents_map {E E'} (g : E → E') (c : contents E) : contents E' :=
  Contents (c_master c) (g <$> c_high_value c) (c_hv_rows c)
           (g <$> c_rnd c) (c_rnd_rows c) (g <$> c_fbt c) (c_fbt_rows c)
           (g <$> c_div7a c) (c_div7a_rows c)
           (c_by_fy c) (c_years c) (c_fy_rows c)
           (c_by_cat c) (c_cats c) (c_cat_rows c).

Definition final_heap (c : contents (loc * record)) (h : store) : store :=
  alloc (c_div7a c).*1 (alloc (c_fbt c).*1
    (alloc (c_rnd c).*1 (alloc (c_high_value c).*1 h))).

Definition final_files {E} (output_dir company_name : string) (c : contents E)
    (F : gmap string (list row)) : gmap string (list row) :=
  let path := report_path output_dir company_name in
  <[path "_By_Category.csv" := cat_header :: c_cat_rows c]>
  (<[path "_Summary_By_FY.csv" := fy_header :: c_fy_rows c]>
  (<[path "_Division7A_Review.csv" := review_header :: c_div7a_rows c]>
  (<[path "_FBT_Review_Required.csv" := review_header :: c_fbt_rows c]>
  (<[path "_RnD_Candidates.csv" := rnd_header :: c_rnd_rows c]>
  (<[path "_High_Value_Deductions.csv" := hv_header :: c_hv_rows c]>
  (<[path "_All_Transactions.csv" := master_header :: c_master c]> F)))))).

Definition final_stdout {E} (output_dir company_name : string)
    (c : contents E) : list string :=
  let path := report_path output_dir company_name in
  [ created (path "_All_Transactions.csv");
    created_n (path "_High_Value_Deductions.csv") (length (c_high_value c));
    created_n (path "_RnD_Candidates.csv") (length (c_rnd c));
    created_n (path "_FBT_Review_Required.csv") (length (c_fbt c));
    created_n (path "_Division7A_Review.csv") (length (c_div7a c));
    created (path "_Summary_By_FY.csv");
    created (path "_By_Category.csv") ].

Definition final_stats {E} (n : nat) (c : contents E) : stats :=
  Stats n (length (c_high_value c)) (length (c_rnd c)) (length (c_fbt c))
        (length (c_div7a c)).

(** [v or 0] read as a number (zero where it is none). *)
Definition or_zero (v : value) : num :=
  default (num_of_Z 0) (as_num (py_or v (VInt 0))).

(** The claimable amount and the transaction amount of a record, a missing
    or null one counted as zero. *)
Definition claimable (r : record) : num :=
  or_zero (dict_get r "claimable_amount" VNone).
Definition amount (r : record) : num :=
  or_zero (dict_get r "transaction_amount" VNone).

Definition exceeds_500 (r : record) : bool :=
  num_ltb (num_of_Z 500) (claimable r).

Definition flagged (k : string) (r : record) : bool :=
  truthy (dict_get r k VNone).

(** [a] is not ranked below [b] when [f a < f b] is false. *)
Definition descending {A} (f : A → num) (a b : A) : Prop :=
  num_ltb (f a) (f b) = false.

(** The grouping keys of the two summaries. *)
Definition fy_of (r : record) : value :=
  dict_get r "financial_year" (VStr "Unknown").
Definition cat_of (r : record) : value :=
  dict_get r "primary_category" (VStr "Unknown").

(** The records of [rs] whose key is equal to [k], in their order. *)
Definition group (key_of : record → value) (k : value) (rs : list record)
  : list record :=
  filter (λ r, key_eqb k (key_of r) = true) rs.

(** Sums as the script accumulates them: from [0], left to right. *)
Definition total (f : record → num) (rs : list record) : num :=
  foldl (λ t r, num_add t (f r)) (num_of_Z 0) rs.

Definition abs_amount (r : record) : num := num_abs (amount r).

Definition count_flagged (k : string) (rs : list record) : nat :=
  length (filter (λ r, flagged k r = true) rs).

(** What a summary holds for a group of records. *)
Definition fy_summary (g : list record) : fy_entry :=
  FyEntry (length g) (total abs_amount g) (total claimable g)
          (count_flagged "is_rnd_candidate" g)
          (count_flagged "fbt_implications" g)
          (count_flagged "division7a_risk" g).

Definition cat_summary (g : list record) : cat_entry :=
  CatEntry (length g) (total abs_amount g) (total claimable g).

(** The common shape of a turn of the two grouping loops: the entry of [k]
    is created if there is none, then updated. *)
Definition group_step {A} (k : value) (init : A) (f : A → A) (d : pydict A)
  : pydict A :=
  dict_update
    (if existsb (λ p, key_eqb p.1 k) d then d else d ++ [(k, init)]) k f.

Definition fy_upd (r : record) (d : fy_entry) : fy_entry :=
  FyEntry (S (fy_count d))
          (num_add (fy_total d) (abs_amount r))
          (num_add (fy_claimable d) (claimable r))
          (bump (dict_get r "is_rnd_candidate" VNone) (fy_rnd d))
          (bump (dict_get r "fbt_implications" VNone) (fy_fbt d))
          (bump (dict_get r "division7a_risk" VNone) (fy_div7a d)).

Definition cat_upd (r : record) (d : cat_entry) : cat_entry :=
  CatEntry (S (cat_count d))
           (num_add (cat_total d) (abs_amount r))
           (num_add (cat_claimable d) (claimable r)).

(** The number of keys of [ks] equal to [v]. *)
Definition key_count (v : value) (ks : list value) : nat :=
  length (filter (λ k, key_eqb k v = true) ks).

(** The state of a grouping dict [acc] after the records [p]: no two keys
    are equal, every record has its key, every key comes from a record, and
    an entry is the fold of the updates of its group. *)
Definition grouped {A} (key_of : record → value) (init : A)
    (upd : record → A → A) (p : list record) (acc : pydict A) : Prop :=
  (∀ v, key_count v acc.*1 ≤ 1)%nat ∧
  (∀ r, r ∈ p → key_count (key_of r) acc.*1 = 1%nat) ∧
  (∀ k, k ∈ acc.*1 → key_eqb k k = true ∧ ∃ r, r ∈ p ∧ k = key_of r) ∧
  (∀ k d, (k, d) ∈ acc →
     d = foldl (λ d r, upd r d) init (group key_of k p)).

(** The rows [rows] are one per distinct key of the records [rs], each with
    the cells [cells] of its key and of its group. *)
Definition one_row_per_key (key_of : record → value)
    (cells : value → list record → row) (rs : list record)
    (keys : list value) (rows : list row) : Prop :=
  (∀ r, r ∈ rs → key_count (key_of r) keys = 1%nat) ∧
  (∀ k, k ∈ keys → ∃ r, r ∈ rs ∧ k = key_of r) ∧
  Forall2 (λ k cs, cs = cells k (group key_of k rs)) keys rows.

(** The cells of a row of the year summary, for a given way [tot] of
    totalling the transaction amounts of the year. *)
Definition fy_cells (tot : list record → num) (fy : value) (g : list record)
  : row :=
  [ fy; VInt (Z.of_nat (length g)); money (tot g);
    money (total claimable g);
    VInt (Z.of_nat (count_flagged "is_rnd_candidate" g));
    VInt (Z.of_nat (count_flagged "fbt_implications" g));
    VInt (Z.of_nat (count_flagged "division7a_risk" g)) ].

Definition cat_cells (cat : value) (g : list record) : row :=
  [ cat; VInt (Z.of_nat (length g)); money (total abs_amount g);
    money (total claimable g) ].

(** The year summary file [file] for the records [rs], for a given way [tot]
    of totalling the transaction amounts of a year: the header, then one row
    per distinct [financial_year] value. *)
Definition fy_summary_file (tot : list record → num) (rs : list record)
    (file : option (list row)) : Prop :=
  ∃ years rows,
    file = Some (fy_header :: rows) ∧
    one_row_per_key fy_of (fy_cells tot) rs years rows.

(** The total of the transaction amounts, with their signs. *)
Definition signed_amount_total (rs : list record) : num := total amount rs.

(** A value that the script can compute with: a number, or a falsy value
    (missing, null, empty, zero), which [or 0] replaces. *)
Definition numeric_ok (v : value) : Prop :=
  truthy v = false ∨ is_Some (as_num v).

(** The string of a value that is one. *)
Definition key_str (v : value) : string :=
  match v with
  | VStr s => s
  | _ => ""
  end.

(** *** What a listing shows of a record

    The cells of the five listings, column by column under the names the
    headers give them, as functions of the record alone.  The theorems
    compare the rows that the script writes with these. *)

(** The value of a field as it is, the empty text when the record has no
    such field. *)
Definition shown (k : string) (r : record) : value := dict_get r k (VStr "").

(** A flag. *)
Definition yes_or_no (k : string) (r : record) : value :=
  VStr (if flagged k r then "Yes" else "No").
Definition review_or_no (k : string) (r : record) : value :=
  VStr (if flagged k r then "YES - REVIEW" else "No").

(** The first [n] characters of a text, the first [n] items of a list. *)
Definition cut (n : nat) (v : value) : value :=
  match v with
  | VStr s => VStr (str_take n s)
  | VList l => VList (take n l)
  | _ => v
  end.

(** A text field cut to [n] characters; a missing, null or empty one is the
    empty text. *)
Definition shown_text (n : nat) (k : string) (r : record) : value :=
  cut n (if flagged k r then dict_get r k VNone else VStr "").

(** The compliance notes of a record: the items of the list (the characters
    of a string, the keys of a dict), none when the field is missing, null
    or empty. *)
Definition note_items (r : record) : list string :=
  if flagged "compliance_notes" r then
    match dict_get r "compliance_notes" VNone with
    | VList l => key_str <$> l
    | VStr s => code_points s
    | VDict d => d.*1
    | _ => []
    end
  else [].

(** The notes joined by ['; '] and cut to [n] characters. *)
Definition shown_notes (n : nat) (r : record) : value :=
  VStr (str_take n (String.concat "; " (note_items r))).

(** A column: the name in the header and the cell of a record. *)
Abbreviation column := (string * (record → value))%type.

Definition master_columns : list column :=
  [ ("Financial Year", shown "financial_year");
    ("Date", shown "transaction_date");
    ("Transaction ID", shown "transaction_id");
    ("Supplier", shown "supplier_name");
    ("Amount", shown "transaction_amount");
    ("Description", shown_text 100 "transaction_description");
    ("Category", shown "primary_category");
    ("Category Confidence", shown "category_confidence");
    ("Deduction Type", shown "deduction_type");
    ("Claimable Amount", shown "claimable_amount");
    ("Fully Deductible", yes_or_no "is_fully_deductible");
    ("R&D Candidate", yes_or_no "is_rnd_candidate");
    ("R&D Confidence", shown "rnd_confidence");
    ("R&D Reasoning", shown_text 150 "rnd_reasoning");
    ("FBT Risk", review_or_no "fbt_implications");
    ("Div7A Risk", review_or_no "division7a_risk");
    ("Requires Documentation", yes_or_no "requires_documentation");
    ("Compliance Notes", shown_notes 200) ].

(** The columns of the high-value list after its first one, the rank. *)
Definition hv_columns : list column :=
  [ ("Financial Year", shown "financial_year");
    ("Date", shown "transaction_date");
    ("Supplier", shown "supplier_name");
    ("Amount", shown "transaction_amount");
    ("Claimable", shown "claimable_amount");
    ("Deduction Type", shown "deduction_type");
    ("Category", shown "primary_category");
    ("Confidence", shown "deduction_confidence");
    ("Transaction ID", shown "transaction_id");
    ("Documentation Required", yes_or_no "requires_documentation");
    ("Notes", shown_notes 150) ].

Definition rnd_columns : list column :=
  [ ("Financial Year", shown "financial_year");
    ("Date", shown "transaction_date");
    ("Supplier", shown "supplier_name");
    ("Amount", shown "transaction_amount");
    ("Activity Type", shown "rnd_activity_type");
    ("R&D Confidence", shown "rnd_confidence");
    ("Meets Div355", yes_or_no "meets_div355_criteria");
    ("Outcome Unknown", yes_or_no "div355_outcome_unknown");
    ("Systematic", yes_or_no "div355_systematic_approach");
    ("New Knowledge", yes_or_no "div355_new_knowledge");
    ("Scientific Method", yes_or_no "div355_scientific_method");
    ("Reasoning", shown_text 200 "rnd_reasoning");
    ("Transaction ID", shown "transaction_id") ].

Definition review_columns : list column :=
  [ ("Financial Year", shown "financial_year");
    ("Date", shown "transaction_date");
    ("Supplier", shown "supplier_name");
    ("Amount", shown "transaction_amount");
    ("Category", shown "primary_category");
    ("Description", shown_text 100 "transaction_description");
    ("Compliance Notes", shown_notes 200);
    ("Transaction ID", shown "transaction_id") ].

(** The names of the columns, as a header row. *)
Definition names (cols : list column) : row := VStr <$> cols.*1.

(** The cells of a record under the columns. *)
Definition cells_of (cols : list column) (r : record) : row :=
  (λ c : column, c.2 r) <$> cols.

Definition master_cells : record → row := cells_of master_columns.
Definition rnd_cells : record → row := cells_of rnd_columns.
Definition review_cells : record → row := cells_of review_columns.

(** The row of rank [i] of the high-value list. *)
Definition hv_cells (i : nat) (r : record) : row :=
  VInt (Z.of_nat i) :: cells_of hv_columns r.

(** The rows [rows] are those of the records [rs], one each, in their
    order. *)
Definition listing (cells : record → row) (rs : list record)
    (rows : list row) : Prop :=
  Forall2 (λ r cs, cs = cells r) rs rows.

(** The same for rows that carry their rank, counted from 1. *)
Definition ranked_listing (cells : nat → record → row) (rs : list record)
    (rows : list row) : Prop :=
  length rows = length rs ∧
  ∀ i r, rs !! i = Some r → rows !! i = Some (cells (S i) r).

(** An amount as the summaries show it: a dollar sign, then the number with
    commas between its groups of three digits and with two decimals
    ([num_money]; [Z_money] for an [int]). *)
Definition dollars (x : num) : value := VStr ("$" +:+ num_money x).

(** The seven paths of one organization. *)
Definition report_paths (output_dir company_name : string) : list string :=
  report_path output_dir company_name <$>
    ["_All_Transactions.csv"; "_High_Value_Deductions.csv";
     "_RnD_Candidates.csv"; "_FBT_Review_Required.csv";
     "_Division7A_Review.csv"; "_Summary_By_FY.csv"; "_By_Category.csv"].

(** *** Vocabulary of the further properties *)

(** The lines a run prints, given the counts it returns. *)
Definition created_lines (output_dir company_name : string) (s : stats)
  : list string :=
  let path := report_path output_dir company_name in
  [ created (path "_All_Transactions.csv");
    created_n (path "_High_Value_Deductions.csv") (high_value s);
    created_n (path "_RnD_Candidates.csv") (rnd_candidates s);
    created_n (path "_FBT_Review_Required.csv") (fbt_issues s);
    created_n (path "_Division7A_Review.csv") (div7a_issues s);
    created (path "_Summary_By_FY.csv");
    created (path "_By_Category.csv") ].

(** The file has a header of [width] cells and every row below it has
    [width] cells. *)
Definition rectangular (width : nat) (file : option (list row)) : Prop :=
  ∃ hdr rows, file = Some (hdr :: rows) ∧
    length hdr = width ∧ Forall (λ cells, length cells = width) rows.

(** [a] and [b] rank alike under [f]: neither is below the other. *)
Definition tied {A} (f : A → num) (a b : A) : bool :=
  negb (num_ltb (f a) (f b)) && negb (num_ltb (f b) (f a)).

(** The fields of a record that the script reads. *)
Definition read_fields : list string :=
  [ "financial_year"; "transaction_date"; "transaction_id"; "supplier_name";
    "transaction_amount"; "transaction_description"; "primary_category";
    "category_confidence"; "deduction_type"; "claimable_amount";
    "is_fully_deductible"; "is_rnd_candidate"; "rnd_confidence";
    "rnd_reasoning"; "fbt_implications"; "division7a_risk";
    "requires_documentation"; "compliance_notes"; "deduction_confidence";
    "rnd_activity_type"; "meets_div355_criteria"; "div355_outcome_unknown";
    "div355_systematic_approach"; "div355_new_knowledge";
    "div355_scientific_method" ].

(** Two records that [get] cannot tell apart on the fields the script
    reads. *)
Definition same_fields (r1 r2 : record) : Prop :=
  Forall (λ k, ∀ d, dict_get r1 k d = dict_get r2 k d) read_fields.

(** The number of characters (code points) of a text cell, of items of a
    list cell. *)
Definition cell_size (v : value) : nat :=
  match v with
  | VStr s => str_len s
  | VList l => length l
  | _ => 0%nat
  end.

(** Cell [i] of the row holds at most [n] characters. *)
Definition cut_at (n i : nat) (cells : row) : Prop :=
  ∃ v, cells !! i = Some v ∧ (cell_size v ≤ n)%nat.


End Model.

Arguments Done {num A}.
Arguments Failed {num A}.
Arguments Contents {num E}.
Arguments c_master {num E}.
Arguments c_high_value {num E}.
Arguments c_hv_rows {num E}.
Arguments c_rnd {num E}.
Arguments c_rnd_rows {num E}.
Arguments c_fbt {num E}.
Arguments c_fbt_rows {num E}.
Arguments c_div7a {num E}.
Arguments c_div7a_rows {num E}.
Arguments c_by_fy {num E}.
Arguments c_years {num E}.
Arguments c_fy_rows {num E}.
Arguments c_by_cat {num E}.
Arguments c_cats {num E}.
Arguments c_cat_rows {num E}.

Abbreviation record := (list (string * value)).
Abbreviation row := (list value).
Abbreviation pydict A := (list (value * A)).
Abbreviation store := (gmap loc obj).

(** ** A sample run, on Python's [int]

    Four records: a refund and a purchase of the same year, a record of
    another year with compliance notes, and a record with null amounts and
    no year.  In [state2] the same records live at other references, and two
    files are there before the run. *)
Module Sample.

#[local] Abbreviation value := (@value Z).
#[local] Abbreviation record := (list (string * value)).
#[local] Abbreviation state := (@state Z).
#[local] Abbreviation outcome := (@outcome Z).

Definition r1 : record :=
  [ ("financial_year", VStr "FY2024-25"); ("claimable_amount", VNum 600%Z);
    ("transaction_amount", VNum (-700)%Z); ("is_rnd_candidate", VBool true);
    ("primary_category", VStr "Software") ].

Definition r2 : record :=
  [ ("financial_year", VStr "FY2023-24"); ("claimable_amount", VNum 1600%Z);
    ("transaction_amount", VNum 2000%Z); ("is_rnd_candidate", VBool true);
    ("compliance_notes", VList [VStr "keep invoice"; VStr "check GST"]) ].

Definition r3 : record :=
  [ ("claimable_amount", VNone); ("transaction_amount", VNone);
    ("fbt_implications", VStr "car") ].

Definition r4 : record :=
  [ ("financial_year", VStr "FY2024-25"); ("claimable_amount", VNum 100%Z);
    ("transaction_amount", VNum 100%Z); ("division7a_risk", VBool true);
    ("primary_category", VStr "Software") ].

Definition records : list record := [r1; r2; r3; r4].

Definition state1 : state :=
  State (<[0%nat := OList [1; 2; 3; 4]%nat]>
           (<[1%nat := ODict r1]> (<[2%nat := ODict r2]>
           (<[3%nat := ODict r3]> (<[4%nat := ODict r4]> ∅)))))
        ∅ [] [].

Definition state2 : state :=
  State (<[9%nat := OList [5; 6; 7; 8]%nat]>
           (<[5%nat := ODict r1]> (<[6%nat := ODict r2]>
           (<[7%nat := ODict r3]> (<[8%nat := ODict r4]> ∅)))))
        (<[report_path "out" "DRQ" "_By_Category.csv" := [[VStr "stale"]]]>
           (<["notes.csv" := []]> ∅))
        ["started"] [].

Definition run (results : loc) (st : state) : outcome stats :=
  generate_csv_reports results "DRQ" "out" st.

Definition stats_of (r : outcome stats) : stats :=
  match r with
  | Done s _ => s
  | Failed _ _ => Stats 0 0 0 0 0
  end.

Definition state_of (r : outcome stats) (st : state) : state :=
  match r with
  | Done _ st' => st'
  | Failed _ _ => st
  end.

Definition stats1 : stats := stats_of (run 0%nat state1).
Definition final1 : state := state_of (run 0%nat state1) state1.

(** A results list with a record whose amount is a string: [abs] raises. *)
Definition bad : record := [("transaction_amount", VStr "n/a")].
Definition state3 : state :=
  State (<[0%nat := OList [1%nat]]> (<[1%nat := ODict bad]> ∅)) ∅ [] [].

(** A document without a ['results'] key, and a state in which the list it
    loads as is stored. *)
Definition no_results : record := [("status", VStr "done")].
Definition empty_state : state :=
  State (<[0%nat := OList []]> ∅) ∅ [] [].

(** A record with a null financial year, next to [r1]. *)
Definition null_year : record :=
  [ ("financial_year", VNone); ("transaction_amount", VNum 5%Z) ].
Definition state4 : state :=
  State (<[0%nat := OList [1; 2]%nat]>
           (<[1%nat := ODict null_year]> (<[2%nat := ODict r1]> ∅)))
        ∅ [] [].

(** The four records, each with a field that the script does not read. *)
Definition memo (r : record) : record := ("memo", VStr "checked") :: r.
Definition state5 : state :=
  State (<[0%nat := OList [1; 2; 3; 4]%nat]>
           (<[1%nat := ODict (memo r1)]> (<[2%nat := ODict (memo r2)]>
           (<[3%nat := ODict (memo r3)]> (<[4%nat := ODict (memo r4)]> ∅)))))
        ∅ [] [].

(** A results list whose second item is a list. *)
Definition state6 : state :=
  State (<[0%nat := OList [1; 2]%nat]>
           (<[1%nat := ODict r1]> (<[2%nat := OList []]> ∅)))
        ∅ [] [].

(** A record with every field that the script reads, some of its texts
    longer than the listings keep and written in a character of two bytes,
    next to [r1]; one file was opened before the run. *)
Definition accents (n : nat) : string := String.concat "" (replicate n "é").

Definition wordy : record :=
  [ ("financial_year", VStr "FY2022-23");
    ("transaction_date", VStr "2023-03-01");
    ("transaction_id", VStr "T-17");
    ("supplier_name", VStr "Café Zoë");
    ("transaction_amount", VNum 1250%Z);
    ("transaction_description", VStr (accents 101));
    ("primary_category", VStr "Meals");
    ("category_confidence", VNum 90%Z);
    ("deduction_type", VStr "Section 8-1");
    ("claimable_amount", VNum 900%Z);
    ("is_fully_deductible", VBool false);
    ("is_rnd_candidate", VBool true);
    ("rnd_confidence", VNum 40%Z);
    ("rnd_reasoning", VStr (accents 201));
    ("fbt_implications", VBool true);
    ("division7a_risk", VBool true);
    ("requires_documentation", VBool true);
    ("compliance_notes",
       VList [VStr (accents 99); VStr (accents 99); VStr "x"]);
    ("deduction_confidence", VNum 85%Z);
    ("rnd_activity_type", VStr "core");
    ("meets_div355_criteria", VBool true);
    ("div355_outcome_unknown", VBool false);
    ("div355_systematic_approach", VBool true);
    ("div355_new_knowledge", VNone);
    ("div355_scientific_method", VStr "yes") ].

Definition state7 : state :=
  State (<[0%nat := OList [1; 2]%nat]>
           (<[1%nat := ODict wordy]> (<[2%nat := ODict r1]> ∅)))
        ∅ [] ["earlier.csv"].

Definition stats7 : stats := stats_of (run 0%nat state7).
Definition final7 : state := state_of (run 0%nat state7) state7.

End Sample.

Section Proofs.
Context {num : Type} `{!PyNumber num}.

#[local] Abbreviation value := (@value num).
#[local] Abbreviation obj := (@obj num).
#[local] Abbreviation state := (@state num).
#[local] Abbreviation M := (@M num).
#[local] Abbreviation outcome := (@outcome num).
#[local] Abbreviation contents := (@contents num).
#[local] Abbreviation fy_entry := (@fy_entry num).
#[local] Abbreviation cat_entry := (@cat_entry num).
#[local] Abbreviation record := (list (string * value)).
#[local] Abbreviation row := (list value).
#[local] Abbreviation pydict A := (list (value * A)).
#[local] Abbreviation store := (gmap loc obj).

(** * Proofs *)

(** ** The result monad *)

Lemma result_bind_Ok {A B} (m : result A) (f : A → result B) b :
  m ≫= f = Ok b ↔ ∃ a, m = Ok a ∧ f a = Ok b.
Proof.
  destruct m as [a|e]; simpl; split.
  - eauto.
  - by intros (a' & [= ->] & ?).
  - done.
  - by intros (a' & ? & ?).
Qed.

Lemma mapR_Ok {A B} (f : A → result B) l k :
  mapR f l = Ok k ↔ Forall2 (λ x y, f x = Ok y) l k.
Proof.
  revert k. induction l as [|x l IH]; intros k; simpl.
  - split; [intros [= <-]; constructor | by inversion 1].
  - split.
    + destruct (f x) as [y|] eqn:Hx; simpl; [|done].
      destruct (mapR f l) as [k'|] eqn:Hl; simpl; [|done].
      intros [= <-]. constructor; [done|]. by apply IH.
    + inversion 1 as [|? y ? k' Hx Hl]; subst. rewrite Hx. simpl.
      apply IH in Hl. rewrite Hl. done.
Qed.

Lemma mapR_length {A B} (f : A → result B) l k :
  mapR f l = Ok k → length k = length l.
Proof. rewrite mapR_Ok. intros H. symmetry. by eapply Forall2_length. Qed.

Lemma mapR_ext_in {A B} (f g : A → result B) l :
  (∀ x, x ∈ l → f x = g x) → mapR f l = mapR g l.
Proof.
  induction l as [|x l IH]; intros H; simpl; [done|].
  rewrite (H x) by left. rewrite IH; [done|].
  intros y Hy. apply H. by right.
Qed.

Lemma mapR_fmap {A B C} (f : B → result C) (g : A → B) l :
  mapR f (g <$> l) = mapR (λ x, f (g x)) l.
Proof.
  induction l as [|x l IH]; csimpl; [done|].
  destruct (f (g x)); simpl; [|done]. by rewrite IH.
Qed.

Lemma mapR_pure {A B} (f : A → B) (l : list A) :
  mapR (λ x, Ok (f x)) l = Ok (f <$> l).
Proof. induction l as [|x l IH]; csimpl; [done|]. by rewrite IH. Qed.

Lemma filterM_pure {A} (p : A → result bool) (q : A → bool) l :
  (∀ x, x ∈ l → p x = Ok (q x)) →
  filterM p l = Ok (filter (λ x, q x = true) l).
Proof.
  induction l as [|x l IH]; intros H; simpl; [done|].
  rewrite (H x) by left. simpl. rewrite IH by (intros y Hy; apply H; by right).
  simpl. rewrite filter_cons. destruct (q x); by case_decide.
Qed.

Lemma filterM_Ok_all {A} (p : A → result bool) l k :
  filterM p l = Ok k → ∀ x, x ∈ l → ∃ b, p x = Ok b.
Proof.
  revert k. induction l as [|x l IH]; intros k; simpl.
  - intros _ y Hy. inversion Hy.
  - destruct (p x) as [b|] eqn:Hx; simpl; [|done].
    destruct (filterM p l) as [k'|] eqn:Hl; simpl; [|done].
    intros _ y Hy. apply elem_of_cons in Hy as [->|Hy]; eauto.
Qed.

Lemma filterM_fmap {A B} (p : B → result bool) (g : A → B) l :
  fmap (M:=result) (fmap g) (filterM (λ x, p (g x)) l) = filterM p (g <$> l).
Proof.
  induction l as [|x l IH]; csimpl; [done|].
  destruct (p (g x)) as [b|]; csimpl; [|done].
  rewrite <-IH. destruct (filterM (λ x0, p (g x0)) l); simpl; [|done].
  by destruct b.
Qed.

Lemma filterM_sublist {A} (p : A → result bool) l k :
  filterM p l = Ok k → sublist k l.
Proof.
  revert k. induction l as [|x l IH]; intros k; simpl.
  - by intros [= <-].
  - destruct (p x) as [b|]; simpl; [|done].
    destruct (filterM p l) as [k'|]; simpl; [|done].
    intros [= <-]. destruct b; [apply sublist_skip|apply sublist_cons]; eauto.
Qed.

Lemma foldM_Ok_all {A B} (step : B → A → result B) l acc acc' :
  foldM step acc l = Ok acc' →
  ∀ x, x ∈ l → ∃ a a', step a x = Ok a'.
Proof.
  revert acc. induction l as [|x l IH]; intros acc; simpl.
  - intros _ y Hy. inversion Hy.
  - destruct (step acc x) as [a1|] eqn:Hx; simpl; [|done].
    intros Hl y Hy. apply elem_of_cons in Hy as [->|Hy]; eauto.
Qed.

Lemma foldM_fmap {A B C} (step : C → B → result C) (g : A → B) l acc :
  foldM step acc (g <$> l) = foldM (λ a x, step a (g x)) acc l.
Proof.
  revert acc. induction l as [|x l IH]; intros acc; csimpl; [done|].
  destruct (step acc (g x)); csimpl; [|done]. apply IH.
Qed.

Lemma foldM_ext_in {A B} (f g : B → A → result B) l acc :
  (∀ a x, x ∈ l → f a x = g a x) → foldM f acc l = foldM g acc l.
Proof.
  revert acc. induction l as [|x l IH]; intros acc H; simpl; [done|].
  rewrite (H acc x) by left. destruct (g acc x) as [acc1|]; simpl; [|done].
  apply IH. intros a' y Hy. apply H. by right.
Qed.

Lemma foldM_app {A B} (step : B → A → result B) l1 l2 acc :
  foldM step acc (l1 ++ l2) = acc' ← foldM step acc l1; foldM step acc' l2.
Proof.
  revert acc. induction l1 as [|x l1 IH]; intros acc; simpl; [done|].
  destruct (step acc x); simpl; [|done]. apply IH.
Qed.

(** ** Sorting *)

Lemma insert_by_pure {A} (lt : A → A → result bool) (f : A → A → bool) x l :
  (∀ y, y ∈ l → lt y x = Ok (f y x)) →
  insert_by lt x l = Ok (insert_pure f x l).
Proof.
  induction l as [|y l IH]; intros H; simpl; [done|].
  rewrite (H y) by left. simpl. destruct (f y x); [|done].
  rewrite IH by (intros z Hz; apply H; by right). done.
Qed.

Lemma insert_pure_perm {A} (f : A → A → bool) x l :
  insert_pure f x l ≡ₚ x :: l.
Proof.
  induction l as [|y l IH]; simpl; [done|].
  destruct (f y x); [|done]. rewrite IH. apply Permutation_swap.
Qed.

Lemma isort_perm {A} (f : A → A → bool) l : isort f l ≡ₚ l.
Proof.
  induction l as [|x l IH]; simpl; [done|].
  by rewrite insert_pure_perm, IH.
Qed.

Lemma insert_by_perm {A} (lt : A → A → result bool) x l k :
  insert_by lt x l = Ok k → k ≡ₚ x :: l.
Proof.
  revert k. induction l as [|y l IH]; intros k; simpl.
  - by intros [= <-].
  - destruct (lt y x) as [[]|]; simpl; [| by intros [= <-] | done].
    destruct (insert_by lt x l) as [k'|]; simpl; [|done].
    intros [= <-]. rewrite (IH k') by done. apply Permutation_swap.
Qed.

Lemma sort_by_perm {A} (lt : A → A → result bool) l k :
  sort_by lt l = Ok k → k ≡ₚ l.
Proof.
  revert k. induction l as [|x l IH]; intros k; simpl.
  - by intros [= <-].
  - destruct (sort_by lt l) as [s|]; simpl; [|done].
    intros Hk. apply insert_by_perm in Hk. rewrite Hk. by rewrite (IH s).
Qed.

Lemma sort_by_pure {A} (lt : A → A → result bool) (f : A → A → bool) l :
  (∀ x y, x ∈ l → y ∈ l → lt x y = Ok (f x y)) →
  sort_by lt l = Ok (isort f l).
Proof.
  induction l as [|x l IH]; intros H; simpl; [done|].
  rewrite IH by (intros y z Hy Hz; apply H; by right). simpl.
  apply insert_by_pure. intros y Hy. rewrite isort_perm in Hy.
  apply H; [by right | by left].
Qed.

Section isort_sorted.
Context {A} (f : A → A → bool).
Hypothesis f_asym : ∀ a b, f a b = true → f b a = false.
Hypothesis f_negtrans : ∀ a b c, f a b = false → f b c = false → f a c = false.

(** Ascending: no element is followed by a smaller one. *)
Lemma insert_pure_sorted x l :
  StronglySorted (λ a b, f b a = false) l →
  StronglySorted (λ a b, f b a = false) (insert_pure f x l).
Proof.
  induction l as [|y l IH]; intros Hl; simpl.
  - repeat constructor.
  - apply StronglySorted_cons in Hl as [Hy Hl].
    destruct (f y x) eqn:Hyx.
    + apply StronglySorted_cons. split; [|by apply IH].
      rewrite insert_pure_perm. constructor; [by apply f_asym | done].
    + apply StronglySorted_cons. split.
      * constructor; [done|]. eapply Forall_impl; [exact Hy|].
        simpl. intros z Hz. by eapply f_negtrans.
      * by apply StronglySorted_cons.
Qed.

Lemma isort_sorted l : StronglySorted (λ a b, f b a = false) (isort f l).
Proof.
  induction l as [|x l IH]; simpl; [constructor|].
  by apply insert_pure_sorted.
Qed.
End isort_sorted.

Lemma StronglySorted_reverse {A} (R : relation A) l :
  StronglySorted R l → StronglySorted (flip R) (reverse l).
Proof.
  induction 1 as [|x l Hl IH Hx]; [constructor|].
  rewrite reverse_cons. apply StronglySorted_app. split_and!.
  - intros a b Ha Hb. apply list_elem_of_singleton in Hb as ->.
    rewrite elem_of_reverse in Ha.
    rewrite Forall_forall in Hx. unfold flip. by apply Hx.
  - done.
  - repeat constructor.
Qed.

(** ** [sorted] *)

Lemma keyed_snd {A} (key : A → result value) l keyed :
  mapR (λ x, k ← key x; Ok (k, x)) l = Ok keyed → keyed.*2 = l.
Proof.
  rewrite mapR_Ok. induction 1 as [|x y l k Hxy Hlk IH]; csimpl; [done|].
  destruct (key x); simplify_eq/=. done.
Qed.

Lemma keyed_elem {A} (key : A → result value) l keyed y :
  mapR (λ x, k ← key x; Ok (k, x)) l = Ok keyed →
  y ∈ keyed → y.2 ∈ l ∧ key y.2 = Ok y.1.
Proof.
  rewrite mapR_Ok. induction 1 as [|x z l k Hxy Hlk IH]; [by inversion 1|].
  intros [->|Hy]%elem_of_cons.
  - destruct (key x) eqn:Hkx; simplify_eq/=. split; [left|done].
  - destruct (IH Hy). split; [by right|done].
Qed.

Lemma py_sorted_perm {A} (key : A → result value) b l s :
  py_sorted key b l = Ok s → s ≡ₚ l.
Proof.
  unfold py_sorted. intros (keyed & Hk & H)%result_bind_Ok.
  apply result_bind_Ok in H as (s0 & Hs & [= <-]).
  apply sort_by_perm in Hs. apply keyed_snd in Hk. rewrite <-Hk.
  destruct b; by rewrite ?reverse_Permutation, Hs, ?reverse_Permutation.
Qed.

Lemma sort_by_fmap {A B} (lt : B → B → result bool) (g : A → B) l :
  fmap (M:=result) (fmap g) (sort_by (λ a b, lt (g a) (g b)) l)
  = sort_by lt (g <$> l).
Proof.
  assert (Hins : ∀ x k,
    fmap (M:=result) (fmap g) (insert_by (λ a b, lt (g a) (g b)) x k)
    = insert_by lt (g x) (g <$> k)).
  { intros x k. induction k as [|y k IH]; csimpl; [done|].
    destruct (lt (g y) (g x)) as [[]|]; csimpl; [|done..].
    rewrite <-IH. by destruct (insert_by _ x k). }
  induction l as [|x l IH]; csimpl; [done|].
  rewrite <-IH. destruct (sort_by _ l) as [s|]; csimpl; [|done].
  apply Hins.
Qed.

Lemma py_sorted_fmap {A B} (key : B → result value) (g : A → B) b l :
  fmap (M:=result) (fmap g) (py_sorted (λ a, key (g a)) b l)
  = py_sorted key b (g <$> l).
Proof.
  unfold py_sorted.
  assert (Hk : mapR (λ x, k ← key x; Ok (k, x)) (g <$> l)
    = fmap (M:=result) (fmap (prod_map id g))
        (mapR (λ x, k ← key (g x); Ok (k, x)) l)).
  { induction l as [|x l IH]; csimpl; [done|].
    destruct (key (g x)); csimpl; [|done]. rewrite IH.
    by destruct (mapR _ l). }
  rewrite Hk. destruct (mapR _ l) as [keyed|]; csimpl; [|done].
  assert (Hrev : (if b then reverse (prod_map id g <$> keyed)
                  else prod_map id g <$> keyed)
    = prod_map id g <$> (if b then reverse keyed else keyed)).
  { destruct b; [by rewrite fmap_reverse|done]. }
  rewrite Hrev.
  rewrite <-(sort_by_fmap (λ a b, py_lt a.1 b.1) (prod_map id g)). simpl.
  destruct (sort_by _ _) as [s|]; csimpl; [|done].
  f_equal. destruct b; rewrite <-?fmap_reverse, <-!list_fmap_compose;
    by apply list_fmap_ext.
Qed.

(** On numeric keys [sorted] cannot raise, and with [reverse=True] the
    result is in descending order. *)
Section py_sorted_numeric.
Context `{!PyNumberLaws num} {A : Type}.
Context (key : A → result value) (f : A → num) (l : list A).
Hypothesis key_num : ∀ x, x ∈ l → ∃ v, key x = Ok v ∧ as_num v = Some (f x).

Lemma py_sorted_numeric_Ok b : ∃ s, py_sorted key b l = Ok s.
Proof.
  unfold py_sorted.
  destruct (mapR (λ x, k ← key x; Ok (k, x)) l) as [keyed|e] eqn:Hk.
  - simpl.
    rewrite (sort_by_pure _ (λ a b, num_ltb (f a.2) (f b.2))); [by eexists|].
    intros x y Hx Hy.
    assert (Hx' : x ∈ keyed) by (destruct b; by rewrite ?elem_of_reverse in Hx).
    assert (Hy' : y ∈ keyed) by (destruct b; by rewrite ?elem_of_reverse in Hy).
    destruct (keyed_elem _ _ _ _ Hk Hx') as [Hxl Hxk].
    destruct (keyed_elem _ _ _ _ Hk Hy') as [Hyl Hyk].
    destruct (key_num _ Hxl) as (v & Hv & Hvn).
    destruct (key_num _ Hyl) as (w & Hw & Hwn).
    rewrite Hv in Hxk. rewrite Hw in Hyk. simplify_eq.
    unfold py_lt. by rewrite Hvn, Hwn.
  - exfalso. clear -Hk key_num. revert e Hk.
    induction l as [|x l' IH]; intros e; simpl; [done|].
    destruct (key_num x) as (v & Hv & _); [left|]. rewrite Hv. simpl.
    destruct (mapR _ l') eqn:Hl; simpl; [done|].
    intros _. eapply IH; [|done]. intros y Hy. apply key_num. by right.
Qed.

Lemma py_sorted_descending s :
  py_sorted key true l = Ok s → StronglySorted (descending f) s.
Proof.
  unfold py_sorted. intros (keyed & Hk & H)%result_bind_Ok.
  apply result_bind_Ok in H as (s0 & Hs & [= <-]).
  rewrite (sort_by_pure _ (λ a b, num_ltb (f a.2) (f b.2))) in Hs.
  - injection Hs as <-.
    eapply StronglySorted_fmap; [|apply StronglySorted_reverse, isort_sorted].
    + intros x y. unfold flip, descending. done.
    + intros a b. apply num_ltb_asym.
    + intros a b c. apply num_ltb_negtrans.
  - intros x y Hx Hy. rewrite elem_of_reverse in Hx, Hy.
    destruct (keyed_elem _ _ _ _ Hk Hx) as [Hxl Hxk].
    destruct (keyed_elem _ _ _ _ Hk Hy) as [Hyl Hyk].
    destruct (key_num _ Hxl) as (v & Hv & Hvn).
    destruct (key_num _ Hyl) as (w & Hw & Hwn).
    rewrite Hv in Hxk. rewrite Hw in Hyk. simplify_eq.
    unfold py_lt. by rewrite Hvn, Hwn.
Qed.
End py_sorted_numeric.

(** ** Reading records through the store *)

Lemma filterM_ext_in {A} (p q : A → result bool) l :
  (∀ x, x ∈ l → p x = q x) → filterM p l = filterM q l.
Proof.
  induction l as [|x l IH]; intros H; simpl; [done|].
  rewrite (H x) by left. rewrite IH; [done|].
  intros y Hy. apply H. by right.
Qed.

Lemma py_sorted_ext_in {A} (key key' : A → result value) b l :
  (∀ x, x ∈ l → key x = key' x) → py_sorted key b l = py_sorted key' b l.
Proof.
  intros H. unfold py_sorted.
  rewrite (mapR_ext_in _ (λ x, k ← key' x; Ok (k, x))); [done|].
  intros x Hx. by rewrite H.
Qed.

Lemma enumerate_fmap {A B} (g : A → B) n l :
  enumerate n (g <$> l) = prod_map id g <$> enumerate n l.
Proof. revert n. induction l as [|x l IH]; intros n; csimpl; [done|]. by rewrite IH. Qed.

Lemma enumerate_elem {A} n (l : list A) p : p ∈ enumerate n l → p.2 ∈ l.
Proof.
  revert n. induction l as [|x l IH]; intros n; simpl; [by inversion 1|].
  intros [->|Hp]%elem_of_cons; [left|right; eauto].
Qed.

Lemma enumerate_length {A} n (l : list A) : length (enumerate n l) = length l.
Proof. revert n. induction l as [|x l IH]; intros n; simpl; [done|]. by rewrite IH. Qed.

Lemma heap_dict_bound (h0 h : store) es e :
  h0 ⊆ h → bound h0 es → e ∈ es → heap_dict h e.1 = Ok e.2.
Proof.
  intros Hsub Hb He. unfold heap_dict, bound in *. rewrite Forall_forall in Hb.
  by rewrite (lookup_weaken _ _ _ _ (Hb e He) Hsub).
Qed.

Lemma mapR_deref {B} (h0 h : store) es (g : record → result B) :
  h0 ⊆ h → bound h0 es →
  mapR (λ x, d ← heap_dict h x; g d) es.*1 = mapR (λ e, g e.2) es.
Proof.
  intros Hsub Hb. rewrite mapR_fmap. apply mapR_ext_in. intros e He.
  by rewrite (heap_dict_bound h0 h es).
Qed.

Lemma mapR_deref_enumerate {B} (h0 h : store) es n
    (g : nat → record → result B) :
  h0 ⊆ h → bound h0 es →
  mapR (λ p, d ← heap_dict h p.2; g p.1 d) (enumerate n es.*1)
  = mapR (λ p, g p.1 p.2.2) (enumerate n es).
Proof.
  intros Hsub Hb. rewrite enumerate_fmap, mapR_fmap. apply mapR_ext_in.
  intros [i e] He%enumerate_elem. simpl in *.
  by rewrite (heap_dict_bound h0 h es).
Qed.

Lemma filterM_deref (h0 h : store) es (cond : record → result bool) :
  h0 ⊆ h → bound h0 es →
  filterM (λ x, d ← heap_dict h x; cond d) es.*1
  = fmap (M:=result) (fmap fst) (filterM (λ e, cond e.2) es).
Proof.
  intros Hsub Hb. rewrite <-filterM_fmap. f_equal. apply filterM_ext_in.
  intros e He. by rewrite (heap_dict_bound h0 h es).
Qed.

Lemma py_sorted_deref (h0 h : store) es (key : record → value) b :
  h0 ⊆ h → bound h0 es →
  py_sorted (λ x, d ← heap_dict h x; Ok (key d)) b es.*1
  = fmap (M:=result) (fmap fst) (py_sorted (λ e, Ok (key e.2)) b es).
Proof.
  intros Hsub Hb. rewrite <-py_sorted_fmap. f_equal. apply py_sorted_ext_in.
  intros e He. by rewrite (heap_dict_bound h0 h es).
Qed.

Lemma foldM_deref {B} (h0 h : store) es (step : B → record → result B) init :
  h0 ⊆ h → bound h0 es →
  foldM (λ acc r, d ← heap_dict h r; step acc d) init es.*1
  = foldM (λ acc e, step acc e.2) init es.
Proof.
  intros Hsub Hb. rewrite foldM_fmap. apply foldM_ext_in. intros a e He.
  by rewrite (heap_dict_bound h0 h es).
Qed.

Lemma bound_sublist (h : store) k es : sublist k es → bound h es → bound h k.
Proof.
  unfold bound. rewrite !Forall_forall. intros Hk Hb e He.
  apply Hb. by eapply elem_of_sublist.
Qed.

Lemma bound_perm (h : store) k es : k ≡ₚ es → bound h es → bound h k.
Proof. unfold bound. by intros ->. Qed.

(** ** Running the primitives *)

Lemma run_bind {A B} (m : M A) (k : A → M B) (st : state) :
  returned ((m ≫= k) st)
  = match returned (m st) with
    | Ok (a, st') => returned (k a st')
    | Raise e => Raise e
    end.
Proof. unfold mbind, M_bind. by destruct (m st). Qed.

Lemma run_read {A} (f : store → result A) (st : state) :
  returned (read f st) = (a ← f (heap st); Ok (a, st)).
Proof. unfold read. by destruct (f (heap st)). Qed.

Lemma run_lift {A} (r : result A) (st : state) :
  returned (lift r st) = (a ← r; Ok (a, st)).
Proof. apply run_read. Qed.

Lemma run_iter (h0 : store) l items (st : state) :
  h0 ⊆ heap st → h0 !! l = Some (OList items) →
  returned (iter l st) = Ok (items, st).
Proof.
  intros Hsub Hl. unfold iter. rewrite run_read. unfold heap_iter.
  by rewrite (lookup_weaken _ _ _ _ Hl Hsub).
Qed.

Lemma run_len (h0 : store) l items (st : state) :
  h0 ⊆ heap st → h0 !! l = Some (OList items) →
  returned (len l st) = Ok (length items, st).
Proof.
  intros Hsub Hl. unfold len. rewrite run_read. unfold heap_len.
  by rewrite (lookup_weaken _ _ _ _ Hl Hsub).
Qed.

Lemma for_each_writerow {A} (body : A → M unit) (f : A → result row)
    path items h F out op rows0 :
  (∀ x F', returned (body x (State h F' out op)) =
     match f x with
     | Ok cells => returned (writerow path cells (State h F' out op))
     | Raise e => Raise e
     end) →
  returned (for_each items body (State h (<[path := rows0]> F) out op))
  = (rows ← mapR f items;
     Ok ((), State h (<[path := rows0 ++ rows]> F) out op)).
Proof.
  intros Hbody. revert rows0. induction items as [|x items IH]; intros rows0.
  - simpl. by rewrite app_nil_r.
  - simpl. rewrite run_bind, Hbody. destruct (f x) as [cells|]; simpl; [|done].
    rewrite alter_insert_eq, IH.
    destruct (mapR f items); simpl; [|done]. by rewrite <-app_assoc.
Qed.

Lemma run_list_comp (h0 : store) src es cond (st : state) :
  h0 ⊆ heap st → h0 !! src = Some (OList es.*1) → bound h0 es →
  returned (list_comp src cond st)
  = (kept ← filterM (λ e, cond e.2) es;
     Ok (fresh (dom (heap st)),
         State (alloc kept.*1 (heap st)) (files st) (stdout st)
               (opened st))).
Proof.
  intros Hsub Hsrc Hb. unfold list_comp.
  rewrite run_bind, (run_iter h0 src es.*1) by done.
  rewrite run_bind, run_read, (filterM_deref h0) by done.
  by destruct (filterM _ es).
Qed.

Lemma run_list_sort (h0 : store) l es key b (h : store) F out op :
  h0 ⊆ h → h0 !! l = None → bound h0 es →
  returned (list_sort l key b (State (<[l := OList es.*1]> h) F out op))
  = (s ← py_sorted (λ e, Ok (key e.2)) b es;
     Ok ((), State (<[l := OList s.*1]> h) F out op)).
Proof.
  intros Hsub Hl Hb. unfold list_sort.
  rewrite run_bind. unfold iter. rewrite run_read. unfold heap_iter. simpl.
  rewrite lookup_insert_eq. simpl.
  rewrite run_bind, run_read. simpl.
  rewrite (py_sorted_deref h0) by (by try apply insert_subseteq_r).
  destruct (py_sorted _ b es) as [s|]; simpl; [|done].
  unfold store_list. simpl. by rewrite insert_insert_eq.
Qed.

Lemma run_for_in_rows (h0 : store) l es (g : record → result row) path
    (h : store) F out op rows0 :
  h0 ⊆ h → h !! l = Some (OList es.*1) → bound h0 es →
  returned
    (for_in l (λ r, d ← load_dict r; cells ← lift (g d); writerow path cells)
       (State h (<[path := rows0]> F) out op))
  = (rows ← mapR (λ e, g e.2) es;
     Ok ((), State h (<[path := rows0 ++ rows]> F) out op)).
Proof.
  intros Hsub Hl Hb. unfold for_in.
  rewrite run_bind. unfold iter. rewrite run_read. unfold heap_iter. simpl.
  rewrite Hl. simpl.
  rewrite (for_each_writerow _ (λ x, d ← heap_dict h x; g d)).
  - by rewrite (mapR_deref h0).
  - intros x F'. unfold load_dict. rewrite run_bind, run_read. simpl.
    destruct (heap_dict h x) as [d|]; simpl; [|done].
    rewrite run_bind, run_lift. by destruct (g d).
Qed.

Lemma run_for_enumerate_rows (h0 : store) l es
    (g : nat → record → result row) path (h : store) F out op rows0 n :
  h0 ⊆ h → h !! l = Some (OList es.*1) → bound h0 es →
  returned
    (for_enumerate l n
       (λ i r, d ← load_dict r; cells ← lift (g i d); writerow path cells)
       (State h (<[path := rows0]> F) out op))
  = (rows ← mapR (λ p, g p.1 p.2.2) (enumerate n es);
     Ok ((), State h (<[path := rows0 ++ rows]> F) out op)).
Proof.
  intros Hsub Hl Hb. unfold for_enumerate.
  rewrite run_bind. unfold iter. rewrite run_read. unfold heap_iter. simpl.
  rewrite Hl. simpl.
  rewrite (for_each_writerow _ (λ p, d ← heap_dict h p.2; g p.1 d)).
  - by rewrite (mapR_deref_enumerate h0).
  - intros x F'. unfold load_dict. rewrite run_bind, run_read. simpl.
    destruct (heap_dict h x.2) as [d|]; simpl; [|done].
    rewrite run_bind, run_lift. by destruct (g x.1 d).
Qed.

Lemma run_for_each_rows {A} (g : A → result row) items path h F out op rows0 :
  returned
    (for_each items (λ x, cells ← lift (g x); writerow path cells)
       (State h (<[path := rows0]> F) out op))
  = (rows ← mapR g items;
     Ok ((), State h (<[path := rows0 ++ rows]> F) out op)).
Proof.
  apply for_each_writerow. intros x F'.
  rewrite run_bind, run_lift. by destruct (g x).
Qed.

Lemma run_fold_in {B} (h0 : store) l es (step : B → record → result B)
    init (st : state) :
  h0 ⊆ heap st → h0 !! l = Some (OList es.*1) → bound h0 es →
  returned (fold_in l step init st)
  = (acc ← foldM (λ a e, step a e.2) init es; Ok (acc, st)).
Proof.
  intros Hsub Hl Hb. unfold fold_in.
  rewrite run_bind, (run_iter h0 l es.*1) by done.
  by rewrite run_read, (foldM_deref h0).
Qed.

Lemma run_open_header {B} path hdr (k : M B) (h : store) F out op :
  returned ((open_w path;; writerow path hdr;; k) (State h F out op))
  = returned (k (State h (<[path := [hdr]]> F) out (op ++ [path]))).
Proof.
  rewrite run_bind. unfold open_w at 1. simpl.
  rewrite run_bind. unfold writerow at 1. simpl.
  by rewrite alter_insert_eq.
Qed.

(** ** The run of the script *)

Lemma fresh_None (h0 h : store) : h0 ⊆ h → h0 !! fresh (dom h) = None.
Proof.
  intros Hsub. destruct (h0 !! fresh (dom h)) as [o|] eqn:Hl; [|done].
  apply (lookup_weaken _ _ _ _ Hl) in Hsub.
  apply (elem_of_dom_2 (D:=gset loc)) in Hsub. by apply is_fresh in Hsub.
Qed.

Lemma alloc_subseteq items (h0 h : store) : h0 ⊆ h → h0 ⊆ alloc items h.
Proof. intros Hsub. apply insert_subseteq_r; [by apply fresh_None|done]. Qed.

Lemma generate_csv_reports_run results es company dir (st : state) :
  heap st !! results = Some (OList es.*1) → bound (heap st) es →
  returned (generate_csv_reports results company dir st)
  = (c ← render snd es;
     Ok (final_stats (length es) c,
         State (final_heap c (heap st)) (final_files dir company c (files st))
               (stdout st ++ final_stdout dir company c)
               (opened st ++ report_paths dir company))).
Proof.
  destruct st as [h F out op]. simpl. intros Hres Hb.
  unfold generate_csv_reports, render. cbv zeta.
  (* 1 *)
  rewrite run_open_header.
  rewrite run_bind, (run_for_in_rows h _ es) by done.
  destruct (mapR _ es) as [m|]; simpl; [|done].
  rewrite run_bind. unfold print at 1. simpl.
  (* 2 *)
  rewrite run_bind, (run_list_comp h results es) by done.
  destruct (filterM _ es) as [hv0|] eqn:Hhv0; simpl; [|done].
  apply filterM_sublist in Hhv0.
  unfold alloc at 1.
  rewrite run_bind, (run_list_sort h)
    by eauto using fresh_None, bound_sublist.
  destruct (py_sorted _ true hv0) as [hv|] eqn:Hhv; simpl; [|done].
  apply py_sorted_perm in Hhv.
  assert (Hbhv : bound h hv) by eauto using bound_perm, bound_sublist.
  fold (alloc hv.*1 h).
  assert (Hl1 : alloc hv.*1 h !! fresh (dom h) = Some (OList hv.*1))
    by apply lookup_insert_eq.
  assert (Hs1 : h ⊆ alloc hv.*1 h) by by apply alloc_subseteq.
  rewrite run_open_header.
  rewrite run_bind, (run_for_enumerate_rows h _ hv) by done.
  destruct (mapR _ (enumerate 1 hv)) as [hv_rows|]; simpl; [|done].
  rewrite run_bind, (run_len (alloc hv.*1 h) _ hv.*1) by done. simpl.
  rewrite run_bind. unfold print at 1. simpl.
  (* 3 *)
  rewrite run_bind, (run_list_comp h results es) by done.
  destruct (filterM _ es) as [rnd0|] eqn:Hrnd0; simpl; [|done].
  apply filterM_sublist in Hrnd0.
  set (h1 := alloc hv.*1 h) in *.
  unfold alloc at 1.
  rewrite run_bind, (run_list_sort h)
    by eauto using fresh_None, bound_sublist.
  destruct (py_sorted _ true rnd0) as [rnd|] eqn:Hrnd; simpl; [|done].
  apply py_sorted_perm in Hrnd.
  assert (Hbrnd : bound h rnd) by eauto using bound_perm, bound_sublist.
  fold (alloc rnd.*1 h1).
  assert (Hl2 : alloc rnd.*1 h1 !! fresh (dom h1) = Some (OList rnd.*1))
    by apply lookup_insert_eq.
  assert (Hs2 : h1 ⊆ alloc rnd.*1 h1) by by apply alloc_subseteq.
  set (h2 := alloc rnd.*1 h1) in *.
  assert (Hs2' : h ⊆ h2) by (by etrans).
  rewrite run_open_header.
  rewrite run_bind, (run_for_in_rows h _ rnd) by done.
  destruct (mapR _ rnd) as [rnd_rows|]; simpl; [|done].
  rewrite run_bind, (run_len h2 _ rnd.*1) by done. simpl.
  rewrite run_bind. unfold print at 1. simpl.
  (* 4 *)
  rewrite run_bind, (run_list_comp h results es) by done.
  destruct (filterM _ es) as [fbt|] eqn:Hfbt; simpl; [|done].
  apply filterM_sublist in Hfbt.
  assert (Hbfbt : bound h fbt) by eauto using bound_sublist.
  assert (Hl3 : alloc fbt.*1 h2 !! fresh (dom h2) = Some (OList fbt.*1))
    by apply lookup_insert_eq.
  assert (Hs3 : h2 ⊆ alloc fbt.*1 h2) by by apply alloc_subseteq.
  set (h3 := alloc fbt.*1 h2) in *.
  assert (Hs3' : h ⊆ h3) by (by etrans).
  rewrite run_open_header.
  rewrite run_bind, (run_for_in_rows h _ fbt) by done.
  destruct (mapR _ fbt) as [fbt_rows|]; simpl; [|done].
  rewrite run_bind, (run_len h3 _ fbt.*1) by done. simpl.
  rewrite run_bind. unfold print at 1. simpl.
  (* 5 *)
  rewrite run_bind, (run_list_comp h results es) by done.
  destruct (filterM _ es) as [div7a|] eqn:Hdiv7a; simpl; [|done].
  apply filterM_sublist in Hdiv7a.
  assert (Hbdiv7a : bound h div7a) by eauto using bound_sublist.
  assert (Hl4 : alloc div7a.*1 h3 !! fresh (dom h3) = Some (OList div7a.*1))
    by apply lookup_insert_eq.
  assert (Hs4 : h3 ⊆ alloc div7a.*1 h3) by by apply alloc_subseteq.
  set (h4 := alloc div7a.*1 h3) in *.
  assert (Hs4' : h ⊆ h4) by (by etrans).
  rewrite run_open_header.
  rewrite run_bind, (run_for_in_rows h _ div7a) by done.
  destruct (mapR _ div7a) as [div7a_rows|]; simpl; [|done].
  rewrite run_bind, (run_len h4 _ div7a.*1) by done. simpl.
  rewrite run_bind. unfold print at 1. simpl.
  (* 6 *)
  rewrite run_bind, (run_fold_in h results es) by done.
  destruct (foldM _ [] es) as [by_fy|]; simpl; [|done].
  rewrite run_open_header.
  rewrite run_bind, run_lift.
  destruct (py_sorted Ok false by_fy.*1) as [years|]; simpl; [|done].
  rewrite run_bind, run_for_each_rows.
  destruct (mapR _ years) as [fy_rows|]; simpl; [|done].
  rewrite run_bind. unfold print at 1. simpl.
  (* 7 *)
  rewrite run_bind, (run_fold_in h results es) by done.
  destruct (foldM _ [] es) as [by_cat|]; simpl; [|done].
  rewrite run_open_header.
  rewrite run_bind, run_lift.
  destruct (py_sorted _ true by_cat.*1) as [cats|]; simpl; [|done].
  rewrite run_bind, run_for_each_rows.
  destruct (mapR _ cats) as [cat_rows|]; simpl; [|done].
  rewrite run_bind. unfold print at 1. simpl.
  (* return *)
  rewrite run_bind, (run_len h _ es.*1) by done. simpl.
  rewrite run_bind, (run_len h1 _ hv.*1) by (done || by do 3 etrans).
  simpl.
  rewrite run_bind, (run_len h2 _ rnd.*1) by (done || by do 2 etrans).
  simpl.
  rewrite run_bind, (run_len h3 _ fbt.*1) by done. simpl.
  rewrite run_bind, (run_len h4 _ div7a.*1) by done. simpl.
  unfold mret, M_ret, final_stats, final_heap, final_files, final_stdout,
    report_paths.
  simpl. rewrite !length_fmap, <-!app_assoc. done.
Qed.

Lemma render_fmap {E E'} (rec : E' → record) (g : E → E') es :
  render rec (g <$> es) = contents_map g <$> render (λ e, rec (g e)) es.
Proof.
  unfold render.
  rewrite mapR_fmap.
  destruct (mapR _ es) as [m|]; csimpl; [|done].
  rewrite <-(filterM_fmap (λ e, is_high_value (rec e)) g).
  destruct (filterM _ es) as [hv0|]; csimpl; [|done].
  rewrite <-(py_sorted_fmap (λ e, Ok (hv_key (rec e))) g).
  destruct (py_sorted _ true hv0) as [hv|]; csimpl; [|done].
  rewrite enumerate_fmap, mapR_fmap.
  destruct (mapR _ (enumerate 1 hv)) as [hv_rows|]; csimpl; [|done].
  rewrite <-(filterM_fmap (λ e, is_rnd (rec e)) g).
  destruct (filterM _ es) as [rnd0|]; csimpl; [|done].
  rewrite <-(py_sorted_fmap (λ e, Ok (rnd_key (rec e))) g).
  destruct (py_sorted _ true rnd0) as [rnd|]; csimpl; [|done].
  rewrite mapR_fmap.
  destruct (mapR _ rnd) as [rnd_rows|]; csimpl; [|done].
  rewrite <-(filterM_fmap (λ e, is_fbt (rec e)) g).
  destruct (filterM _ es) as [fbt|]; csimpl; [|done].
  rewrite mapR_fmap.
  destruct (mapR _ fbt) as [fbt_rows|]; csimpl; [|done].
  rewrite <-(filterM_fmap (λ e, is_div7a (rec e)) g).
  destruct (filterM _ es) as [div7a|]; csimpl; [|done].
  rewrite mapR_fmap.
  destruct (mapR _ div7a) as [div7a_rows|]; csimpl; [|done].
  rewrite !foldM_fmap.
  destruct (foldM (λ a e, by_fy_step a (rec (g e))) [] es) as [by_fy|];
    csimpl; [|done].
  destruct (py_sorted Ok false _) as [years|]; csimpl; [|done].
  destruct (mapR _ years) as [fy_rows|]; csimpl; [|done].
  destruct (foldM _ [] es) as [by_cat|]; csimpl; [|done].
  destruct (py_sorted _ true _) as [cats|]; csimpl; [|done].
  destruct (mapR _ cats) as [cat_rows|]; csimpl; [|done].
  done.
Qed.

Lemma records_at_entries (h : store) l rs :
  records_at h l rs →
  ∃ es, h !! l = Some (OList es.*1) ∧ bound h es ∧ es.*2 = rs.
Proof.
  intros (items & Hl & Hrs). exists (zip items rs).
  pose proof (Forall2_length _ _ _ Hrs) as Hlen.
  rewrite fst_zip, snd_zip by lia. split_and!; [done| |done].
  unfold bound. clear Hl Hlen.
  induction Hrs; simpl; constructor; done.
Qed.

Lemma final_heap_frame c (h : store) l o :
  h !! l = Some o → final_heap c h !! l = Some o.
Proof.
  intros Hl. unfold final_heap.
  eapply lookup_weaken; [exact Hl|].
  do 4 apply alloc_subseteq. done.
Qed.

Lemma returned_Ok {A} (o : outcome A) a st :
  returned o = Ok (a, st) ↔ o = Done a st.
Proof. destruct o; simpl; split; congruence. Qed.

Lemma returned_Raise {A} (o : outcome A) e :
  returned o = Raise e ↔ ∃ h, o = Failed e h.
Proof.
  destruct o; simpl; split; try congruence.
  - by intros [h [=]].
  - intros [= ->]. by eexists.
  - by intros [h' [= -> _]].
Qed.

(** The run of the script on a store in which [results] is a list of the
    records [rs]: it raises when the closed form raises; otherwise it returns
    the counts, and leaves the seven files written, the seven lines printed
    and every object of the store as it was. *)
Lemma generate_csv_reports_spec results rs company dir (st : state) :
  records_at (heap st) results rs →
  match render id rs with
  | Ok c =>
      ∃ h', (∀ l o, heap st !! l = Some o → h' !! l = Some o) ∧
        generate_csv_reports results company dir st
        = Done (final_stats (length rs) c)
               (State h' (final_files dir company c (files st))
                      (stdout st ++ final_stdout dir company c)
                      (opened st ++ report_paths dir company))
  | Raise e => ∃ h', generate_csv_reports results company dir st = Failed e h'
  end.
Proof.
  intros (es & Hl & Hb & <-)%records_at_entries.
  pose proof (generate_csv_reports_run results es company dir st Hl Hb) as Hrun.
  rewrite (render_fmap id snd). simpl.
  destruct (render _ es) as [c|]; simpl in *; [|by apply returned_Raise].
  exists (final_heap c (heap st)). split; [by apply final_heap_frame|].
  apply returned_Ok. rewrite Hrun.
  unfold final_stats, final_files, final_stdout, contents_map. simpl.
  by rewrite !length_fmap.
Qed.

(** What the closed form says stage by stage, on records. *)
Lemma render_Ok rs c :
  render id rs = Ok c →
  mapR master_row rs = Ok (c_master c) ∧
  (∃ hv0, filterM is_high_value rs = Ok hv0 ∧
          py_sorted (λ r, Ok (hv_key r)) true hv0 = Ok (c_high_value c)) ∧
  mapR (λ p, hv_row p.1 p.2) (enumerate 1 (c_high_value c))
    = Ok (c_hv_rows c) ∧
  (∃ rnd0, filterM is_rnd rs = Ok rnd0 ∧
           py_sorted (λ r, Ok (rnd_key r)) true rnd0 = Ok (c_rnd c)) ∧
  mapR rnd_row (c_rnd c) = Ok (c_rnd_rows c) ∧
  filterM is_fbt rs = Ok (c_fbt c) ∧
  mapR review_row (c_fbt c) = Ok (c_fbt_rows c) ∧
  filterM is_div7a rs = Ok (c_div7a c) ∧
  mapR review_row (c_div7a c) = Ok (c_div7a_rows c) ∧
  foldM by_fy_step [] rs = Ok (c_by_fy c) ∧
  py_sorted Ok false (c_by_fy c).*1 = Ok (c_years c) ∧
  mapR (fy_row (c_by_fy c)) (c_years c) = Ok (c_fy_rows c) ∧
  foldM by_cat_step [] rs = Ok (c_by_cat c) ∧
  py_sorted (cat_key (c_by_cat c)) true (c_by_cat c).*1 = Ok (c_cats c) ∧
  mapR (cat_row (c_by_cat c)) (c_cats c) = Ok (c_cat_rows c).
Proof.
  unfold render. intros H.
  repeat (apply result_bind_Ok in H as (? & ? & H)).
  injection H as <-. simpl. split_and!; eauto.
Qed.

(** ** The fields of a record *)

Lemma dict_get_default (r : record) k d1 d2 :
  dict_get r k d1 = dict_get r k d2 ∨
  (dict_get r k d1 = d1 ∧ dict_get r k d2 = d2).
Proof.
  induction r as [|[k' v] r IH]; simpl; [by right|].
  destruct (String.eqb k' k); [by left|done].
Qed.

Lemma py_or_zero_eq (r : record) k :
  py_or (dict_get r k (VInt 0)) (VInt 0) = py_or (dict_get r k VNone) (VInt 0).
Proof.
  destruct (dict_get_default r k (VInt 0) VNone) as [->|[-> ->]]; [done|].
  unfold py_or. simpl. by destruct (negb _).
Qed.

Lemma rnd_key_amount r n : as_num (rnd_key r) = Some n → amount r = n.
Proof.
  unfold rnd_key, amount, or_zero. rewrite py_or_zero_eq. by intros ->.
Qed.

Lemma by_fy_step_numeric acc r acc' :
  by_fy_step acc r = Ok acc' →
  as_num (rnd_key r) = Some (amount r) ∧
  as_num (py_or (dict_get r "claimable_amount" VNone) (VInt 0))
    = Some (claimable r).
Proof.
  unfold by_fy_step. intros H.
  apply result_bind_Ok in H as (present & _ & H).
  apply result_bind_Ok in H as (a & Ha & H).
  apply result_bind_Ok in H as (c & Hc & _).
  unfold py_abs, py_num in Ha, Hc. fold (rnd_key r) in Ha.
  rewrite py_or_zero_eq in Hc. unfold claimable, or_zero.
  destruct (as_num (rnd_key r)) as [n|] eqn:Hn; [|done].
  destruct (as_num (py_or _ _)) as [n'|] eqn:Hn'; [|done].
  by rewrite (rnd_key_amount r n).
Qed.

Lemma is_high_value_Ok r b :
  is_high_value r = Ok b → b = exceeds_500 r.
Proof.
  unfold is_high_value, py_gt, py_lt, exceeds_500, claimable, or_zero. simpl.
  destruct (as_num (py_or _ _)) as [y|]; simpl; [by intros [= <-]|done].
Qed.

Lemma exceeds_500_key `{!PyNumberLaws num} r :
  exceeds_500 r = true → as_num (hv_key r) = Some (claimable r).
Proof.
  unfold exceeds_500, claimable, or_zero, hv_key, py_or.
  destruct (truthy (dict_get r "claimable_amount" VNone)) eqn:Ht.
  - destruct (dict_get_default r "claimable_amount" VNone (VInt 0))
      as [<-|[Hn _]].
    + destruct (as_num _) as [y|]; simpl; [done|].
      by rewrite num_ltb_of_Z.
    + by rewrite Hn in Ht.
  - simpl. by rewrite num_ltb_of_Z.
Qed.

(** A missing or null claimable amount is not above 500. *)
Lemma exceeds_500_none `{!PyNumberLaws num} r :
  dict_get r "claimable_amount" VNone = VNone → exceeds_500 r = false.
Proof.
  unfold exceeds_500, claimable, or_zero, py_or. intros ->. simpl.
  by rewrite num_ltb_of_Z.
Qed.

(** ** Keys and grouping *)

Section keys.
Context `{!PyNumberLaws num}.

Lemma key_eqb_sym a b : key_eqb a b = key_eqb b a.
Proof.
  destruct a, b; simpl; try done;
    try apply num_eqb_sym; apply String.eqb_sym.
Qed.

Lemma key_eqb_trans a b c :
  key_eqb a b = true → key_eqb b c = true → key_eqb a c = true.
Proof.
  destruct a, b, c; simpl; try done; try apply num_eqb_trans.
  rewrite !String.eqb_eq. congruence.
Qed.

Lemma key_eqb_refl k : hashable k = true → key_eqb k k = true.
Proof.
  destruct k; simpl; try done; intros _; try apply num_eqb_refl.
  apply String.eqb_refl.
Qed.

Lemma key_count_app v ks1 ks2 :
  key_count v (ks1 ++ ks2) = (key_count v ks1 + key_count v ks2)%nat.
Proof. unfold key_count. by rewrite filter_app, length_app. Qed.

Lemma key_count_pos v ks k :
  k ∈ ks → key_eqb k v = true → (1 ≤ key_count v ks)%nat.
Proof.
  intros Hk Hkv. unfold key_count.
  assert (Hin : k ∈ filter (λ k, key_eqb k v = true) ks)
    by (by apply list_elem_of_filter).
  destruct (filter _ ks); [by inversion Hin|simpl; lia].
Qed.

Lemma key_count_0 v ks :
  key_count v ks = 0%nat → ∀ k, k ∈ ks → key_eqb k v = false.
Proof.
  intros H0 k Hk. destruct (key_eqb k v) eqn:Hkv; [|done].
  pose proof (key_count_pos v ks k Hk Hkv). lia.
Qed.

Lemma existsb_key_count {A} (d : pydict A) v :
  existsb (λ p, key_eqb p.1 v) d = false → key_count v d.*1 = 0%nat.
Proof.
  unfold key_count. induction d as [|[k a] d IH]; csimpl; [done|].
  intros [Hk Hd]%orb_false_elim. rewrite filter_cons.
  case_decide; [congruence|]. by apply IH.
Qed.

Lemma existsb_key_elem {A} (d : pydict A) v :
  existsb (λ p, key_eqb p.1 v) d = true →
  ∃ k, k ∈ d.*1 ∧ key_eqb k v = true.
Proof.
  induction d as [|[k a] d IH]; csimpl; [done|].
  intros [Hk|Hd]%orb_true_elim.
  - exists k. split; [left|done].
  - destruct (IH Hd) as (k' & ? & ?). exists k'. split; [by right|done].
Qed.

Lemma dict_update_unique {A} (d : pydict A) k f :
  (key_count k d.*1 ≤ 1)%nat →
  dict_update d k f
  = (λ p, if key_eqb p.1 k then (p.1, f p.2) else p) <$> d.
Proof.
  unfold key_count. induction d as [|[k' a] d IH]; csimpl; [done|].
  rewrite filter_cons. destruct (key_eqb k' k) eqn:Hk.
  - rewrite decide_True by done. simpl. intros Hle. f_equal.
    assert (H0 : key_count k d.*1 = 0%nat) by (unfold key_count; lia).
    clear -H0. induction d as [|[k2 a2] d IH]; csimpl; [done|].
    unfold key_count in H0. csimpl in H0. rewrite filter_cons in H0.
    case_decide as Hk2; [done|].
    apply not_true_is_false in Hk2. rewrite Hk2. f_equal. by apply IH.
  - rewrite decide_False by congruence. intros Hle. f_equal. by apply IH.
Qed.

Lemma dict_item_unique {A} (d : pydict A) k a :
  (key_count k d.*1 ≤ 1)%nat → (k, a) ∈ d → key_eqb k k = true →
  dict_item d k = Ok a.
Proof.
  unfold key_count. induction d as [|[k' a'] d IH]; csimpl; [by inversion 2|].
  rewrite filter_cons. intros Hle [[= <- <-]|Hin]%elem_of_cons Hkk.
  - by rewrite Hkk.
  - destruct (key_eqb k' k) eqn:Hk.
    + rewrite decide_True in Hle by done. simpl in Hle.
      assert (1 ≤ key_count k d.*1)%nat.
      { eapply key_count_pos; [|done]. by apply (list_elem_of_fmap_2 fst _ (k, a)). }
      unfold key_count in *. lia.
    + rewrite decide_False in Hle by congruence. by apply IH.
Qed.
End keys.
Section grouping.
Context `{!PyNumberLaws num} {A : Type}.
Context (key_of : record → value) (init : A) (upd : record → A → A).

Lemma key_count_elem v ks :
  (1 ≤ key_count v ks)%nat → ∃ k, k ∈ ks ∧ key_eqb k v = true.
Proof.
  unfold key_count. intros Hle.
  destruct (filter _ ks) as [|k l] eqn:Hf; [simpl in Hle; lia|].
  assert (Hin : k ∈ filter (λ k, key_eqb k v = true) ks)
    by (rewrite Hf; left).
  apply list_elem_of_filter in Hin as [? ?]. eauto.
Qed.

Lemma key_count_none v ks :
  (∀ k, k ∈ ks → key_eqb k v = false) → key_count v ks = 0%nat.
Proof.
  intros Hno. destruct (key_count v ks) as [|n] eqn:Hn; [done|].
  destruct (key_count_elem v ks) as (k & Hk & Hkv); [lia|].
  rewrite (Hno k Hk) in Hkv. done.
Qed.

Lemma update_keys (d : pydict A) k f :
  ((λ p : value * A, if key_eqb p.1 k then (p.1, f p.2) else p) <$> d).*1
  = d.*1.
Proof.
  rewrite <-list_fmap_compose. apply list_fmap_ext.
  intros i [k' a] _. simpl. by destruct (key_eqb k' k).
Qed.

Lemma group_snoc k p r :
  group key_of k (p ++ [r])
  = group key_of k p ++ (if key_eqb k (key_of r) then [r] else []).
Proof.
  unfold group. rewrite filter_app. f_equal.
  rewrite filter_cons, filter_nil.
  destruct (key_eqb k (key_of r)); by case_decide.
Qed.

Lemma grouped_nil : grouped key_of init upd [] [].
Proof.
  split_and!.
  - intros v. unfold key_count. simpl. lia.
  - intros r Hr. inversion Hr.
  - intros k Hk. inversion Hk.
  - intros k d Hk. inversion Hk.
Qed.

Lemma grouped_step p acc r :
  grouped key_of init upd p acc → hashable (key_of r) = true →
  grouped key_of init upd (p ++ [r])
    (group_step (key_of r) init (upd r) acc).
Proof.
  intros (I1 & I2 & I3 & I4) Hh. unfold group_step.
  pose proof (key_eqb_refl _ Hh) as Hkk.
  destruct (existsb _ acc) eqn:He.
  - apply existsb_key_elem in He as (k0 & Hk0 & Hk0k).
    rewrite dict_update_unique by apply I1.
    split_and!; rewrite ?update_keys.
    + done.
    + intros r' [Hr'| ->%list_elem_of_singleton]%elem_of_app; [by apply I2|].
      pose proof (I1 (key_of r)).
      pose proof (key_count_pos _ _ _ Hk0 Hk0k). lia.
    + intros k Hk. destruct (I3 k Hk) as (? & r' & ? & ?).
      split; [done|]. exists r'. split; [|done]. apply elem_of_app. by left.
    + intros k d (kd & Hkd & Hin)%list_elem_of_fmap.
      destruct kd as [k' d0]. simpl in Hkd.
      rewrite group_snoc, foldl_app.
      destruct (key_eqb k' (key_of r)) eqn:Hk'; simplify_eq; rewrite Hk';
        simpl; by rewrite <-(I4 _ _ Hin).
  - apply existsb_key_count in He.
    assert (Hone : (key_count (key_of r) (acc ++ [(key_of r, init)]).*1
                    ≤ 1)%nat).
    { rewrite fmap_app, key_count_app, He. unfold key_count. csimpl.
      rewrite filter_cons, filter_nil. case_decide; simpl; lia. }
    rewrite dict_update_unique by done.
    assert (I1' : ∀ v, (key_count v (acc.*1 ++ [key_of r]) ≤ 1)%nat).
    { intros v. rewrite key_count_app.
      unfold key_count at 2. rewrite filter_cons, filter_nil.
      case_decide as Hv; simpl; [|pose proof (I1 v); lia].
      rewrite (key_count_none v acc.*1); [lia|].
      intros k Hk. destruct (key_eqb k v) eqn:Hkv; [|done].
      assert (key_eqb k (key_of r) = true).
      { eapply key_eqb_trans; [done|]. by rewrite key_eqb_sym. }
      by rewrite (key_count_0 _ _ He k Hk) in *. }
    split_and!; rewrite ?update_keys, ?fmap_app; csimpl.
    + done.
    + intros r' [Hr'| ->%list_elem_of_singleton]%elem_of_app.
      * pose proof (I1' (key_of r')). pose proof (I2 r' Hr').
        rewrite key_count_app in *. lia.
      * rewrite key_count_app, He. unfold key_count. csimpl.
        rewrite filter_cons, filter_nil. by rewrite decide_True.
    + intros k [Hk| ->%list_elem_of_singleton]%elem_of_app.
      * destruct (I3 k Hk) as (? & r' & ? & ?).
        split; [done|]. exists r'. split; [|done]. apply elem_of_app. by left.
      * split; [done|]. exists r. split; [|done].
        apply elem_of_app. right. by apply list_elem_of_singleton.
    + intros k d [(kd & Hkd & Hin)%list_elem_of_fmap
                 | Hnew%list_elem_of_singleton]%elem_of_app;
        rewrite group_snoc, foldl_app.
      * destruct kd as [k' d0]. simpl in Hkd.
        assert (Hk' : key_eqb k' (key_of r) = false).
        { apply (key_count_0 _ _ He).
          by apply (list_elem_of_fmap_2 fst _ (k', d0)). }
        rewrite Hk' in Hkd. simplify_eq. rewrite Hk'. simpl.
        by apply I4.
      * rewrite Hkk in Hnew. simplify_eq. rewrite Hkk. simpl.
        assert (Hnil : group key_of (key_of r) p = []).
        { unfold group.
          destruct (filter _ p) as [|r' g] eqn:Hf; [done|]. exfalso.
          assert (Hin : r' ∈ filter
            (λ r0, key_eqb (key_of r) (key_of r0) = true) p)
            by (rewrite Hf; left).
          apply list_elem_of_filter in Hin as [Hrr' Hr'].
          destruct (key_count_elem (key_of r') acc.*1) as (k0 & Hk0 & Hk0r);
            [rewrite (I2 r' Hr'); lia|].
          assert (key_eqb k0 (key_of r) = true).
          { eapply key_eqb_trans; [done|]. by rewrite key_eqb_sym. }
          by rewrite (key_count_0 _ _ He k0 Hk0) in *. }
        by rewrite Hnil.
Qed.

Lemma grouped_foldM (step : pydict A → record → result (pydict A)) rs acc :
  (∀ acc r acc', step acc r = Ok acc' →
     hashable (key_of r) = true ∧
     acc' = group_step (key_of r) init (upd r) acc) →
  foldM step [] rs = Ok acc → grouped key_of init upd rs acc.
Proof.
  intros Hstep.
  assert (Hgen : ∀ l p acc0 acc1, grouped key_of init upd p acc0 →
    foldM step acc0 l = Ok acc1 → grouped key_of init upd (p ++ l) acc1).
  { induction l as [|r l IH]; intros p acc0 acc1 Hg; simpl.
    - intros [= <-]. by rewrite app_nil_r.
    - intros (acc' & Hr & Hl)%result_bind_Ok.
      apply Hstep in Hr as [Hh ->].
      rewrite (cons_middle r p l), app_assoc. eapply IH; [|done].
      by apply grouped_step. }
  apply (Hgen rs [] [] acc). apply grouped_nil.
Qed.
End grouping.

(** ** The two summaries *)

Lemma dict_contains_Ok {A} (d : pydict A) k b :
  dict_contains d k = Ok b →
  hashable k = true ∧ b = existsb (λ p, key_eqb p.1 k) d.
Proof. unfold dict_contains. destruct (hashable k); by intros [= <-]. Qed.

Lemma step_amounts (r : record) a c :
  py_abs (py_or (dict_get r "transaction_amount" (VInt 0)) (VInt 0)) = Ok a →
  py_num (py_or (dict_get r "claimable_amount" (VInt 0)) (VInt 0)) = Ok c →
  a = abs_amount r ∧ c = claimable r.
Proof.
  unfold py_abs, py_num, abs_amount, amount, claimable, or_zero.
  rewrite !py_or_zero_eq.
  destruct (as_num (py_or (dict_get r "transaction_amount" VNone) _));
    simpl; [|done].
  destruct (as_num (py_or (dict_get r "claimable_amount" VNone) _));
    simpl; [|done].
  by intros [= <-] [= <-].
Qed.

Lemma by_fy_step_group acc r acc' :
  by_fy_step acc r = Ok acc' →
  hashable (fy_of r) = true ∧
  acc' = group_step (fy_of r) (FyEntry 0 (num_of_Z 0) (num_of_Z 0) 0 0 0)
           (fy_upd r) acc.
Proof.
  unfold by_fy_step. intros H.
  apply result_bind_Ok in H as (present & [Hh ->]%dict_contains_Ok & H).
  apply result_bind_Ok in H as (a & Ha & H).
  apply result_bind_Ok in H as (c & Hc & [= <-]).
  destruct (step_amounts r a c Ha Hc) as [-> ->]. done.
Qed.

Lemma by_cat_step_group acc r acc' :
  by_cat_step acc r = Ok acc' →
  hashable (cat_of r) = true ∧
  acc' = group_step (cat_of r) (CatEntry 0 (num_of_Z 0) (num_of_Z 0))
           (cat_upd r) acc.
Proof.
  unfold by_cat_step. intros H.
  apply result_bind_Ok in H as (present & [Hh ->]%dict_contains_Ok & H).
  apply result_bind_Ok in H as (a & Ha & H).
  apply result_bind_Ok in H as (c & Hc & [= <-]).
  destruct (step_amounts r a c Ha Hc) as [-> ->]. done.
Qed.

Lemma count_flagged_snoc k g r :
  count_flagged k (g ++ [r]) = bump (dict_get r k VNone) (count_flagged k g).
Proof.
  unfold count_flagged, bump, flagged. rewrite filter_app, length_app.
  rewrite filter_cons, filter_nil.
  destruct (truthy _); case_decide; simpl; try done; lia.
Qed.

Lemma total_snoc f g r : total f (g ++ [r]) = num_add (total f g) (f r).
Proof. unfold total. by rewrite foldl_app. Qed.

Lemma fy_fold g :
  foldl (λ d r, fy_upd r d) (FyEntry 0 (num_of_Z 0) (num_of_Z 0) 0 0 0) g
  = fy_summary g.
Proof.
  induction g as [|r g IH] using rev_ind; [done|].
  rewrite foldl_app. simpl. rewrite IH. unfold fy_upd, fy_summary. simpl.
  rewrite !total_snoc, !count_flagged_snoc, length_app. simpl.
  f_equal. lia.
Qed.

Lemma cat_fold g :
  foldl (λ d r, cat_upd r d) (CatEntry 0 (num_of_Z 0) (num_of_Z 0)) g
  = cat_summary g.
Proof.
  induction g as [|r g IH] using rev_ind; [done|].
  rewrite foldl_app. simpl. rewrite IH. unfold cat_upd, cat_summary. simpl.
  rewrite !total_snoc, length_app. simpl. f_equal. lia.
Qed.

Section summary_rows.
Context `{!PyNumberLaws num} {A : Type}.
Context (key_of : record → value) (init : A) (upd : record → A → A).
Context (rs : list record) (acc : pydict A).
Hypothesis Hg : grouped key_of init upd rs acc.

Lemma grouped_item k :
  k ∈ acc.*1 →
  dict_item acc k = Ok (foldl (λ d r, upd r d) init (group key_of k rs)).
Proof.
  destruct Hg as (I1 & I2 & I3 & I4).
  intros Hk. destruct (I3 k Hk) as [Hkk _].
  apply list_elem_of_fmap in Hk as ([k' d] & -> & Hin). simpl in *.
  rewrite <-(I4 _ _ Hin). by apply dict_item_unique.
Qed.

Lemma grouped_rows (cells : value → list record → row)
    (rowf : value → result row) keys rows :
  (∀ k, k ∈ acc.*1 → rowf k = Ok (cells k (group key_of k rs))) →
  keys ≡ₚ acc.*1 → mapR rowf keys = Ok rows →
  one_row_per_key key_of cells rs keys rows.
Proof.
  destruct Hg as (I1 & I2 & I3 & I4).
  intros Hrow Hperm Hrows. split_and!.
  - intros r Hr. unfold key_count. rewrite Hperm. by apply I2.
  - intros k Hk. rewrite Hperm in Hk. by apply I3.
  - apply mapR_Ok in Hrows.
    assert (Hin : ∀ k, k ∈ keys → k ∈ acc.*1) by (intros k; by rewrite Hperm).
    clear Hperm. induction Hrows as [|k row keys rows Hk _ IH]; [done|].
    constructor.
    + rewrite Hrow in Hk by (apply Hin; left). by injection Hk.
    + apply IH. intros k' Hk'. apply Hin. by right.
Qed.
End summary_rows.

(** ** The files after a run *)

Lemma report_path_inj dir company s1 s2 :
  report_path dir company s1 = report_path dir company s2 → s1 = s2.
Proof.
  unfold report_path. intros H.
  by repeat apply (inj (String.app _)) in H.
Qed.

Ltac file_lookup :=
  unfold final_files;
  repeat (rewrite lookup_insert_ne by (intros ?%report_path_inj; done));
  apply lookup_insert_eq.

Section final_files.
Context {E : Type} (dir company : string) (c : contents E).
Context (F : gmap string (list row)).
Let path := report_path dir company.
Let F' := final_files dir company c F.

Lemma final_master :
  F' !! path "_All_Transactions.csv" = Some (master_header :: c_master c).
Proof. subst path F'. file_lookup. Qed.
Lemma final_hv :
  F' !! path "_High_Value_Deductions.csv" = Some (hv_header :: c_hv_rows c).
Proof. subst path F'. file_lookup. Qed.
Lemma final_rnd :
  F' !! path "_RnD_Candidates.csv" = Some (rnd_header :: c_rnd_rows c).
Proof. subst path F'. file_lookup. Qed.
Lemma final_fbt :
  F' !! path "_FBT_Review_Required.csv"
  = Some (review_header :: c_fbt_rows c).
Proof. subst path F'. file_lookup. Qed.
Lemma final_div7a :
  F' !! path "_Division7A_Review.csv"
  = Some (review_header :: c_div7a_rows c).
Proof. subst path F'. file_lookup. Qed.
Lemma final_fy :
  F' !! path "_Summary_By_FY.csv" = Some (fy_header :: c_fy_rows c).
Proof. subst path F'. file_lookup. Qed.
Lemma final_cat :
  F' !! path "_By_Category.csv" = Some (cat_header :: c_cat_rows c).
Proof. subst path F'. file_lookup. Qed.

End final_files.

Lemma report_paths_NoDup dir company : NoDup (report_paths dir company).
Proof.
  unfold report_paths. apply NoDup_fmap_2.
  - intros s1 s2. apply report_path_inj.
  - by apply (bool_decide_unpack _).
Qed.

Lemma generate_Ok results rs company dir (st : state) s st' :
  records_at (heap st) results rs →
  generate_csv_reports results company dir st = Done s st' →
  ∃ c, render id rs = Ok c ∧
       s = final_stats (length rs) c ∧
       files st' = final_files dir company c (files st) ∧
       stdout st' = stdout st ++ final_stdout dir company c ∧
       ∀ l o, heap st !! l = Some o → heap st' !! l = Some o.
Proof.
  intros Hrs Hrun.
  pose proof (generate_csv_reports_spec results rs company dir st Hrs) as H.
  destruct (render id rs) as [c|e]; [|destruct H; congruence].
  destruct H as (h' & Hframe & Heq). rewrite Heq in Hrun.
  injection Hrun as <- <-. exists c. by split_and!.
Qed.

(** ** The objects a run leaves alone *)

Lemma keeps_ret {A} (h0 : store) (a : A) (Q : A → Prop) :
  Q a → keeps h0 (mret a) Q.
Proof. by intros HQ st Hsub. Qed.

Lemma keeps_bind {A B} (h0 : store) (m : M A) (k : A → M B) Q R :
  keeps h0 m Q → (∀ a, Q a → keeps h0 (k a) R) → keeps h0 (m ≫= k) R.
Proof.
  intros Hm Hk st Hsub. unfold mbind, M_bind.
  specialize (Hm st Hsub). destruct (m st) as [a st'|e h]; [|done].
  destruct Hm as [Hsub' HQ]. by apply Hk.
Qed.

Lemma keeps_read {A} (h0 : store) (f : store → result A) :
  keeps h0 (read f) (λ _, True).
Proof. intros st Hsub. unfold read. by destruct (f (heap st)). Qed.

Lemma keeps_new_list (h0 : store) items :
  keeps h0 (new_list items) (λ l, h0 !! l = None).
Proof.
  intros st Hsub. simpl. split; [by apply alloc_subseteq|by apply fresh_None].
Qed.

Lemma keeps_store_list (h0 : store) l items :
  h0 !! l = None → keeps h0 (store_list l items) (λ _, True).
Proof. intros Hl st Hsub. simpl. split; [by apply insert_subseteq_r|done]. Qed.

Lemma keeps_open_w (h0 : store) path : keeps h0 (open_w path) (λ _, True).
Proof. by intros st Hsub. Qed.

Lemma keeps_writerow (h0 : store) path r :
  keeps h0 (writerow path r) (λ _, True).
Proof. by intros st Hsub. Qed.

Lemma keeps_print (h0 : store) line : keeps h0 (print line) (λ _, True).
Proof. by intros st Hsub. Qed.

Lemma keeps_for_each {A} (h0 : store) (l : list A) body :
  (∀ x, keeps h0 (body x) (λ _, True)) →
  keeps h0 (for_each l body) (λ _, True).
Proof.
  intros Hbody. induction l as [|x l IH]; simpl.
  - by apply keeps_ret.
  - eapply keeps_bind; [apply Hbody|]. by intros _ _.
Qed.

Lemma keeps_for_in (h0 : store) l body :
  (∀ r, keeps h0 (body r) (λ _, True)) → keeps h0 (for_in l body) (λ _, True).
Proof.
  intros Hbody. eapply keeps_bind; [apply keeps_read|].
  intros items _. by apply keeps_for_each.
Qed.

Lemma keeps_for_enumerate (h0 : store) l n body :
  (∀ i r, keeps h0 (body i r) (λ _, True)) →
  keeps h0 (for_enumerate l n body) (λ _, True).
Proof.
  intros Hbody. eapply keeps_bind; [apply keeps_read|].
  intros items _. apply keeps_for_each. intros p. apply Hbody.
Qed.

Lemma keeps_list_comp (h0 : store) src cond :
  keeps h0 (list_comp src cond) (λ l, h0 !! l = None).
Proof.
  eapply keeps_bind; [apply keeps_read|]. intros items _.
  eapply keeps_bind; [apply keeps_read|]. intros kept _.
  apply keeps_new_list.
Qed.

Lemma keeps_list_sort (h0 : store) l key b :
  h0 !! l = None → keeps h0 (list_sort l key b) (λ _, True).
Proof.
  intros Hl. eapply keeps_bind; [apply keeps_read|]. intros items _.
  eapply keeps_bind; [apply keeps_read|]. intros sorted _.
  by apply keeps_store_list.
Qed.

Lemma keeps_fold_in {B} (h0 : store) l (step : B → record → result B) init :
  keeps h0 (fold_in l step init) (λ _, True).
Proof.
  eapply keeps_bind; [apply keeps_read|]. intros items _. apply keeps_read.
Qed.

Lemma keeps_row (h0 : store) r (g : record → result row) path :
  keeps h0 (d ← load_dict r; cells ← lift (g d); writerow path cells)
    (λ _, True).
Proof.
  eapply keeps_bind; [apply keeps_read|]. intros d _.
  eapply keeps_bind; [apply keeps_read|]. intros cells _.
  apply keeps_writerow.
Qed.

Ltac keeps_step :=
  first
    [ apply keeps_ret; done
    | apply keeps_writerow
    | apply keeps_row
    | eapply keeps_bind;
      [ first [ apply keeps_open_w | apply keeps_writerow | apply keeps_print
              | apply keeps_read | apply keeps_fold_in
              | apply keeps_list_comp
              | by apply keeps_list_sort
              | apply keeps_for_in; intros ?
              | apply keeps_for_enumerate; intros ? ?
              | apply keeps_for_each; intros ? ]
      | intros ? ? ] ].

(** The script leaves every object that was there before the call. *)
Lemma keeps_generate_csv_reports (h0 : store) results company dir :
  keeps h0 (generate_csv_reports results company dir) (λ _, True).
Proof.
  unfold generate_csv_reports. cbv zeta. repeat keeps_step.
Qed.

(** * The claims about the report generator *)

Section claims.
Context `{!PyNumberLaws num} `{!PyAbsLaws num}.

Lemma filterM_filter (cond : record → result bool) (q : record → bool) rs k :
  (∀ r b, cond r = Ok b → b = q r) →
  filterM cond rs = Ok k → k = filter (λ r, q r = true) rs.
Proof.
  intros Hq Hk. pose proof (filterM_Ok_all _ _ _ Hk) as Hall.
  rewrite (filterM_pure cond q) in Hk; [by injection Hk|].
  intros r Hr. destruct (Hall r Hr) as [b Hb]. by rewrite Hb, (Hq r b Hb).
Qed.

(** ** The rows of the listings *)

Lemma mapR_item_str (l : list value) parts :
  mapR item_str l = Ok parts → parts = key_str <$> l.
Proof.
  revert parts. induction l as [|v l IH]; intros parts; simpl.
  - by intros [= <-].
  - intros (s0 & Hs & H)%result_bind_Ok.
    apply result_bind_Ok in H as (k & Hk & [= <-]).
    destruct v; try done. injection Hs as <-. csimpl. by rewrite (IH k).
Qed.

Lemma str_join_notes (r : record) s0 :
  str_join "; " (py_or (dict_get r "compliance_notes" VNone) (VList []))
  = Ok s0 →
  s0 = String.concat "; " (note_items r).
Proof.
  unfold note_items, flagged, py_or.
  destruct (truthy (dict_get r "compliance_notes" VNone)).
  - destruct (dict_get r "compliance_notes" VNone); simpl; try done.
    + by intros [= <-].
    + intros (parts & Hp & [= <-])%result_bind_Ok.
      by rewrite (mapR_item_str _ _ Hp).
    + by intros [= <-].
  - simpl. by intros [= <-].
Qed.

Lemma slice_to_text n k (r : record) v :
  slice_to n (py_or (dict_get r k VNone) (VStr "")) = Ok v →
  v = shown_text n k r.
Proof.
  unfold shown_text, flagged, py_or. destruct (truthy (dict_get r k VNone)).
  - destruct (dict_get r k VNone); simpl; try done; by intros [= <-].
  - simpl. by intros [= <-].
Qed.

Lemma master_row_cells r cells :
  master_row r = Ok cells → cells = master_cells r.
Proof.
  unfold master_row. intros H.
  apply result_bind_Ok in H as (notes & Hn%str_join_notes & H).
  apply result_bind_Ok in H as (d & Hd%slice_to_text & H).
  apply result_bind_Ok in H as (g & Hg%slice_to_text & [= <-]).
  by subst.
Qed.

Lemma hv_row_cells i r cells : hv_row i r = Ok cells → cells = hv_cells i r.
Proof.
  unfold hv_row. intros H.
  apply result_bind_Ok in H as (notes & Hn%str_join_notes & [= <-]).
  by subst.
Qed.

Lemma rnd_row_cells r cells : rnd_row r = Ok cells → cells = rnd_cells r.
Proof.
  unfold rnd_row. intros H.
  apply result_bind_Ok in H as (g & Hg%slice_to_text & [= <-]).
  by subst.
Qed.

Lemma review_row_cells r cells :
  review_row r = Ok cells → cells = review_cells r.
Proof.
  unfold review_row. intros H.
  apply result_bind_Ok in H as (notes & Hn%str_join_notes & H).
  apply result_bind_Ok in H as (d & Hd%slice_to_text & [= <-]).
  by subst.
Qed.

(** The headers name the columns. *)
Lemma headers_name_the_columns :
  master_header = names master_columns ∧
  hv_header = VStr "PRIORITY" :: names hv_columns ∧
  rnd_header = names rnd_columns ∧
  review_header = names review_columns.
Proof. by split_and!. Qed.

Lemma mapR_listing (f : record → result row) (cells : record → row) l k :
  (∀ r cs, f r = Ok cs → cs = cells r) →
  mapR f l = Ok k → listing cells l k.
Proof.
  intros Hf Hk. apply mapR_Ok in Hk. unfold listing.
  eapply Forall2_impl; [done|]. intros r cs. apply Hf.
Qed.

Lemma enumerate_lookup_Some {A} n (l : list A) i x :
  l !! i = Some x → enumerate n l !! i = Some ((n + i)%nat, x).
Proof.
  revert n i. induction l as [|y l IH]; intros n [|i]; simpl; try done.
  - intros [= <-]. do 2 f_equal. lia.
  - intros Hx. rewrite (IH (S n) i Hx). do 2 f_equal. lia.
Qed.

Lemma mapR_ranked_listing (f : nat → record → result row)
    (cells : nat → record → row) l k :
  (∀ i r cs, f i r = Ok cs → cs = cells i r) →
  mapR (λ p, f p.1 p.2) (enumerate 1 l) = Ok k → ranked_listing cells l k.
Proof.
  intros Hf Hk. split.
  - apply mapR_length in Hk. by rewrite enumerate_length in Hk.
  - intros i r Hi. apply mapR_Ok in Hk.
    pose proof (enumerate_lookup_Some 1 l i r Hi) as Hp.
    destruct (Forall2_lookup_l _ _ _ _ _ Hk Hp) as (cs & Hcs & Hrow).
    simpl in Hrow. by rewrite Hcs, (Hf _ _ _ Hrow).
Qed.

(** A claimable amount above 500 is the number the record holds, not the
    zero that stands in for a missing one. *)
Lemma exceeds_500_field (r : record) :
  exceeds_500 r = true →
  ∃ x, as_num (dict_get r "claimable_amount" VNone) = Some x ∧
       claimable r = x ∧ num_ltb (num_of_Z 500) x = true.
Proof.
  unfold exceeds_500, claimable, or_zero, py_or.
  destruct (truthy (dict_get r "claimable_amount" VNone)).
  - destruct (as_num (dict_get r "claimable_amount" VNone)) as [y|]; simpl.
    + intros Hy. by exists y.
    + by rewrite num_ltb_of_Z.
  - simpl. by rewrite num_ltb_of_Z.
Qed.

(** The high-value list of a run that returns. *)
Lemma hv_rows_spec rs (c : contents record) :
  render id rs = Ok c →
  c_high_value c ≡ₚ filter (λ r, exceeds_500 r = true) rs ∧
  StronglySorted (descending claimable) (c_high_value c) ∧
  ranked_listing hv_cells (c_high_value c) (c_hv_rows c).
Proof.
  intros Hc. apply render_Ok in Hc
    as (_ & (hv0 & Hhv0 & Hhv) & Hrows & _).
  apply (filterM_filter _ exceeds_500) in Hhv0;
    [|apply is_high_value_Ok]. subst hv0.
  split_and!.
  - by eapply py_sorted_perm.
  - eapply py_sorted_descending; [|done].
    intros r [Hr _]%list_elem_of_filter. eexists. split; [done|].
    by apply exceeds_500_key.
  - eapply mapR_ranked_listing; [|done]. apply hv_row_cells.
Qed.

(** The R&D list of a run that returns. *)
Lemma rnd_rows_spec rs (c : contents record) :
  render id rs = Ok c →
  c_rnd c ≡ₚ filter (λ r, flagged "is_rnd_candidate" r = true) rs ∧
  StronglySorted (descending amount) (c_rnd c) ∧
  listing rnd_cells (c_rnd c) (c_rnd_rows c).
Proof.
  intros Hc. apply render_Ok in Hc
    as (_ & _ & _ & (rnd0 & Hrnd0 & Hrnd) & Hrows & _ & _ & _ & _ & Hfy & _).
  apply (filterM_filter _ (flagged "is_rnd_candidate")) in Hrnd0;
    [|by intros r b [= <-]]. subst rnd0.
  split_and!.
  - by eapply py_sorted_perm.
  - eapply py_sorted_descending; [|done].
    intros r [_ Hr]%list_elem_of_filter. eexists. split; [done|].
    destruct (foldM_Ok_all _ _ _ _ Hfy r Hr) as (a & a' & Hstep).
    by apply by_fy_step_numeric in Hstep as [? _].
  - eapply mapR_listing; [|done]. apply rnd_row_cells.
Qed.

(** ** Runs that return *)

(** C2: the high-value deductions file holds its header and then one row per
    record whose claimable amount is above 500, those records and no
    others, in descending order of the claimable amount.  The claimable
    amount of a listed record is the number in its [claimable_amount] field;
    a record whose field is missing or null is not listed.  The row at
    position [i] shows rank [i + 1] and the fields of the record at that
    position, column by column. *)
Theorem high_value_deductions_csv results rs company dir (st : state) s st' :
  records_at (heap st) results rs →
  generate_csv_reports results company dir st = Done s st' →
  ∃ hv rows,
    files st' !! report_path dir company "_High_Value_Deductions.csv"
      = Some (hv_header :: rows) ∧
    hv ≡ₚ filter (λ r, exceeds_500 r = true) rs ∧
    (∀ r, dict_get r "claimable_amount" VNone = VNone →
          exceeds_500 r = false) ∧
    Forall (λ r, ∃ x,
      as_num (dict_get r "claimable_amount" VNone) = Some x ∧
      claimable r = x ∧ num_ltb (num_of_Z 500) x = true) hv ∧
    StronglySorted (descending claimable) hv ∧
    ranked_listing hv_cells hv rows.
Proof.
  intros Hrs Hrun.
  destruct (generate_Ok _ _ _ _ _ _ _ Hrs Hrun) as (c & Hc & _ & -> & _).
  destruct (hv_rows_spec rs c Hc) as (Hperm & Hsorted & Hrows).
  exists (c_high_value c), (c_hv_rows c). split_and!; try done.
  - apply final_hv.
  - apply exceeds_500_none.
  - apply Forall_forall. intros r Hr. rewrite Hperm in Hr.
    apply list_elem_of_filter in Hr as [Hr _]. by apply exceeds_500_field.
Qed.


Lemma dict_get_missing (r : record) k d : k ∉ r.*1 → dict_get r k d = d.
Proof.
  induction r as [|[k' v] r IH]; csimpl; [done|].
  intros [Hk Hr]%not_elem_of_cons.
  destruct (String.eqb_spec k' k); [done|]. by apply IH.
Qed.

(** The rows of the year summary. *)
Lemma fy_summary_rows rs (c : contents record) :
  render id rs = Ok c →
  one_row_per_key fy_of (fy_cells (total abs_amount)) rs
    (c_years c) (c_fy_rows c).
Proof.
  intros Hc. apply render_Ok in Hc
    as (_ & _ & _ & _ & _ & _ & _ & _ & _ & Hfy & Hyears & Hrows & _).
  apply (grouped_foldM fy_of
    (FyEntry 0 (num_of_Z 0) (num_of_Z 0) 0 0 0) fy_upd) in Hfy;
    [|apply by_fy_step_group].
  eapply grouped_rows; [done| |by eapply py_sorted_perm|done].
  intros k Hk. unfold fy_row.
  rewrite (grouped_item _ _ _ _ _ Hfy k Hk), fy_fold. done.
Qed.

(** The rows of the category summary, and their order. *)
Lemma cat_summary_rows rs (c : contents record) :
  render id rs = Ok c →
  one_row_per_key cat_of cat_cells rs (c_cats c) (c_cat_rows c) ∧
  StronglySorted (descending (λ k, total claimable (group cat_of k rs)))
    (c_cats c).
Proof.
  intros Hc. apply render_Ok in Hc
    as (_ & _ & _ & _ & _ & _ & _ & _ & _ & _ & _ & _ & Hcat & Hcats & Hrows).
  apply (grouped_foldM cat_of
    (CatEntry 0 (num_of_Z 0) (num_of_Z 0)) cat_upd) in Hcat;
    [|apply by_cat_step_group].
  split.
  - eapply grouped_rows; [done| |by eapply py_sorted_perm|done].
    intros k Hk. unfold cat_row.
    rewrite (grouped_item _ _ _ _ _ Hcat k Hk), cat_fold. done.
  - eapply py_sorted_descending; [|done].
    intros k Hk. unfold cat_key.
    rewrite (grouped_item _ _ _ _ _ Hcat k Hk), cat_fold. simpl. eauto.
Qed.

(** C4 (amended): the year summary holds its header and then exactly one row
    per distinct [financial_year] value of the records (a record without the
    field counts under ['Unknown']); the row of a year gives the number of
    its records, the total of the absolute values of their transaction
    amounts, the total of their claimable amounts, and how many of them are
    flagged as R&D candidate, FBT implication and Division 7A risk. *)
Theorem fy_summary_csv results rs company dir (st : state) s st' :
  records_at (heap st) results rs →
  generate_csv_reports results company dir st = Done s st' →
  fy_summary_file (total abs_amount) rs
    (files st' !! report_path dir company "_Summary_By_FY.csv") ∧
  (∀ r : record, "financial_year" ∉ r.*1 → fy_of r = VStr "Unknown").
Proof.
  intros Hrs Hrun.
  destruct (generate_Ok _ _ _ _ _ _ _ Hrs Hrun) as (c & Hc & _ & -> & _).
  split.
  - exists (c_years c), (c_fy_rows c). split.
    + apply final_fy.
    + by apply fy_summary_rows.
  - intros r Hr. by apply dict_get_missing.
Qed.


(** The paths a run that returns has opened. *)
Lemma generate_opened results rs company dir (st : state) s st' :
  records_at (heap st) results rs →
  generate_csv_reports results company dir st = Done s st' →
  opened st' = opened st ++ report_paths dir company.
Proof.
  intros Hrs Hrun.
  pose proof (generate_csv_reports_spec results rs company dir st Hrs) as H.
  destruct (render id rs) as [c|e]; [|destruct H; congruence].
  destruct H as (h' & _ & Heq). rewrite Heq in Hrun. by injection Hrun as _ <-.
Qed.

(** C6: a call that returns has opened seven files for writing, at seven
    different paths, in this order and no other file: the master list, with
    one row per record in the order of the input; the high-value
    deductions, ranked; the R&D candidates; the FBT review list and the
    Division 7A review list, with one row per flagged record in the order of
    the input; the year summary and the category summary, with one row per
    year and per category.  Each file holds its header and then its rows,
    which show the fields of the records column by column. *)
Theorem seven_csv_files results rs company dir (st : state) s st' :
  records_at (heap st) results rs →
  generate_csv_reports results company dir st = Done s st' →
  let file suffix := files st' !! report_path dir company suffix in
  opened st' = opened st ++ report_paths dir company ∧
  NoDup (report_paths dir company) ∧
  length (report_paths dir company) = 7%nat ∧
  ∃ master hv hv_rows rnd rnd_rows fbt div7a years fy cats cat,
    file "_All_Transactions.csv" = Some (master_header :: master) ∧
    listing master_cells rs master ∧
    file "_High_Value_Deductions.csv" = Some (hv_header :: hv_rows) ∧
    hv ≡ₚ filter (λ r, exceeds_500 r = true) rs ∧
    ranked_listing hv_cells hv hv_rows ∧
    file "_RnD_Candidates.csv" = Some (rnd_header :: rnd_rows) ∧
    rnd ≡ₚ filter (λ r, flagged "is_rnd_candidate" r = true) rs ∧
    listing rnd_cells rnd rnd_rows ∧
    file "_FBT_Review_Required.csv" = Some (review_header :: fbt) ∧
    listing review_cells
      (filter (λ r, flagged "fbt_implications" r = true) rs) fbt ∧
    file "_Division7A_Review.csv" = Some (review_header :: div7a) ∧
    listing review_cells
      (filter (λ r, flagged "division7a_risk" r = true) rs) div7a ∧
    file "_Summary_By_FY.csv" = Some (fy_header :: fy) ∧
    one_row_per_key fy_of (fy_cells (total abs_amount)) rs years fy ∧
    file "_By_Category.csv" = Some (cat_header :: cat) ∧
    one_row_per_key cat_of cat_cells rs cats cat.
Proof.
  intros Hrs Hrun file. subst file.
  pose proof (generate_opened _ _ _ _ _ _ _ Hrs Hrun) as Hopened.
  destruct (generate_Ok _ _ _ _ _ _ _ Hrs Hrun) as (c & Hc & _ & -> & _).
  destruct (hv_rows_spec rs c Hc) as (Hhv & _ & Hhvr).
  destruct (rnd_rows_spec rs c Hc) as (Hrnd & _ & Hrndr).
  pose proof (fy_summary_rows rs c Hc) as Hfy.
  destruct (cat_summary_rows rs c Hc) as [Hcat _].
  apply render_Ok in Hc
    as (Hm & _ & _ & _ & _ & Hfbt & Hfbtr & Hd7 & Hd7r & _).
  apply (filterM_filter _ (flagged "fbt_implications")) in Hfbt;
    [|by intros r b [= <-]].
  apply (filterM_filter _ (flagged "division7a_risk")) in Hd7;
    [|by intros r b [= <-]].
  split; [done|]. split; [apply report_paths_NoDup|]. split; [done|].
  exists (c_master c), (c_high_value c), (c_hv_rows c), (c_rnd c),
    (c_rnd_rows c), (c_fbt_rows c), (c_div7a_rows c), (c_years c),
    (c_fy_rows c), (c_cats c), (c_cat_rows c).
  split_and!; try done.
  - apply final_master.
  - eapply mapR_listing; [|done]. apply master_row_cells.
  - apply final_hv.
  - apply final_rnd.
  - apply final_fbt.
  - rewrite <-Hfbt. eapply mapR_listing; [|done]. apply review_row_cells.
  - apply final_div7a.
  - rewrite <-Hd7. eapply mapR_listing; [|done]. apply review_row_cells.
  - apply final_fy.
  - apply final_cat.
Qed.

(** C7: any call, whether it returns or raises, leaves every object of the
    store as it was; in particular a results list of records still holds the
    same records, in the same order.  The lists the script sorts are new
    objects. *)
Theorem input_not_modified results company dir (st : state) :
  let h' := store_after (generate_csv_reports results company dir st) in
  (∀ l o, heap st !! l = Some o → h' !! l = Some o) ∧
  (∀ rs, records_at (heap st) results rs → records_at h' results rs).
Proof.
  intros h'.
  assert (Hfr : ∀ l o, heap st !! l = Some o → h' !! l = Some o).
  { intros l o Hl. eapply lookup_weaken; [exact Hl|]. subst h'.
    pose proof (keeps_generate_csv_reports (heap st) results company dir st)
      as Hk.
    destruct (generate_csv_reports results company dir st); simpl.
    - by apply Hk.
    - by apply Hk. }
  split; [done|].
  intros rs (items & Hl & Hitems). exists items. split; [by apply Hfr|].
  eapply Forall2_impl; [done|]. intros i r Hi. by apply Hfr.
Qed.

(** C8: two runs on equal results lists, with the same company name and
    output directory, whatever the files present before and wherever the
    lists are stored, end alike: both raise the same exception, or both
    return the same statistics and leave the same contents in the seven
    files. *)
Theorem deterministic results1 results2 rs company dir (st1 st2 : state) :
  records_at (heap st1) results1 rs →
  records_at (heap st2) results2 rs →
  match generate_csv_reports results1 company dir st1,
        generate_csv_reports results2 company dir st2 with
  | Done s1 st1', Done s2 st2' =>
      s1 = s2 ∧
      ∀ p, p ∈ report_paths dir company → files st1' !! p = files st2' !! p
  | Failed e1 _, Failed e2 _ => e1 = e2
  | _, _ => False
  end.
Proof.
  intros H1 H2.
  pose proof (generate_csv_reports_spec results1 rs company dir st1 H1) as R1.
  pose proof (generate_csv_reports_spec results2 rs company dir st2 H2) as R2.
  destruct (render id rs) as [c|e];
    [|by destruct R1 as [h1 ->], R2 as [h2 ->]].
  destruct R1 as (h1 & _ & ->). destruct R2 as (h2 & _ & ->).
  split; [done|]. simpl. intros p Hp. unfold report_paths in Hp.
  apply list_elem_of_fmap in Hp as (suffix & -> & Hs).
  repeat (apply elem_of_cons in Hs as [->|Hs]);
    [..|by apply elem_of_nil in Hs].
  - by rewrite !final_master.
  - by rewrite !final_hv.
  - by rewrite !final_rnd.
  - by rewrite !final_fbt.
  - by rewrite !final_div7a.
  - by rewrite !final_fy.
  - by rewrite !final_cat.
Qed.

(** What a record counts for in the totals. *)
Lemma or_zero_field (x : num) :
  num_eqb x (num_of_Z 0) = false → or_zero (VNum x) = x.
Proof. unfold or_zero, py_or. simpl. by intros ->. Qed.

Lemma refund_adds_magnitude (g : list record) r z :
  amount r = num_of_Z z → (z < 0)%Z →
  total abs_amount (g ++ [r])
  = num_add (total abs_amount g) (num_of_Z (- z)).
Proof.
  intros Hr Hz. rewrite total_snoc. unfold abs_amount.
  by rewrite Hr, num_abs_of_Z, Z.abs_neq by lia.
Qed.

(** C9: in both summaries, under 'Total Amount' a row shows, in dollars, the
    sum of the absolute values of the transaction amounts of its group, and
    under 'Claimable Amount' the sum of the claimable amounts as they are.
    A refund, an amount below zero, adds its magnitude to the total: for an
    integer amount [z] that is [- z], and in general a number above zero;
    an amount that is not below zero counts as it is.  The amounts are the
    numbers in the fields of the record, with their sign. *)
Theorem summary_totals results rs company dir (st : state) s st' :
  records_at (heap st) results rs →
  generate_csv_reports results company dir st = Done s st' →
  let totals key_of (keys : list value) (rows : list row) :=
    (∀ r, r ∈ rs → key_count (key_of r) keys = 1%nat) ∧
    Forall2 (λ k cells,
      cells !! 0%nat = Some k ∧
      cells !! 2%nat
        = Some (dollars (total abs_amount (group key_of k rs))) ∧
      cells !! 3%nat
        = Some (dollars (total claimable (group key_of k rs)))) keys rows in
  ((fy_header : row) !! 2%nat = Some (VStr "Total Amount") ∧
   (fy_header : row) !! 3%nat = Some (VStr "Claimable Amount") ∧
   (cat_header : row) !! 2%nat = Some (VStr "Total Amount") ∧
   (cat_header : row) !! 3%nat = Some (VStr "Claimable Amount")) ∧
  (∃ years rows,
     files st' !! report_path dir company "_Summary_By_FY.csv"
       = Some (fy_header :: rows) ∧
     totals fy_of years rows) ∧
  (∃ cats rows,
     files st' !! report_path dir company "_By_Category.csv"
       = Some (cat_header :: rows) ∧
     totals cat_of cats rows) ∧
  (∀ (g : list record) r z, amount r = num_of_Z z → (z < 0)%Z →
     total abs_amount (g ++ [r])
     = num_add (total abs_amount g) (num_of_Z (- z))) ∧
  (∀ (g : list record) r, num_ltb (amount r) (num_of_Z 0) = true →
     ∃ m, num_ltb (num_of_Z 0) m = true ∧
          total abs_amount (g ++ [r]) = num_add (total abs_amount g) m) ∧
  (∀ r : record, num_ltb (amount r) (num_of_Z 0) = false →
     num_eqb (abs_amount r) (amount r) = true) ∧
  (∀ (r : record) x, dict_get r "transaction_amount" VNone = VNum x →
     num_eqb x (num_of_Z 0) = false → amount r = x) ∧
  (∀ (r : record) x, dict_get r "claimable_amount" VNone = VNum x →
     num_eqb x (num_of_Z 0) = false → claimable r = x).
Proof.
  intros Hrs Hrun totals. subst totals.
  destruct (generate_Ok _ _ _ _ _ _ _ Hrs Hrun) as (c & Hc & _ & -> & _).
  destruct (fy_summary_rows rs c Hc) as (Hfy1 & _ & Hfy).
  destruct (cat_summary_rows rs c Hc) as [(Hcat1 & _ & Hcat) _].
  split; [done|]. split; [|split]; [| |split_and!].
  - exists (c_years c), (c_fy_rows c). split; [apply final_fy|].
    split; [done|]. eapply Forall2_impl; [done|]. by intros k cells ->.
  - exists (c_cats c), (c_cat_rows c). split; [apply final_cat|].
    split; [done|]. eapply Forall2_impl; [done|]. by intros k cells ->.
  - apply refund_adds_magnitude.
  - intros g r Hr. exists (abs_amount r). split; [|apply total_snoc].
    by apply num_abs_neg.
  - intros r Hr. by apply num_abs_nonneg.
  - intros r x Hx Hnz. unfold amount. rewrite Hx. by apply or_zero_field.
  - intros r x Hx Hnz. unfold claimable. rewrite Hx. by apply or_zero_field.
Qed.

(** C10: a document without a ['results'] key loads as the empty list, and
    the run on an empty list returns five zero counts and leaves each of the
    seven files with its header row only. *)
Theorem no_results_key (d : record) :
  "results" ∉ d.*1 →
  load_json (VDict d) = Ok (VList []) ∧
  ∀ results company dir (st : state),
    heap st !! results = Some (OList []) →
    let path := report_path dir company in
    ∃ st',
      generate_csv_reports results company dir st
        = Done (Stats 0 0 0 0 0) st' ∧
      files st' !! path "_All_Transactions.csv" = Some [master_header] ∧
      files st' !! path "_High_Value_Deductions.csv" = Some [hv_header] ∧
      files st' !! path "_RnD_Candidates.csv" = Some [rnd_header] ∧
      files st' !! path "_FBT_Review_Required.csv" = Some [review_header] ∧
      files st' !! path "_Division7A_Review.csv" = Some [review_header] ∧
      files st' !! path "_Summary_By_FY.csv" = Some [fy_header] ∧
      files st' !! path "_By_Category.csv" = Some [cat_header].
Proof.
  intros Hd. split.
  - simpl. by rewrite dict_get_missing.
  - intros results company dir st Hres path. subst path.
    eexists. split.
    { apply returned_Ok.
      by rewrite (generate_csv_reports_run results []) by (done || constructor). }
    simpl. split_and!.
    + apply (final_master dir company (Contents [] [] [] [] [] [] [] [] [] [] [] [] [] [] [])).
    + apply (final_hv dir company (Contents [] [] [] [] [] [] [] [] [] [] [] [] [] [] [])).
    + apply (final_rnd dir company (Contents [] [] [] [] [] [] [] [] [] [] [] [] [] [] [])).
    + apply (final_fbt dir company (Contents [] [] [] [] [] [] [] [] [] [] [] [] [] [] [])).
    + apply (final_div7a dir company (Contents [] [] [] [] [] [] [] [] [] [] [] [] [] [] [])).
    + apply (final_fy dir company (Contents [] [] [] [] [] [] [] [] [] [] [] [] [] [] [])).
    + apply (final_cat dir company (Contents [] [] [] [] [] [] [] [] [] [] [] [] [] [] [])).
Qed.

End claims.

(** * Further properties of the report generator *)

Section further.
Context `{!PyNumberLaws num}.

(** ** The counts returned and the lines printed *)

Lemma contents_counts rs (c : contents record) :
  render id rs = Ok c →
  final_stats (length rs) c
  = Stats (length rs)
          (length (filter (λ r, exceeds_500 r = true) rs))
          (count_flagged "is_rnd_candidate" rs)
          (count_flagged "fbt_implications" rs)
          (count_flagged "division7a_risk" rs).
Proof.
  intros Hc. apply render_Ok in Hc
    as (_ & (hv0 & Hhv0 & Hhv) & _ & (rnd0 & Hrnd0 & Hrnd) & _
        & Hfbt & _ & Hd7 & _).
  apply (filterM_filter _ exceeds_500) in Hhv0; [|apply is_high_value_Ok].
  apply (filterM_filter _ (flagged "is_rnd_candidate")) in Hrnd0;
    [|by intros r b [= <-]].
  apply (filterM_filter _ (flagged "fbt_implications")) in Hfbt;
    [|by intros r b [= <-]].
  apply (filterM_filter _ (flagged "division7a_risk")) in Hd7;
    [|by intros r b [= <-]].
  apply py_sorted_perm in Hhv, Hrnd.
  unfold final_stats, count_flagged. subst hv0 rnd0.
  by rewrite Hhv, Hrnd, Hfbt, Hd7.
Qed.

(** X1: the dict a call returns counts the records of the input: all of
    them, those with a claimable amount above 500, and those with a truthy
    [is_rnd_candidate], [fbt_implications] and [division7a_risk]. *)
Theorem returned_statistics results rs company dir (st : state) s st' :
  records_at (heap st) results rs →
  generate_csv_reports results company dir st = Done s st' →
  s = Stats (length rs)
            (length (filter (λ r, exceeds_500 r = true) rs))
            (count_flagged "is_rnd_candidate" rs)
            (count_flagged "fbt_implications" rs)
            (count_flagged "division7a_risk" rs).
Proof.
  intros Hrs Hrun.
  destruct (generate_Ok _ _ _ _ _ _ _ Hrs Hrun) as (c & Hc & -> & _).
  by apply contents_counts.
Qed.

(** X2: a call that returns has printed seven lines after what was printed
    before, one per file in the order the files are written; the lines of
    the four filtered listings give the number of their records, which is
    the count the call returns for them. *)
Theorem printed_lines results rs company dir (st : state) s st' :
  records_at (heap st) results rs →
  generate_csv_reports results company dir st = Done s st' →
  stdout st' = stdout st ++ created_lines dir company s.
Proof.
  intros Hrs Hrun.
  by destruct (generate_Ok _ _ _ _ _ _ _ Hrs Hrun) as (c & _ & -> & _ & -> & _).
Qed.

(** ** The shape of the files *)

Lemma master_row_length r cells :
  master_row r = Ok cells → length cells = 18%nat.
Proof.
  unfold master_row. intros H.
  repeat (apply result_bind_Ok in H as (? & ? & H)). by injection H as <-.
Qed.

Lemma hv_row_length i r cells : hv_row i r = Ok cells → length cells = 12%nat.
Proof.
  unfold hv_row. intros H.
  repeat (apply result_bind_Ok in H as (? & ? & H)). by injection H as <-.
Qed.

Lemma rnd_row_length r cells : rnd_row r = Ok cells → length cells = 13%nat.
Proof.
  unfold rnd_row. intros H.
  repeat (apply result_bind_Ok in H as (? & ? & H)). by injection H as <-.
Qed.

Lemma review_row_length r cells :
  review_row r = Ok cells → length cells = 8%nat.
Proof.
  unfold review_row. intros H.
  repeat (apply result_bind_Ok in H as (? & ? & H)). by injection H as <-.
Qed.

Lemma fy_row_length (d : pydict fy_entry) k cells :
  fy_row d k = Ok cells → length cells = 7%nat.
Proof.
  unfold fy_row. intros H.
  repeat (apply result_bind_Ok in H as (? & ? & H)). by injection H as <-.
Qed.

Lemma cat_row_length (d : pydict cat_entry) k cells :
  cat_row d k = Ok cells → length cells = 4%nat.
Proof.
  unfold cat_row. intros H.
  repeat (apply result_bind_Ok in H as (? & ? & H)). by injection H as <-.
Qed.

Lemma mapR_rows {A} (f : A → result row) l rows n :
  (∀ x cells, f x = Ok cells → length cells = n) →
  mapR f l = Ok rows → Forall (λ cells, length cells = n) rows.
Proof.
  intros Hf Hrows. apply mapR_Ok in Hrows.
  induction Hrows; constructor; eauto.
Qed.

(** X3: in each of the seven files of a call that returns, every row has as
    many cells as the header: 18 in the master list, 12 in the high-value
    list, 13 in the R&D list, 8 in the two review lists, 7 in the year
    summary and 4 in the category summary. *)
Theorem rows_as_wide_as_header results rs company dir (st : state) s st' :
  records_at (heap st) results rs →
  generate_csv_reports results company dir st = Done s st' →
  let file suffix := files st' !! report_path dir company suffix in
  rectangular 18 (file "_All_Transactions.csv") ∧
  rectangular 12 (file "_High_Value_Deductions.csv") ∧
  rectangular 13 (file "_RnD_Candidates.csv") ∧
  rectangular 8 (file "_FBT_Review_Required.csv") ∧
  rectangular 8 (file "_Division7A_Review.csv") ∧
  rectangular 7 (file "_Summary_By_FY.csv") ∧
  rectangular 4 (file "_By_Category.csv").
Proof.
  intros Hrs Hrun file. subst file.
  destruct (generate_Ok _ _ _ _ _ _ _ Hrs Hrun) as (c & Hc & _ & -> & _).
  apply render_Ok in Hc
    as (Hm & _ & Hhv & _ & Hrnd & _ & Hfbt & _ & Hd7 & _ & _ & Hfy & _ & _
        & Hcat).
  split_and!.
  - eexists _, _. split_and!; [apply final_master|done|].
    eapply mapR_rows; [|done]. apply master_row_length.
  - eexists _, _. split_and!; [apply final_hv|done|].
    eapply mapR_rows; [|done]. intros p. apply hv_row_length.
  - eexists _, _. split_and!; [apply final_rnd|done|].
    eapply mapR_rows; [|done]. apply rnd_row_length.
  - eexists _, _. split_and!; [apply final_fbt|done|].
    eapply mapR_rows; [|done]. apply review_row_length.
  - eexists _, _. split_and!; [apply final_div7a|done|].
    eapply mapR_rows; [|done]. apply review_row_length.
  - eexists _, _. split_and!; [apply final_fy|done|].
    eapply mapR_rows; [|done]. apply fy_row_length.
  - eexists _, _. split_and!; [apply final_cat|done|].
    eapply mapR_rows; [|done]. apply cat_row_length.
Qed.

(** ** Ties keep the order of the input *)

Lemma filter_fmap_list {A B} (g : A → B) (P : B → Prop)
    `{!∀ y, Decision (P y)} (l : list A) :
  filter P (g <$> l) = g <$> filter (λ x, P (g x)) l.
Proof.
  induction l as [|x l IH]; csimpl; [done|].
  rewrite (filter_cons _ (g x)), (filter_cons _ x), IH.
  by destruct (decide (P (g x))).
Qed.

Lemma insert_pure_filter {A} (f : A → A → bool) (P : A → Prop)
    `{!∀ x, Decision (P x)} x (l : list A) :
  (∀ y, y ∈ l → P y → P x → f y x = false) →
  filter P (insert_pure f x l) = filter P (x :: l).
Proof.
  induction l as [|y l IH]; intros Hf; simpl; [done|].
  destruct (f y x) eqn:Hyx; [|done].
  rewrite (filter_cons _ y), IH by (intros z Hz; apply Hf; by right).
  rewrite !(filter_cons _ x), (filter_cons _ y).
  destruct (decide (P y)) as [Hy|]; [|done].
  destruct (decide (P x)) as [Hx|]; [|done].
  rewrite (Hf y) in Hyx by (done || left). done.
Qed.

Lemma isort_filter {A} (f : A → A → bool) (P : A → Prop)
    `{!∀ x, Decision (P x)} (l : list A) :
  (∀ y z, y ∈ l → z ∈ l → P y → P z → f y z = false) →
  filter P (isort f l) = filter P l.
Proof.
  induction l as [|x l IH]; intros Hf; simpl; [done|].
  rewrite insert_pure_filter.
  - rewrite !(filter_cons _ x), IH; [done|].
    intros y z Hy Hz. apply Hf; by right.
  - intros y Hy. rewrite isort_perm in Hy. apply Hf; [by right|left].
Qed.

Section py_sorted_stable.
Context {A : Type}.
Context (key : A → result value) (f : A → num) (l : list A).
Hypothesis key_num : ∀ x, x ∈ l → ∃ v, key x = Ok v ∧ as_num v = Some (f x).

(** [sorted] and [list.sort] are stable, also with [reverse=True]: the items
    that rank like [x] are in the order they had. *)
Lemma py_sorted_stable b s x :
  py_sorted key b l = Ok s →
  filter (λ y, tied f x y = true) s = filter (λ y, tied f x y = true) l.
Proof.
  unfold py_sorted. intros (keyed & Hk & H)%result_bind_Ok.
  apply result_bind_Ok in H as (s0 & Hs & [= <-]).
  rewrite (sort_by_pure _ (λ a b, num_ltb (f a.2) (f b.2))) in Hs.
  2:{ intros y z Hy Hz.
      assert (Hy' : y ∈ keyed)
        by (destruct b; by rewrite ?elem_of_reverse in Hy).
      assert (Hz' : z ∈ keyed)
        by (destruct b; by rewrite ?elem_of_reverse in Hz).
      destruct (keyed_elem _ _ _ _ Hk Hy') as [Hyl Hyk].
      destruct (keyed_elem _ _ _ _ Hk Hz') as [Hzl Hzk].
      destruct (key_num _ Hyl) as (v & Hv & Hvn).
      destruct (key_num _ Hzl) as (w & Hw & Hwn).
      rewrite Hv in Hyk. rewrite Hw in Hzk. simplify_eq.
      unfold py_lt. by rewrite Hvn, Hwn. }
  injection Hs as <-.
  assert (Hst : ∀ k : list (value * A),
    filter (λ p, tied f x p.2 = true)
      (isort (λ a b, num_ltb (f a.2) (f b.2)) k)
    = filter (λ p, tied f x p.2 = true) k).
  { intros k. apply isort_filter. intros y z _ _ Hy Hz.
    unfold tied in Hy, Hz.
    apply andb_true_iff in Hy as [_ Hy%negb_true_iff].
    apply andb_true_iff in Hz as [Hz%negb_true_iff _].
    by eapply num_ltb_negtrans. }
  rewrite <-(keyed_snd _ _ _ Hk).
  rewrite !(filter_fmap_list snd (λ y, tied f x y = true)).
  f_equal.
  destruct b.
  - rewrite filter_reverse.
    etrans; [apply (f_equal reverse), Hst|].
    by rewrite filter_reverse, reverse_involutive.
  - apply Hst.
Qed.
End py_sorted_stable.

(** X4: in the high-value list, records with the same claimable amount are
    in the order of the input: [list.sort] is stable, also with
    [reverse=True]. *)
Theorem high_value_ties_in_input_order results rs company dir (st : state)
    s st' :
  records_at (heap st) results rs →
  generate_csv_reports results company dir st = Done s st' →
  ∃ hv rows,
    files st' !! report_path dir company "_High_Value_Deductions.csv"
      = Some (hv_header :: rows) ∧
    Forall2 (λ p cells, hv_row p.1 p.2 = Ok cells) (enumerate 1 hv) rows ∧
    ∀ r, filter (λ x, tied claimable r x = true) hv
         = filter (λ x, tied claimable r x = true)
             (filter (λ x, exceeds_500 x = true) rs).
Proof.
  intros Hrs Hrun.
  destruct (generate_Ok _ _ _ _ _ _ _ Hrs Hrun) as (c & Hc & _ & -> & _).
  apply render_Ok in Hc as (_ & (hv0 & Hhv0 & Hhv) & Hrows & _).
  apply (filterM_filter _ exceeds_500) in Hhv0;
    [|apply is_high_value_Ok]. subst hv0.
  exists (c_high_value c), (c_hv_rows c). split_and!.
  - apply final_hv.
  - by apply mapR_Ok.
  - intros r. eapply py_sorted_stable; [|done].
    intros x [Hx _]%list_elem_of_filter. eexists. split; [done|].
    by apply exceeds_500_key.
Qed.


(** ** The keys of the summaries *)






(** ** The order of the year summary *)

Lemma ascii_compare_Lt a b :
  Ascii.compare a b = Lt ↔ (N_of_ascii a < N_of_ascii b)%N.
Proof. unfold Ascii.compare. apply N.compare_lt_iff. Qed.

Lemma string_compare_trans a b c :
  String.compare a b = Lt → String.compare b c = Lt → String.compare a c = Lt.
Proof.
  revert b c. induction a as [|x a IH]; intros [|y b] [|z c]; simpl; try done.
  destruct (Ascii.compare x y) eqn:Hxy; [|intros _|done].
  - apply Ascii.compare_eq_iff in Hxy as ->.
    destruct (Ascii.compare y z); [apply IH|done..].
  - destruct (Ascii.compare y z) eqn:Hyz; [|intros _|done].
    + apply Ascii.compare_eq_iff in Hyz as <-. by rewrite Hxy.
    + apply (proj1 (ascii_compare_Lt _ _)) in Hxy.
      apply (proj1 (ascii_compare_Lt _ _)) in Hyz.
      assert (Hxz : Ascii.compare x z = Lt) by (apply ascii_compare_Lt; lia).
      by rewrite Hxz.
Qed.

Lemma string_ltb_Lt a b : String.ltb a b = true ↔ String.compare a b = Lt.
Proof. unfold String.ltb. by destruct (String.compare a b). Qed.

Lemma string_ltb_asym a b : String.ltb a b = true → String.ltb b a = false.
Proof.
  rewrite string_ltb_Lt. intros Hab. apply not_true_is_false.
  rewrite string_ltb_Lt, String.compare_antisym, Hab. done.
Qed.

Lemma string_ltb_total a b :
  String.ltb b a = false → a ≠ b → String.ltb a b = true.
Proof.
  intros Hba Hne. apply string_ltb_Lt.
  apply not_true_iff_false in Hba. rewrite string_ltb_Lt in Hba.
  rewrite String.compare_antisym.
  destruct (String.compare b a) eqn:Hc; [|done..].
  by apply String.compare_eq_iff in Hc as ->.
Qed.

Lemma string_ltb_negtrans a b c :
  String.ltb a b = false → String.ltb b c = false → String.ltb a c = false.
Proof.
  intros Hab Hbc. apply not_true_is_false. intros Hac.
  destruct (decide (b = c)) as [->|Hne]; [congruence|].
  assert (Hcb : String.ltb c b = true) by by apply string_ltb_total.
  rewrite string_ltb_Lt in Hac, Hcb.
  pose proof (string_compare_trans _ _ _ Hac Hcb) as Hlt.
  apply string_ltb_Lt in Hlt. congruence.
Qed.

Lemma StronglySorted_strict {A} (R R' : relation A) l :
  (∀ a b, R a b → a ≠ b → R' a b) →
  StronglySorted R l → NoDup l → StronglySorted R' l.
Proof.
  intros HR. induction 1 as [|x l Hl IH Hx]; [constructor|].
  intros [Hnx Hnd]%NoDup_cons. constructor; [by apply IH|].
  rewrite Forall_forall in *. intros y Hy. apply HR; [by apply Hx|].
  by intros ->.
Qed.

Lemma string_keys_NoDup (ks : list string) :
  (∀ v, key_count v (VStr <$> ks) ≤ 1)%nat → NoDup ks.
Proof.
  induction ks as [|x ks IH]; intros Hone; [constructor|].
  constructor.
  - intros Hx. specialize (Hone (VStr x)). revert Hone.
    unfold key_count. csimpl. rewrite filter_cons.
    rewrite decide_True by (simpl; apply String.eqb_refl). simpl.
    pose proof (key_count_pos (VStr x) (VStr <$> ks) (VStr x)) as Hpos.
    unfold key_count in Hpos. intros Hle.
    assert (1 ≤ length (filter (λ k, key_eqb k (VStr x) = true)
                          (VStr <$> ks)))%nat; [|lia].
    apply Hpos; [by apply list_elem_of_fmap_2|]. simpl. apply String.eqb_refl.
  - apply IH. intros v. specialize (Hone v). revert Hone.
    unfold key_count. csimpl. rewrite filter_cons.
    case_decide; simpl; lia.
Qed.

(** On strings [sorted] cannot raise and gives them in ascending order. *)
Lemma py_sorted_strings (ks : list string) s :
  py_sorted Ok false (VStr <$> ks) = Ok s →
  ∃ ys, s = VStr <$> ys ∧ ys ≡ₚ ks ∧
        StronglySorted (λ a b, String.ltb b a = false) ys.
Proof.
  intros Hs. pose proof (py_sorted_perm _ _ _ _ Hs) as Hperm.
  assert (Hstr : ∀ v, v ∈ s → VStr (key_str v) = v).
  { intros v Hv. rewrite Hperm in Hv.
    by apply list_elem_of_fmap in Hv as (y & -> & _). }
  exists (key_str <$> s). split_and!.
  - rewrite <-list_fmap_compose. symmetry.
    etrans; [|apply list_fmap_id]. apply list_fmap_ext.
    intros i v Hv. apply Hstr. by eapply list_elem_of_lookup_2.
  - rewrite Hperm, <-list_fmap_compose.
    by rewrite (list_fmap_ext (key_str ∘ VStr) id ks), list_fmap_id.
  - revert Hs. unfold py_sorted.
    intros (keyed & Hk & H)%result_bind_Ok.
    apply result_bind_Ok in H as (s0 & Hs & [= <-]).
    rewrite (sort_by_pure _
      (λ a b, String.ltb (key_str a.2) (key_str b.2))) in Hs.
    + injection Hs as <-. rewrite <-list_fmap_compose.
      eapply StronglySorted_fmap; [|apply isort_sorted].
      * by intros x y.
      * intros a b. apply string_ltb_asym.
      * intros a b c. apply string_ltb_negtrans.
    + intros x y Hx Hy.
      destruct (keyed_elem _ _ _ _ Hk Hx) as [Hxl [= Hxk]].
      destruct (keyed_elem _ _ _ _ Hk Hy) as [Hyl [= Hyk]].
      apply list_elem_of_fmap in Hxl as (a & Ha & _).
      apply list_elem_of_fmap in Hyl as (b & Hb & _).
      rewrite <-Hxk, <-Hyk, Ha, Hb. done.
Qed.

(** X7: when the financial year of every record is a string, the rows of
    the year summary are in strictly ascending order of the year. *)
Theorem year_rows_ascending results rs company dir (st : state) s st' :
  records_at (heap st) results rs →
  (∀ r, r ∈ rs → ∃ y, fy_of r = VStr y) →
  generate_csv_reports results company dir st = Done s st' →
  ∃ years rows,
    files st' !! report_path dir company "_Summary_By_FY.csv"
      = Some (fy_header :: rows) ∧
    Forall2 (λ y cells, cells !! 0%nat = Some (VStr y)) years rows ∧
    StronglySorted (λ a b, String.ltb a b = true) years.
Proof.
  intros Hrs Hstr Hrun.
  destruct (generate_Ok _ _ _ _ _ _ _ Hrs Hrun) as (c & Hc & _ & -> & _).
  destruct (fy_summary_rows rs c Hc) as (_ & _ & Hcells).
  apply render_Ok in Hc
    as (_ & _ & _ & _ & _ & _ & _ & _ & _ & Hfy & Hyears & _).
  apply (grouped_foldM fy_of
    (FyEntry 0 (num_of_Z 0) (num_of_Z 0) 0 0 0) fy_upd) in Hfy;
    [|apply by_fy_step_group].
  destruct Hfy as (I1 & _ & I3 & _).
  assert (Hks : (c_by_fy c).*1 = VStr <$> (key_str <$> (c_by_fy c).*1)).
  { rewrite <-list_fmap_compose. symmetry.
    etrans; [|apply list_fmap_id]. apply list_fmap_ext.
    intros i k Hk%list_elem_of_lookup_2.
    destruct (I3 k Hk) as (_ & r & Hr & ->).
    by destruct (Hstr r Hr) as [y ->]. }
  rewrite Hks in Hyears, I1.
  destruct (py_sorted_strings _ _ Hyears) as (ys & Hys & Hperm & Hsorted).
  exists ys, (c_fy_rows c). split_and!.
  - apply final_fy.
  - rewrite Hys in Hcells. apply Forall2_fmap_l in Hcells.
    eapply Forall2_impl; [done|]. by intros y cells ->.
  - eapply StronglySorted_strict; [|done|].
    + intros a b Hba Hne. by apply string_ltb_total.
    + rewrite Hperm. by apply string_keys_NoDup.
Qed.

(** ** Running again *)

Lemma final_files_again {E} dir company (c : contents E)
    (F : gmap string (list row)) :
  final_files dir company c (final_files dir company c F)
  = final_files dir company c F.
Proof.
  set (F' := final_files dir company c F).
  unfold final_files at 1. cbv zeta.
  rewrite (insert_id _ _ _ (final_master dir company c F)).
  rewrite (insert_id _ _ _ (final_hv dir company c F)).
  rewrite (insert_id _ _ _ (final_rnd dir company c F)).
  rewrite (insert_id _ _ _ (final_fbt dir company c F)).
  rewrite (insert_id _ _ _ (final_div7a dir company c F)).
  rewrite (insert_id _ _ _ (final_fy dir company c F)).
  by rewrite (insert_id _ _ _ (final_cat dir company c F)).
Qed.

(** X8: a second call with the same arguments, made after a call that
    returned, returns the same counts and leaves every file as the first
    call left it: each file is opened with ['w'] and written again from the
    input, which the first call did not change. *)
Theorem second_call_changes_no_file results rs company dir (st : state)
    s st' :
  records_at (heap st) results rs →
  generate_csv_reports results company dir st = Done s st' →
  ∃ st'', generate_csv_reports results company dir st' = Done s st'' ∧
          files st'' = files st'.
Proof.
  intros Hrs Hrun.
  destruct (generate_Ok _ _ _ _ _ _ _ Hrs Hrun)
    as (c & Hc & -> & Hfiles & _ & Hfr).
  assert (Hrs' : records_at (heap st') results rs).
  { destruct Hrs as (items & Hl & Hitems). exists items.
    split; [by apply Hfr|].
    eapply Forall2_impl; [done|]. intros i r Hi. by apply Hfr. }
  pose proof (generate_csv_reports_spec results rs company dir st' Hrs')
    as Hagain.
  rewrite Hc in Hagain. destruct Hagain as (h' & _ & ->).
  eexists. split; [done|]. simpl.
  by rewrite Hfiles, final_files_again.
Qed.

(** ** The counts of the summaries add up *)

Lemma key_count_sum v (ks : list value) :
  sum_list ((λ k, if key_eqb k v then 1 else 0)%nat <$> ks) = key_count v ks.
Proof.
  unfold key_count. induction ks as [|k ks IH]; csimpl; [done|].
  rewrite filter_cons, IH. destruct (key_eqb k v); by case_decide.
Qed.

Lemma sum_list_fmap_add {A} (f g : A → nat) (l : list A) :
  sum_list ((λ x, f x + g x)%nat <$> l)
  = (sum_list (f <$> l) + sum_list (g <$> l))%nat.
Proof. induction l as [|x l IH]; csimpl; [done|]. rewrite IH. lia. Qed.

Lemma sum_list_fmap_0 {A} (l : list A) :
  sum_list ((λ _, 0%nat) <$> l) = 0%nat.
Proof. induction l as [|x l IH]; csimpl; done. Qed.

(** Every record is in the group of exactly one key, so what is counted
    group by group is counted once. *)
Lemma groups_partition (key_of : record → value) (P : record → Prop)
    `{!∀ r, Decision (P r)} (keys : list value) (rs : list record) :
  (∀ r, r ∈ rs → key_count (key_of r) keys = 1%nat) →
  sum_list ((λ k, length (filter P (group key_of k rs))) <$> keys)
  = length (filter P rs).
Proof.
  induction rs as [|r rs IH]; intros Hone.
  - unfold group. simpl. apply sum_list_fmap_0.
  - rewrite (list_fmap_ext _
      (λ k, (if key_eqb k (key_of r) then (if decide (P r) then 1 else 0)
             else 0) + length (filter P (group key_of k rs)))%nat keys).
    2:{ intros i k _. unfold group. rewrite (filter_cons _ r).
        destruct (key_eqb k (key_of r)).
        - rewrite decide_True by done. rewrite (filter_cons _ r).
          by destruct (decide (P r)).
        - by rewrite decide_False by done. }
    rewrite sum_list_fmap_add, IH by (intros r' Hr'; apply Hone; by right).
    rewrite (filter_cons _ r).
    destruct (decide (P r)); simpl.
    + rewrite key_count_sum, Hone by left. done.
    + rewrite (list_fmap_ext _ (λ _, 0%nat) keys), sum_list_fmap_0; [done|].
      intros i k _. by destruct (key_eqb k (key_of r)).
Qed.

Lemma filter_all {A} (l : list A) : filter (λ _, True) l = l.
Proof.
  induction l as [|x l IH]; [done|]. by rewrite filter_cons_True, IH.
Qed.

Lemma groups_cover (key_of : record → value) (keys : list value)
    (rs : list record) :
  (∀ r, r ∈ rs → key_count (key_of r) keys = 1%nat) →
  sum_list ((λ k, length (group key_of k rs)) <$> keys) = length rs.
Proof.
  intros Hone.
  trans (length (filter (λ _, True) rs)); [|by rewrite filter_all].
  rewrite <-(groups_partition key_of (λ _, True) keys rs Hone).
  f_equal. apply list_fmap_ext. intros i k _. by rewrite filter_all.
Qed.

(** X10: the rows of the year summary account for every record once: their
    transaction counts add up to the number of records, and their R&D, FBT
    and Division 7A counts add up to the counts the call returns. *)
Theorem year_counts_add_up results rs company dir (st : state) s st' :
  records_at (heap st) results rs →
  generate_csv_reports results company dir st = Done s st' →
  ∃ years rows,
    files st' !! report_path dir company "_Summary_By_FY.csv"
      = Some (fy_header :: rows) ∧
    Forall2 (λ k cells,
      cells = fy_cells (total abs_amount) k (group fy_of k rs)) years rows ∧
    let sum_over column :=
      sum_list ((λ k, column (group fy_of k rs)) <$> years) in
    sum_over length = total_transactions s ∧
    sum_over (count_flagged "is_rnd_candidate") = rnd_candidates s ∧
    sum_over (count_flagged "fbt_implications") = fbt_issues s ∧
    sum_over (count_flagged "division7a_risk") = div7a_issues s.
Proof.
  intros Hrs Hrun.
  destruct (generate_Ok _ _ _ _ _ _ _ Hrs Hrun) as (c & Hc & -> & -> & _).
  rewrite (contents_counts rs c Hc).
  destruct (fy_summary_rows rs c Hc) as (Hone & _ & Hcells).
  exists (c_years c), (c_fy_rows c).
  split; [apply final_fy|]. split; [done|]. simpl. split_and!.
  - by apply groups_cover.
  - by apply groups_partition.
  - by apply groups_partition.
  - by apply groups_partition.
Qed.

(** X11: the rows of the category summary account for every record once:
    their transaction counts add up to the number of records. *)
Theorem category_counts_add_up results rs company dir (st : state) s st' :
  records_at (heap st) results rs →
  generate_csv_reports results company dir st = Done s st' →
  ∃ cats rows,
    files st' !! report_path dir company "_By_Category.csv"
      = Some (cat_header :: rows) ∧
    Forall2 (λ k cells, cells = cat_cells k (group cat_of k rs)) cats rows ∧
    sum_list ((λ k, length (group cat_of k rs)) <$> cats)
    = total_transactions s.
Proof.
  intros Hrs Hrun.
  destruct (generate_Ok _ _ _ _ _ _ _ Hrs Hrun) as (c & Hc & -> & -> & _).
  rewrite (contents_counts rs c Hc).
  destruct (cat_summary_rows rs c Hc) as [(Hone & _ & Hcells) _].
  exists (c_cats c), (c_cat_rows c). split_and!; simpl.
  - apply final_cat.
  - done.
  - by apply groups_cover.
Qed.

(** ** Records that make a call raise *)

Lemma done_or_failed {A} (o : outcome A) :
  (∀ a st', o ≠ Done a st') → ∃ e h, o = Failed e h.
Proof. destruct o as [a st'|e h]; [by intros H; destruct (H a st')|eauto]. Qed.

Lemma py_or_numeric (v : value) n :
  as_num (py_or v (VInt 0)) = Some n → numeric_ok v.
Proof.
  unfold py_or, numeric_ok. destruct (truthy v); [|by left].
  intros ->. right. by eexists.
Qed.

(** What a call that returns tells about a record of the input. *)
Lemma render_usable rs (c : contents record) r :
  render id rs = Ok c → r ∈ rs →
  numeric_ok (dict_get r "transaction_amount" VNone) ∧
  numeric_ok (dict_get r "claimable_amount" VNone) ∧
  hashable (fy_of r) = true ∧ hashable (cat_of r) = true.
Proof.
  intros Hc Hr. apply render_Ok in Hc
    as (_ & _ & _ & _ & _ & _ & _ & _ & _ & Hfy & _ & _ & Hcat & _).
  destruct (foldM_Ok_all _ _ _ _ Hfy r Hr) as (a & a' & Hstep).
  destruct (foldM_Ok_all _ _ _ _ Hcat r Hr) as (b & b' & Hstepc).
  pose proof (by_fy_step_numeric _ _ _ Hstep) as [Ha Hcl].
  apply by_fy_step_group in Hstep as [Hhf _].
  apply by_cat_step_group in Hstepc as [Hhc _].
  unfold rnd_key in Ha. rewrite py_or_zero_eq in Ha.
  split_and!; [by eapply py_or_numeric..|done|done].
Qed.

(** X12: a record whose transaction amount or claimable amount is neither a
    number nor falsy (a non-empty string, list or dict), or whose financial
    year or category is a list or a dict, makes the call raise: no counts
    are returned. *)
Theorem unusable_record_raises results rs company dir (st : state) r :
  records_at (heap st) results rs → r ∈ rs →
  ¬ numeric_ok (dict_get r "transaction_amount" VNone) ∨
  ¬ numeric_ok (dict_get r "claimable_amount" VNone) ∨
  hashable (fy_of r) = false ∨ hashable (cat_of r) = false →
  ∃ e h, generate_csv_reports results company dir st = Failed e h.
Proof.
  intros Hrs Hr Hbad. apply done_or_failed. intros s st' Hrun.
  destruct (generate_Ok _ _ _ _ _ _ _ Hrs Hrun) as (c & Hc & _).
  destruct (render_usable rs c r Hc Hr) as (Ha & Hcl & Hf & Hcat).
  destruct Hbad as [?|[?|[?|?]]]; congruence || done.
Qed.

(** ** A null financial year *)

Lemma insert_by_unordered {A} (lt : A → A → result bool) x y l s :
  insert_by lt x (y :: l) = Ok s → ∃ b, lt y x = Ok b.
Proof. simpl. destruct (lt y x); [eauto|done]. Qed.

(** An item that [<] cannot compare with anything is sorted only alone. *)
Lemma sort_by_unordered {A} (lt : A → A → result bool) l s x :
  sort_by lt l = Ok s → x ∈ l →
  (∀ y b, lt x y ≠ Ok b) → (∀ y b, lt y x ≠ Ok b) → l = [x].
Proof.
  intros Hs Hx Hxy Hyx. revert s Hs Hx.
  induction l as [|a l IH]; intros s Hs Hx; [by inversion Hx|].
  simpl in Hs. apply result_bind_Ok in Hs as (s' & Hs' & Hins).
  destruct l as [|a' l].
  { by apply list_elem_of_singleton in Hx as ->. }
  exfalso. pose proof (sort_by_perm _ _ _ Hs') as Hperm.
  destruct s' as [|y s']; [by apply Permutation_nil_cons in Hperm|].
  destruct (insert_by_unordered _ _ _ _ _ Hins) as [b Hb].
  apply elem_of_cons in Hx as [->|Hx]; [by eapply Hyx|].
  rewrite (IH _ Hs' Hx) in Hs'. simpl in Hs'. injection Hs' as <- <-.
  by eapply Hxy.
Qed.

Lemma py_lt_None_l v b : py_lt VNone v ≠ Ok b.
Proof. unfold py_lt. simpl. by destruct (as_num v), v. Qed.

Lemma py_lt_None_r v b : py_lt v VNone ≠ Ok b.
Proof. unfold py_lt. simpl. by destruct (as_num v), v. Qed.

Lemma key_eqb_None k : key_eqb k VNone = true → k = VNone.
Proof. by destruct k. Qed.

(** X13: a record whose [financial_year] is null, next to a record with
    another year, makes the call raise: [get] returns the null and not
    ['Unknown'], and [sorted] cannot compare [None] with another key. *)
Theorem null_year_raises results rs company dir (st : state) r1 r2 :
  records_at (heap st) results rs →
  r1 ∈ rs → r2 ∈ rs → fy_of r1 = VNone → fy_of r2 ≠ VNone →
  ∃ e h, generate_csv_reports results company dir st = Failed e h.
Proof.
  intros Hrs Hr1 Hr2 Hf1 Hf2. apply done_or_failed. intros s st' Hrun.
  destruct (generate_Ok _ _ _ _ _ _ _ Hrs Hrun) as (c & Hc & _).
  apply render_Ok in Hc
    as (_ & _ & _ & _ & _ & _ & _ & _ & _ & Hfy & Hyears & _).
  apply (grouped_foldM fy_of
    (FyEntry 0 (num_of_Z 0) (num_of_Z 0) 0 0 0) fy_upd) in Hfy;
    [|apply by_fy_step_group].
  destruct Hfy as (_ & I2 & _ & _).
  destruct (key_count_elem (fy_of r1) (c_by_fy c).*1) as (k1 & Hk1 & Hk1r);
    [rewrite (I2 r1 Hr1); lia|].
  destruct (key_count_elem (fy_of r2) (c_by_fy c).*1) as (k2 & Hk2 & Hk2r);
    [rewrite (I2 r2 Hr2); lia|].
  rewrite Hf1 in Hk1r. apply key_eqb_None in Hk1r as ->.
  assert (Hne : k2 ≠ VNone).
  { intros ->. apply Hf2. destruct (fy_of r2); done. }
  revert Hyears. unfold py_sorted.
  intros (keyed & Hk & H)%result_bind_Ok.
  apply result_bind_Ok in H as (s0 & Hs & _).
  pose proof (keyed_snd _ _ _ Hk) as Hsnd.
  assert (Hin : ∀ k, k ∈ (c_by_fy c).*1 → (k, k) ∈ keyed).
  { intros k Hin. rewrite <-Hsnd in Hin.
    apply list_elem_of_fmap in Hin as ([k' x] & -> & Hin).
    by destruct (keyed_elem _ _ _ _ Hk Hin) as [_ [= ->]]. }
  apply (sort_by_unordered _ _ _ (VNone, VNone)) in Hs;
    [|by apply Hin|intros y b; apply py_lt_None_l
      |intros y b; apply py_lt_None_r].
  pose proof (Hin k2 Hk2) as Hin2. rewrite Hs in Hin2.
  apply list_elem_of_singleton in Hin2. congruence.
Qed.

(** ** Rows and counts *)

(** X14: the number of rows below the header is, in the master list, the
    [total_transactions] the call returns, and in the four filtered
    listings the count the call returns for them. *)
Theorem row_counts results rs company dir (st : state) s st' :
  records_at (heap st) results rs →
  generate_csv_reports results company dir st = Done s st' →
  let rows_of suffix n :=
    ∃ hdr rows, files st' !! report_path dir company suffix
                = Some (hdr :: rows) ∧ length rows = n in
  rows_of "_All_Transactions.csv" (total_transactions s) ∧
  rows_of "_High_Value_Deductions.csv" (high_value s) ∧
  rows_of "_RnD_Candidates.csv" (rnd_candidates s) ∧
  rows_of "_FBT_Review_Required.csv" (fbt_issues s) ∧
  rows_of "_Division7A_Review.csv" (div7a_issues s).
Proof.
  intros Hrs Hrun.
  destruct (generate_Ok _ _ _ _ _ _ _ Hrs Hrun) as (c & Hc & -> & -> & _).
  apply render_Ok in Hc
    as (Hm & _ & Hhv & _ & Hrnd & _ & Hfbt & _ & Hd7 & _).
  apply mapR_length in Hm, Hhv, Hrnd, Hfbt, Hd7.
  rewrite enumerate_length in Hhv.
  simpl. split_and!.
  - eexists _, _. split; [apply final_master|done].
  - eexists _, _. split; [apply final_hv|done].
  - eexists _, _. split; [apply final_rnd|done].
  - eexists _, _. split; [apply final_fbt|done].
  - eexists _, _. split; [apply final_div7a|done].
Qed.

Lemma enumerate_lookup {A} n (l : list A) i p :
  enumerate n l !! i = Some p → p.1 = (n + i)%nat.
Proof.
  revert n i. induction l as [|x l IH]; intros n [|i]; simpl; try done.
  - intros [= <-]. simpl. lia.
  - intros Hp. rewrite (IH _ _ Hp). lia.
Qed.

Lemma hv_row_priority i r cells :
  hv_row i r = Ok cells → cells !! 0%nat = Some (VInt (Z.of_nat i)).
Proof.
  unfold hv_row. intros H.
  repeat (apply result_bind_Ok in H as (? & ? & H)). by injection H as <-.
Qed.

(** X15: the PRIORITY column of the high-value list numbers the rows from 1,
    without a gap. *)
Theorem priority_counts_from_one results rs company dir (st : state) s st' :
  records_at (heap st) results rs →
  generate_csv_reports results company dir st = Done s st' →
  ∃ rows,
    files st' !! report_path dir company "_High_Value_Deductions.csv"
      = Some (hv_header :: rows) ∧
    ∀ i cells, rows !! i = Some cells →
      cells !! 0%nat = Some (VInt (Z.of_nat (i + 1))).
Proof.
  intros Hrs Hrun.
  destruct (generate_Ok _ _ _ _ _ _ _ Hrs Hrun) as (c & Hc & _ & -> & _).
  apply render_Ok in Hc as (_ & _ & Hrows & _).
  exists (c_hv_rows c). split; [apply final_hv|].
  intros i cells Hi. apply mapR_Ok in Hrows.
  destruct (Forall2_lookup_r _ _ _ _ _ Hrows Hi) as (p & Hp & Hrow).
  apply hv_row_priority in Hrow. rewrite Hrow.
  apply enumerate_lookup in Hp. rewrite Hp. do 3 f_equal. lia.
Qed.

(** ** Text cells are cut *)

Lemma str_take_len n s : (str_len (str_take n s) ≤ n)%nat.
Proof.
  revert n. induction s as [|x s IH]; intros n; simpl; [lia|].
  destruct (continues x) eqn:Hx; simpl.
  - rewrite Hx. apply IH.
  - destruct n as [|n]; simpl; [lia|]. rewrite Hx. specialize (IH n). lia.
Qed.

Lemma slice_to_size n (v w : value) :
  slice_to n v = Ok w → (cell_size w ≤ n)%nat.
Proof.
  destruct v; simpl; try done; intros [= <-]; simpl.
  - apply str_take_len.
  - rewrite length_take. lia.
Qed.

Lemma master_row_cut r cells :
  master_row r = Ok cells →
  cut_at 100 5 cells ∧ cut_at 150 13 cells ∧ cut_at 200 17 cells.
Proof.
  unfold master_row. intros H.
  apply result_bind_Ok in H as (notes & _ & H).
  apply result_bind_Ok in H as (d & Hd%slice_to_size & H).
  apply result_bind_Ok in H as (g & Hg%slice_to_size & [= <-]).
  split_and!; eexists; (split; [reflexivity|]); try done.
  apply str_take_len.
Qed.

Lemma hv_row_cut i r cells : hv_row i r = Ok cells → cut_at 150 11 cells.
Proof.
  unfold hv_row. intros H.
  apply result_bind_Ok in H as (notes & _ & [= <-]).
  eexists. split; [reflexivity|]. apply str_take_len.
Qed.

Lemma rnd_row_cut r cells : rnd_row r = Ok cells → cut_at 200 11 cells.
Proof.
  unfold rnd_row. intros H.
  apply result_bind_Ok in H as (g & Hg%slice_to_size & [= <-]).
  by eexists.
Qed.

Lemma review_row_cut r cells :
  review_row r = Ok cells → cut_at 100 5 cells ∧ cut_at 200 6 cells.
Proof.
  unfold review_row. intros H.
  apply result_bind_Ok in H as (notes & _ & H).
  apply result_bind_Ok in H as (d & Hd%slice_to_size & [= <-]).
  split; eexists; (split; [reflexivity|]); try done.
  apply str_take_len.
Qed.

Lemma mapR_Forall {A B} (f : A → result B) (P : B → Prop) l k :
  (∀ x y, f x = Ok y → P y) → mapR f l = Ok k → Forall P k.
Proof.
  intros Hf Hk. apply mapR_Ok in Hk. induction Hk; constructor; eauto.
Qed.

(** X16: no row holds more of a text than the script allows: in the master
    list 100 characters of the description, 150 of the R&D reasoning and
    200 of the joined compliance notes; in the high-value list 150 of the
    notes; in the R&D list 200 of the reasoning; in the two review lists
    100 of the description and 200 of the notes. *)
Theorem text_cells_are_cut results rs company dir (st : state) s st' :
  records_at (heap st) results rs →
  generate_csv_reports results company dir st = Done s st' →
  let rows_of suffix (P : row → Prop) :=
    ∃ hdr rows, files st' !! report_path dir company suffix
                = Some (hdr :: rows) ∧ Forall P rows in
  rows_of "_All_Transactions.csv"
    (λ cells, cut_at 100 5 cells ∧ cut_at 150 13 cells ∧ cut_at 200 17 cells) ∧
  rows_of "_High_Value_Deductions.csv" (cut_at 150 11) ∧
  rows_of "_RnD_Candidates.csv" (cut_at 200 11) ∧
  rows_of "_FBT_Review_Required.csv"
    (λ cells, cut_at 100 5 cells ∧ cut_at 200 6 cells) ∧
  rows_of "_Division7A_Review.csv"
    (λ cells, cut_at 100 5 cells ∧ cut_at 200 6 cells).
Proof.
  intros Hrs Hrun.
  destruct (generate_Ok _ _ _ _ _ _ _ Hrs Hrun) as (c & Hc & _ & -> & _).
  apply render_Ok in Hc
    as (Hm & _ & Hhv & _ & Hrnd & _ & Hfbt & _ & Hd7 & _).
  simpl. split_and!.
  - eexists _, _. split; [apply final_master|].
    eapply mapR_Forall; [|done]. apply master_row_cut.
  - eexists _, _. split; [apply final_hv|].
    eapply mapR_Forall; [|done]. intros p. apply hv_row_cut.
  - eexists _, _. split; [apply final_rnd|].
    eapply mapR_Forall; [|done]. apply rnd_row_cut.
  - eexists _, _. split; [apply final_fbt|].
    eapply mapR_Forall; [|done]. apply review_row_cut.
  - eexists _, _. split; [apply final_div7a|].
    eapply mapR_Forall; [|done]. apply review_row_cut.
Qed.

(** ** Loading the document *)

Lemma dict_get_cases (d : record) k dflt :
  (k, dict_get d k dflt) ∈ d ∨ ((k ∉ d.*1) ∧ dict_get d k dflt = dflt).
Proof.
  induction d as [|[k' v] d IH]; csimpl.
  - right. split; [by intros ?%elem_of_nil|done].
  - destruct (String.eqb_spec k' k) as [->|Hne]; [left; left|].
    destruct IH as [Hin|[Hno ->]]; [left; by right|].
    right. split; [|done]. by intros [?|?]%elem_of_cons.
Qed.

(** X17: [load_json] hands over whatever the document holds under
    ['results'], also a null or a value that is no list; it uses [[]] only
    when the key is missing, and raises [AttributeError] on a document that
    is not an object. *)
Theorem load_json_cases (data : value) :
  match data with
  | VDict d =>
      ∃ v, load_json data = Ok v ∧
           (("results", v) ∈ d ∨ (("results" ∉ d.*1) ∧ v = VList []))
  | _ => load_json data = Raise AttributeError
  end.
Proof.
  destruct data as [| | | | |d]; try done.
  eexists. split; [done|]. apply dict_get_cases.
Qed.

(** ** A results list that holds something else than records *)

Lemma for_each_not_dict {A} (items : list A) (ref : A → loc)
    (rowf : A → record → result row) path x l (st : state) :
  x ∈ items → heap st !! ref x = Some (OList l) →
  ∃ e h,
    for_each items (λ y, d ← load_dict (ref y); cells ← lift (rowf y d);
                         writerow path cells) st
    = Failed e h.
Proof.
  intros Hx. revert st. induction items as [|y items IH]; intros st Hl;
    [by inversion Hx|].
  simpl. unfold mbind at 1, M_bind at 1.
  unfold mbind at 1, M_bind at 1, load_dict at 1, read at 1, heap_dict at 1.
  apply elem_of_cons in Hx as [->|Hx].
  { rewrite Hl. by eexists _, _. }
  destruct (heap st !! ref y) as [[?|d]|]; [by eexists _, _| |by eexists _, _].
  unfold mbind at 1, M_bind at 1, lift at 1, read at 1.
  destruct (rowf y d) as [cells|]; [|by eexists _, _].
  unfold writerow at 1. by apply IH.
Qed.

Lemma bind_Done {A B} (m : M A) (k : A → M B) (st : state) a st' :
  m st = Done a st' → (m ≫= k) st = k a st'.
Proof. unfold mbind, M_bind. by intros ->. Qed.

Lemma bind_Failed {A B} (m : M A) (k : A → M B) (st : state) e h :
  m st = Failed e h → (m ≫= k) st = Failed e h.
Proof. unfold mbind, M_bind. by intros ->. Qed.

(** X18: a results list that holds a list where a record is expected makes
    the call raise: the item has no [get]. *)
Theorem non_record_item_raises results items company dir (st : state) i l :
  heap st !! results = Some (OList items) → i ∈ items →
  heap st !! i = Some (OList l) →
  ∃ e h, generate_csv_reports results company dir st = Failed e h.
Proof.
  intros Hres Hi Hl. unfold generate_csv_reports. cbv zeta.
  erewrite bind_Done by reflexivity.
  erewrite bind_Done by reflexivity.
  set (st2 := State _ _ _ _).
  destruct (for_each_not_dict items (λ y, y) (λ _, master_row)
    (report_path dir company "_All_Transactions.csv") i l st2 Hi Hl)
    as (e & h & Hloop).
  exists e, h. apply bind_Failed. unfold for_in.
  erewrite bind_Done; [exact Hloop|].
  unfold iter, read, heap_iter. simpl. by rewrite Hres.
Qed.

(** ** The fields the script does not read *)

Ltac same_fields H :=
  unfold same_fields, read_fields in H;
  repeat (apply Forall_cons in H as [? H]); clear H;
  repeat match goal with
         | H : ∀ d, dict_get _ _ d = dict_get _ _ d |- _ =>
             rewrite ?H; clear H
         end.

Lemma same_master_row (r1 r2 : record) :
  same_fields r1 r2 → master_row r1 = master_row r2.
Proof. intros H. unfold master_row. by same_fields H. Qed.

Lemma same_hv_row (r1 r2 : record) :
  same_fields r1 r2 → ∀ i, hv_row i r1 = hv_row i r2.
Proof. intros H. unfold hv_row. by same_fields H. Qed.

Lemma same_rnd_row (r1 r2 : record) :
  same_fields r1 r2 → rnd_row r1 = rnd_row r2.
Proof. intros H. unfold rnd_row. by same_fields H. Qed.

Lemma same_review_row (r1 r2 : record) :
  same_fields r1 r2 → review_row r1 = review_row r2.
Proof. intros H. unfold review_row. by same_fields H. Qed.

Lemma same_is_high_value (r1 r2 : record) :
  same_fields r1 r2 → is_high_value r1 = is_high_value r2.
Proof. intros H. unfold is_high_value. by same_fields H. Qed.

Lemma same_hv_key (r1 r2 : record) :
  same_fields r1 r2 → hv_key r1 = hv_key r2.
Proof. intros H. unfold hv_key. by same_fields H. Qed.

Lemma same_is_rnd (r1 r2 : record) :
  same_fields r1 r2 → is_rnd r1 = is_rnd r2.
Proof. intros H. unfold is_rnd. by same_fields H. Qed.

Lemma same_rnd_key (r1 r2 : record) :
  same_fields r1 r2 → rnd_key r1 = rnd_key r2.
Proof. intros H. unfold rnd_key. by same_fields H. Qed.

Lemma same_is_fbt (r1 r2 : record) :
  same_fields r1 r2 → is_fbt r1 = is_fbt r2.
Proof. intros H. unfold is_fbt. by same_fields H. Qed.

Lemma same_is_div7a (r1 r2 : record) :
  same_fields r1 r2 → is_div7a r1 = is_div7a r2.
Proof. intros H. unfold is_div7a. by same_fields H. Qed.

Lemma same_by_fy_step (r1 r2 : record) :
  same_fields r1 r2 → ∀ acc, by_fy_step acc r1 = by_fy_step acc r2.
Proof. intros H. unfold by_fy_step. by same_fields H. Qed.

Lemma same_by_cat_step (r1 r2 : record) :
  same_fields r1 r2 → ∀ acc, by_cat_step acc r1 = by_cat_step acc r2.
Proof. intros H. unfold by_cat_step. by same_fields H. Qed.

Lemma render_same_fields {E} (rec1 rec2 : E → record) (es : list E) :
  (∀ e, e ∈ es → same_fields (rec1 e) (rec2 e)) →
  render rec1 es = render rec2 es.
Proof.
  intros Hsame. unfold render.
  assert (Hsub : ∀ k : list E, k ⊆ es →
    ∀ e, e ∈ k → same_fields (rec1 e) (rec2 e)) by (intros k Hk e He; eauto).
  rewrite (mapR_ext_in (λ e, master_row (rec1 e))
             (λ e, master_row (rec2 e)) es)
    by (intros e He; by apply same_master_row, Hsame).
  destruct (mapR (λ e, master_row (rec2 e)) es) as [m|]; csimpl; [|done].
  rewrite (filterM_ext_in (λ e, is_high_value (rec1 e))
             (λ e, is_high_value (rec2 e)) es)
    by (intros e He; by apply same_is_high_value, Hsame).
  destruct (filterM (λ e, is_high_value (rec2 e)) es) as [hv0|] eqn:Hhv0;
    csimpl; [|done].
  apply filterM_sublist, sublist_subseteq in Hhv0.
  rewrite (py_sorted_ext_in (λ e, Ok (hv_key (rec1 e)))
             (λ e, Ok (hv_key (rec2 e))) true hv0).
  2:{ intros e He. f_equal. by apply same_hv_key, (Hsub hv0). }
  destruct (py_sorted (λ e, Ok (hv_key (rec2 e))) true hv0) as [hv|] eqn:Hhv;
    csimpl; [|done].
  apply py_sorted_perm in Hhv.
  rewrite (mapR_ext_in (λ p, hv_row p.1 (rec1 p.2))
             (λ p, hv_row p.1 (rec2 p.2)) (enumerate 1 hv)).
  2:{ intros p Hp%enumerate_elem. rewrite Hhv in Hp.
      by apply same_hv_row, (Hsub hv0). }
  destruct (mapR (λ p, hv_row p.1 (rec2 p.2)) (enumerate 1 hv))
    as [hv_rows|]; csimpl; [|done].
  rewrite (filterM_ext_in (λ e, is_rnd (rec1 e)) (λ e, is_rnd (rec2 e)) es)
    by (intros e He; by apply same_is_rnd, Hsame).
  destruct (filterM (λ e, is_rnd (rec2 e)) es) as [rnd0|] eqn:Hrnd0;
    csimpl; [|done].
  apply filterM_sublist, sublist_subseteq in Hrnd0.
  rewrite (py_sorted_ext_in (λ e, Ok (rnd_key (rec1 e)))
             (λ e, Ok (rnd_key (rec2 e))) true rnd0).
  2:{ intros e He. f_equal. by apply same_rnd_key, (Hsub rnd0). }
  destruct (py_sorted (λ e, Ok (rnd_key (rec2 e))) true rnd0)
    as [rnd|] eqn:Hrnd; csimpl; [|done].
  apply py_sorted_perm in Hrnd.
  rewrite (mapR_ext_in (λ e, rnd_row (rec1 e)) (λ e, rnd_row (rec2 e)) rnd).
  2:{ intros e He. rewrite Hrnd in He. by apply same_rnd_row, (Hsub rnd0). }
  destruct (mapR (λ e, rnd_row (rec2 e)) rnd) as [rnd_rows|]; csimpl; [|done].
  rewrite (filterM_ext_in (λ e, is_fbt (rec1 e)) (λ e, is_fbt (rec2 e)) es)
    by (intros e He; by apply same_is_fbt, Hsame).
  destruct (filterM (λ e, is_fbt (rec2 e)) es) as [fbt|] eqn:Hfbt;
    csimpl; [|done].
  apply filterM_sublist, sublist_subseteq in Hfbt.
  rewrite (mapR_ext_in (λ e, review_row (rec1 e))
             (λ e, review_row (rec2 e)) fbt)
    by (intros e He; by apply same_review_row, (Hsub fbt)).
  destruct (mapR (λ e, review_row (rec2 e)) fbt) as [fbt_rows|];
    csimpl; [|done].
  rewrite (filterM_ext_in (λ e, is_div7a (rec1 e))
             (λ e, is_div7a (rec2 e)) es)
    by (intros e He; by apply same_is_div7a, Hsame).
  destruct (filterM (λ e, is_div7a (rec2 e)) es) as [div7a|] eqn:Hdiv7a;
    csimpl; [|done].
  apply filterM_sublist, sublist_subseteq in Hdiv7a.
  rewrite (mapR_ext_in (λ e, review_row (rec1 e))
             (λ e, review_row (rec2 e)) div7a)
    by (intros e He; by apply same_review_row, (Hsub div7a)).
  destruct (mapR (λ e, review_row (rec2 e)) div7a) as [div7a_rows|];
    csimpl; [|done].
  rewrite (foldM_ext_in (λ a e, by_fy_step a (rec1 e))
             (λ a e, by_fy_step a (rec2 e)) es)
    by (intros a e He; by apply same_by_fy_step, Hsame).
  destruct (foldM (λ a e, by_fy_step a (rec2 e)) [] es) as [by_fy|];
    csimpl; [|done].
  destruct (py_sorted Ok false by_fy.*1) as [years|]; csimpl; [|done].
  destruct (mapR (fy_row by_fy) years) as [fy_rows|]; csimpl; [|done].
  rewrite (foldM_ext_in (λ a e, by_cat_step a (rec1 e))
             (λ a e, by_cat_step a (rec2 e)) es)
    by (intros a e He; by apply same_by_cat_step, Hsame).
  done.
Qed.

(** X19: the script reads a record only through 25 fields: two calls on
    lists whose records agree on those fields, one by one, end alike; both
    raise the same exception, or both return the same counts and leave the
    same contents in the seven files. *)
Theorem unread_fields_do_not_matter results1 results2 rs1 rs2 company dir
    (st1 st2 : state) :
  records_at (heap st1) results1 rs1 →
  records_at (heap st2) results2 rs2 →
  Forall2 same_fields rs1 rs2 →
  match generate_csv_reports results1 company dir st1,
        generate_csv_reports results2 company dir st2 with
  | Done s1 st1', Done s2 st2' =>
      s1 = s2 ∧
      ∀ p, p ∈ report_paths dir company → files st1' !! p = files st2' !! p
  | Failed e1 _, Failed e2 _ => e1 = e2
  | _, _ => False
  end.
Proof.
  intros H1 H2 Hsame.
  pose proof (generate_csv_reports_spec results1 rs1 company dir st1 H1) as R1.
  pose proof (generate_csv_reports_spec results2 rs2 company dir st2 H2) as R2.
  pose proof (Forall2_length _ _ _ Hsame) as Hlen.
  assert (Hes : ∀ e, e ∈ zip rs1 rs2 → same_fields (id e.1) (id e.2)).
  { intros [r1 r2] He. simpl.
    apply list_elem_of_lookup in He as [i Hi].
    apply lookup_zip_with_Some in Hi as (x & y & [= <- <-] & Hx & Hy).
    by eapply Forall2_lookup_lr. }
  rewrite <-(fst_zip rs1 rs2), (render_fmap id fst) in R1 by lia.
  rewrite <-(snd_zip rs1 rs2), (render_fmap id snd) in R2 by lia.
  rewrite (render_same_fields _ (λ e, id e.2) _ Hes) in R1.
  destruct (render (λ e, id e.2) (zip rs1 rs2)) as [c|e]; simpl in R1, R2;
    [|by destruct R1 as [h1 ->], R2 as [h2 ->]].
  destruct R1 as (h1 & _ & ->). destruct R2 as (h2 & _ & ->).
  split.
  { unfold final_stats, contents_map. simpl.
    by rewrite !length_fmap, !length_zip_with, Hlen, Nat.min_id. }
  simpl. intros p Hp. unfold report_paths in Hp.
  apply list_elem_of_fmap in Hp as (suffix & -> & Hs).
  repeat (apply elem_of_cons in Hs as [->|Hs]);
    [..|by apply elem_of_nil in Hs].
  - by rewrite !final_master.
  - by rewrite !final_hv.
  - by rewrite !final_rnd.
  - by rewrite !final_fbt.
  - by rewrite !final_div7a.
  - by rewrite !final_fy.
  - by rewrite !final_cat.
Qed.

(** A field that the script does not read can be added to a record. *)
Lemma same_fields_extra k v (r : record) :
  k ∉ read_fields → same_fields r ((k, v) :: r).
Proof.
  intros Hk. unfold same_fields. apply Forall_forall. intros k' Hk' d.
  simpl. destruct (String.eqb_spec k k') as [->|]; [done|done].
Qed.

(** ** The amounts shown in the high-value list *)

Lemma enumerate_snd {A} n (l : list A) : (enumerate n l).*2 = l.
Proof.
  revert n. induction l as [|x l IH]; intros n; csimpl; [done|].
  by rewrite IH.
Qed.

Lemma hv_row_claimable i r cells :
  hv_row i r = Ok cells →
  cells !! 5%nat = Some (dict_get r "claimable_amount" (VStr "")).
Proof.
  unfold hv_row. intros H.
  repeat (apply result_bind_Ok in H as (? & ? & H)). by injection H as <-.
Qed.

Lemma exceeds_500_cell (r : record) :
  exceeds_500 r = true →
  as_num (dict_get r "claimable_amount" (VStr "")) = Some (claimable r).
Proof.
  intros Hr. pose proof (exceeds_500_key r Hr) as Hkey. unfold hv_key in Hkey.
  destruct (dict_get_default r "claimable_amount" (VStr "") (VInt 0))
    as [->|[_ H0]]; [done|].
  rewrite H0 in Hkey. injection Hkey as Hkey.
  unfold exceeds_500 in Hr. rewrite <-Hkey, num_ltb_of_Z in Hr. done.
Qed.

Lemma Forall2_shown {A B C} (Q : A → B → Prop) (R : B → C → Prop)
    (f : A → C) (l : list A) (k : list B) :
  Forall2 Q l k → (∀ x y, x ∈ l → Q x y → R y (f x)) →
  Forall2 R k (f <$> l).
Proof.
  induction 1 as [|x y l k Hxy Hlk IH]; intros HR; csimpl; constructor.
  - apply HR; [left|done].
  - apply IH. intros x' y' Hx'. apply HR. by right.
Qed.

(** X20: every row of the high-value file shows, in its Claimable cell, a
    number above 500, and going down the rows these numbers never
    increase. *)
Theorem high_value_rows_show_amounts results rs company dir (st : state)
    s st' :
  records_at (heap st) results rs →
  generate_csv_reports results company dir st = Done s st' →
  ∃ rows amounts,
    files st' !! report_path dir company "_High_Value_Deductions.csv"
      = Some (hv_header :: rows) ∧
    Forall2 (λ cells n, ∃ v, cells !! 5%nat = Some v ∧ as_num v = Some n)
      rows amounts ∧
    Forall (λ n, num_ltb (num_of_Z 500) n = true) amounts ∧
    StronglySorted (λ a b, num_ltb a b = false) amounts.
Proof.
  intros Hrs Hrun.
  destruct (generate_Ok _ _ _ _ _ _ _ Hrs Hrun) as (c & Hc & _ & -> & _).
  apply render_Ok in Hc as (_ & (hv0 & Hhv0 & Hhv) & Hrows & _).
  apply (filterM_filter _ exceeds_500) in Hhv0;
    [|apply is_high_value_Ok]. subst hv0.
  pose proof (py_sorted_perm _ _ _ _ Hhv) as Hperm.
  assert (Hall : ∀ r, r ∈ c_high_value c → exceeds_500 r = true).
  { intros r Hr. rewrite Hperm in Hr.
    by apply list_elem_of_filter in Hr as [? _]. }
  assert (Hshown : Forall2 (λ r cells, ∃ i, hv_row i r = Ok cells)
                     (c_high_value c) (c_hv_rows c)).
  { apply mapR_Ok in Hrows.
    rewrite <-(enumerate_snd 1 (c_high_value c)). apply Forall2_fmap_l.
    eapply Forall2_impl; [done|]. intros p cells Hrow. by exists p.1. }
  exists (c_hv_rows c), (claimable <$> c_high_value c). split_and!.
  - apply final_hv.
  - eapply Forall2_shown; [done|]. intros r cells Hr [i Hrow]. simpl.
    eexists. split; [by eapply hv_row_claimable|].
    by apply exceeds_500_cell, Hall.
  - apply Forall_fmap, Forall_forall. intros r Hr. by apply Hall.
  - eapply StronglySorted_fmap; [|eapply py_sorted_descending; [|done]].
    + by intros a b.
    + intros r [Hr _]%list_elem_of_filter. eexists. split; [done|].
      by apply exceeds_500_key.
Qed.

End further.

End Proofs.

(** * Python's [int] *)

#[global] Instance Z_PyNumberLaws : PyNumberLaws Z.
Proof.
  split; simpl; intros.
  - apply Z.eqb_refl.
  - apply Z.eqb_sym.
  - rewrite Z.eqb_eq in *. lia.
  - rewrite Z.ltb_lt in *. rewrite Z.ltb_ge. lia.
  - rewrite Z.ltb_ge in *. lia.
  - done.
Qed.

#[global] Instance Z_PyAbsLaws : PyAbsLaws Z.
Proof.
  split; simpl; intros.
  - done.
  - rewrite Z.ltb_ge in *. apply Z.eqb_eq. lia.
  - rewrite Z.ltb_lt in *. lia.
Qed.

Example Z_money_millions : Z_money 1234567 = "1,234,567.00".
Proof. reflexivity. Qed.

Example Z_money_negative : Z_money (-130) = "-130.00".
Proof. reflexivity. Qed.

Example Z_money_zero : Z_money 0 = "0.00".
Proof. reflexivity. Qed.

Example Z_money_thousand : Z_money 1000 = "1,000.00".
Proof. reflexivity. Qed.

(** Above [2^53] the digits are those of the nearest [float]. *)
Example Z_money_rounds :
  Z_money (2 ^ 53 + 1) = "9,007,199,254,740,992.00" ∧
  Z_money (2 ^ 53 + 3) = "9,007,199,254,740,996.00" ∧
  Z_money (- (2 ^ 53 + 1)) = "-9,007,199,254,740,992.00" ∧
  Z_money (10 ^ 17 + 1) = "100,000,000,000,000,000.00" ∧
  Z_money 123456789012345678901234567890
  = "123,456,789,012,345,677,877,719,597,056.00".
Proof. by vm_compute. Qed.

(** Texts are cut by characters, not by bytes. *)
Example str_take_characters :
  str_take 2 "é€x" = "é€" ∧ str_len "é€x" = 3%nat ∧
  String.length "é€x" = 6%nat ∧ code_points "é€x" = ["é"; "€"; "x"] ∧
  str_len (Sample.accents 100) = 100%nat ∧
  String.length (Sample.accents 100) = 200%nat ∧
  str_take 100 (Sample.accents 101) = Sample.accents 100.
Proof. by vm_compute. Qed.

(** * The claims on the sample run *)

Section on_sample.

#[local] Abbreviation value := (@value Z).
#[local] Abbreviation record := (list (string * value)).
#[local] Abbreviation row := (list value).
#[local] Abbreviation state := (@state Z).
#[local] Abbreviation outcome := (@outcome Z).

Ltac sample_records items :=
  exists items; split; [vm_compute; reflexivity | repeat constructor].
Ltac sample_run := vm_compute; reflexivity.
Example sample_stats : Sample.stats1 = Stats 4 2 2 1 1.
Proof. vm_compute. reflexivity. Qed.

Lemma high_value_deductions_csv_witness :
  files Sample.final1 !! report_path "out" "DRQ" "_High_Value_Deductions.csv"
  = Some [ hv_header;
           [VNum 1; VStr "FY2023-24"; VStr ""; VStr ""; VNum 2000;
            VNum 1600; VStr ""; VStr ""; VStr ""; VStr ""; VStr "No";
            VStr "keep invoice; check GST"];
           [VNum 2; VStr "FY2024-25"; VStr ""; VStr ""; VNum (-700);
            VNum 600; VStr ""; VStr "Software"; VStr ""; VStr "";
            VStr "No"; VStr ""] ] ∧
  ∃ hv rows,
    files Sample.final1 !! report_path "out" "DRQ" "_High_Value_Deductions.csv"
      = Some (hv_header :: rows) ∧
    hv ≡ₚ filter (λ r, exceeds_500 r = true) Sample.records ∧
    (∀ r : record, dict_get r "claimable_amount" VNone = VNone →
       exceeds_500 r = false) ∧
    Forall (λ r : record, ∃ x,
      as_num (dict_get r "claimable_amount" VNone) = Some x ∧
      claimable r = x ∧ num_ltb (num_of_Z 500) x = true) hv ∧
    StronglySorted (descending claimable) hv ∧
    ranked_listing hv_cells hv rows.
Proof.
  split; [vm_compute; reflexivity|].
  apply (high_value_deductions_csv 0%nat Sample.records "DRQ" "out"
           Sample.state1 Sample.stats1 Sample.final1);
    [sample_records [1; 2; 3; 4]%nat | sample_run].
Defined.


Lemma fy_summary_csv_witness :
  fy_summary_file (total abs_amount) Sample.records
    (files Sample.final1 !! report_path "out" "DRQ" "_Summary_By_FY.csv") ∧
  (∀ r : record, "financial_year" ∉ r.*1 → fy_of r = VStr "Unknown").
Proof.
  apply (fy_summary_csv 0%nat Sample.records "DRQ" "out"
           Sample.state1 Sample.stats1 Sample.final1);
    [sample_records [1; 2; 3; 4]%nat | sample_run].
Defined.

(** C4 as the spec states it, with the total of the transaction amounts of a
    year, fails on the sample: the year FY2024-25 has a refund of 700 and a
    purchase of 100; the file says $800.00, the total is -600. *)
Lemma fy_summary_signed_total_counterexample :
  files Sample.final1 !! report_path "out" "DRQ" "_Summary_By_FY.csv"
  = Some [ fy_header;
           [VStr "FY2023-24"; VNum 1; VStr "$2,000.00"; VStr "$1,600.00";
            VNum 1; VNum 0; VNum 0];
           [VStr "FY2024-25"; VNum 2; VStr "$800.00"; VStr "$700.00";
            VNum 1; VNum 0; VNum 1];
           [VStr "Unknown"; VNum 1; VStr "$0.00"; VStr "$0.00";
            VNum 0; VNum 1; VNum 0] ] ∧
  signed_amount_total (group fy_of (VStr "FY2024-25") Sample.records)
  = (-600)%Z ∧
  ¬ fy_summary_file signed_amount_total Sample.records
      (files Sample.final1
         !! report_path "out" "DRQ" "_Summary_By_FY.csv").
Proof.
  split_and!; [vm_compute; reflexivity..|].
  intros (years & rows & Hfile & _ & _ & Hrows).
  vm_compute in Hfile. injection Hfile as <-.
  apply Forall2_cons_inv_r in Hrows as (k1 & years1 & _ & Hrows & ->).
  apply Forall2_cons_inv_r in Hrows as (k2 & years2 & Hk2 & _ & ->).
  unfold fy_cells in Hk2. injection Hk2 as <- _ Htotal _.
  vm_compute in Htotal. discriminate Htotal.
Qed.


(** The rows that the listings hold for [Sample.wordy]. *)
Definition wordy_master : row :=
  [ VStr "FY2022-23"; VStr "2023-03-01"; VStr "T-17"; VStr "Café Zoë";
    VNum 1250; VStr (Sample.accents 100); VStr "Meals"; VNum 90;
    VStr "Section 8-1"; VNum 900; VStr "No"; VStr "Yes"; VNum 40;
    VStr (Sample.accents 150); VStr "YES - REVIEW"; VStr "YES - REVIEW";
    VStr "Yes"; VStr (Sample.accents 99 +:+ "; " +:+ Sample.accents 99) ].

Definition wordy_hv : row :=
  [ VNum 1; VStr "FY2022-23"; VStr "2023-03-01"; VStr "Café Zoë";
    VNum 1250; VNum 900; VStr "Section 8-1"; VStr "Meals"; VNum 85;
    VStr "T-17"; VStr "Yes";
    VStr (Sample.accents 99 +:+ "; " +:+ Sample.accents 49) ].

Definition wordy_rnd : row :=
  [ VStr "FY2022-23"; VStr "2023-03-01"; VStr "Café Zoë"; VNum 1250;
    VStr "core"; VNum 40; VStr "Yes"; VStr "No"; VStr "Yes"; VStr "No";
    VStr "Yes"; VStr (Sample.accents 200); VStr "T-17" ].

Definition wordy_review : row :=
  [ VStr "FY2022-23"; VStr "2023-03-01"; VStr "Café Zoë"; VNum 1250;
    VStr "Meals"; VStr (Sample.accents 100);
    VStr (Sample.accents 99 +:+ "; " +:+ Sample.accents 99); VStr "T-17" ].

Lemma seven_csv_files_witness :
  (let file suffix :=
     files Sample.final7 !! report_path "out" "DRQ" suffix in
   opened Sample.final7
   = [ "earlier.csv"; "out/DRQ_All_Transactions.csv";
       "out/DRQ_High_Value_Deductions.csv"; "out/DRQ_RnD_Candidates.csv";
       "out/DRQ_FBT_Review_Required.csv"; "out/DRQ_Division7A_Review.csv";
       "out/DRQ_Summary_By_FY.csv"; "out/DRQ_By_Category.csv" ] ∧
   file "_All_Transactions.csv"
   = Some [ master_header; wordy_master;
            [VStr "FY2024-25"; VStr ""; VStr ""; VStr ""; VNum (-700);
             VStr ""; VStr "Software"; VStr ""; VStr ""; VNum 600;
             VStr "No"; VStr "Yes"; VStr ""; VStr ""; VStr "No"; VStr "No";
             VStr "No"; VStr ""] ] ∧
   file "_High_Value_Deductions.csv"
   = Some [ hv_header; wordy_hv;
            [VNum 2; VStr "FY2024-25"; VStr ""; VStr ""; VNum (-700);
             VNum 600; VStr ""; VStr "Software"; VStr ""; VStr "";
             VStr "No"; VStr ""] ] ∧
   file "_RnD_Candidates.csv"
   = Some [ rnd_header; wordy_rnd;
            [VStr "FY2024-25"; VStr ""; VStr ""; VNum (-700); VStr "";
             VStr ""; VStr "No"; VStr "No"; VStr "No"; VStr "No";
             VStr "No"; VStr ""; VStr ""] ] ∧
   file "_FBT_Review_Required.csv" = Some [review_header; wordy_review] ∧
   file "_Division7A_Review.csv" = Some [review_header; wordy_review] ∧
   file "_Summary_By_FY.csv"
   = Some [ fy_header;
            [VStr "FY2022-23"; VNum 1; VStr "$1,250.00"; VStr "$900.00";
             VNum 1; VNum 1; VNum 1];
            [VStr "FY2024-25"; VNum 1; VStr "$700.00"; VStr "$600.00";
             VNum 1; VNum 0; VNum 0] ] ∧
   file "_By_Category.csv"
   = Some [ cat_header;
            [VStr "Meals"; VNum 1; VStr "$1,250.00"; VStr "$900.00"];
            [VStr "Software"; VNum 1; VStr "$700.00"; VStr "$600.00"] ]) ∧
  let file suffix := files Sample.final7 !! report_path "out" "DRQ" suffix in
  opened Sample.final7 = opened Sample.state7 ++ report_paths "out" "DRQ" ∧
  NoDup (report_paths "out" "DRQ") ∧
  length (report_paths "out" "DRQ") = 7%nat ∧
  ∃ master hv hv_rows rnd rnd_rows fbt div7a years fy cats cat,
    file "_All_Transactions.csv" = Some (master_header :: master) ∧
    listing master_cells [Sample.wordy; Sample.r1] master ∧
    file "_High_Value_Deductions.csv" = Some (hv_header :: hv_rows) ∧
    hv ≡ₚ filter (λ r, exceeds_500 r = true) [Sample.wordy; Sample.r1] ∧
    ranked_listing hv_cells hv hv_rows ∧
    file "_RnD_Candidates.csv" = Some (rnd_header :: rnd_rows) ∧
    rnd ≡ₚ filter (λ r, flagged "is_rnd_candidate" r = true)
             [Sample.wordy; Sample.r1] ∧
    listing rnd_cells rnd rnd_rows ∧
    file "_FBT_Review_Required.csv" = Some (review_header :: fbt) ∧
    listing review_cells
      (filter (λ r, flagged "fbt_implications" r = true)
         [Sample.wordy; Sample.r1]) fbt ∧
    file "_Division7A_Review.csv" = Some (review_header :: div7a) ∧
    listing review_cells
      (filter (λ r, flagged "division7a_risk" r = true)
         [Sample.wordy; Sample.r1]) div7a ∧
    file "_Summary_By_FY.csv" = Some (fy_header :: fy) ∧
    one_row_per_key fy_of (fy_cells (total abs_amount))
      [Sample.wordy; Sample.r1] years fy ∧
    file "_By_Category.csv" = Some (cat_header :: cat) ∧
    one_row_per_key cat_of cat_cells [Sample.wordy; Sample.r1] cats cat.
Proof.
  split; [by vm_compute|].
  apply (seven_csv_files 0%nat [Sample.wordy; Sample.r1] "DRQ" "out"
           Sample.state7 Sample.stats7 Sample.final7);
    [sample_records [1; 2]%nat | sample_run].
Defined.

(** The run on [state3] raises when it takes [abs] of the string. *)
Example sample_raises :
  returned (Sample.run 0%nat Sample.state3) = Raise TypeError.
Proof. vm_compute. reflexivity. Qed.

Lemma input_not_modified_witness :
  records_at
    (store_after (generate_csv_reports 0%nat "DRQ" "out" Sample.state1))
    0%nat Sample.records ∧
  records_at
    (store_after (generate_csv_reports 0%nat "DRQ" "out" Sample.state3))
    0%nat [Sample.bad].
Proof.
  split.
  - destruct (input_not_modified 0%nat "DRQ" "out" Sample.state1) as [_ H].
    apply H. sample_records [1; 2; 3; 4]%nat.
  - destruct (input_not_modified 0%nat "DRQ" "out" Sample.state3) as [_ H].
    apply H. sample_records [1%nat].
Defined.

Lemma deterministic_witness :
  match generate_csv_reports 0%nat "DRQ" "out" Sample.state1,
        generate_csv_reports 9%nat "DRQ" "out" Sample.state2 with
  | Done s1 st1', Done s2 st2' =>
      s1 = s2 ∧
      ∀ p, p ∈ report_paths "out" "DRQ" → files st1' !! p = files st2' !! p
  | Failed e1 _, Failed e2 _ => e1 = e2
  | _, _ => False
  end.
Proof.
  apply (deterministic 0%nat 9%nat Sample.records "DRQ" "out"
           Sample.state1 Sample.state2);
    [sample_records [1; 2; 3; 4]%nat | sample_records [5; 6; 7; 8]%nat].
Defined.

Lemma summary_totals_witness :
  (files Sample.final1 !! report_path "out" "DRQ" "_Summary_By_FY.csv"
   = Some [ fy_header;
            [VStr "FY2023-24"; VNum 1; VStr "$2,000.00"; VStr "$1,600.00";
             VNum 1; VNum 0; VNum 0];
            [VStr "FY2024-25"; VNum 2; VStr "$800.00"; VStr "$700.00";
             VNum 1; VNum 0; VNum 1];
            [VStr "Unknown"; VNum 1; VStr "$0.00"; VStr "$0.00";
             VNum 0; VNum 1; VNum 0] ] ∧
   files Sample.final1 !! report_path "out" "DRQ" "_By_Category.csv"
   = Some [ cat_header;
            [VStr "Unknown"; VNum 2; VStr "$2,000.00"; VStr "$1,600.00"];
            [VStr "Software"; VNum 2; VStr "$800.00"; VStr "$700.00"] ] ∧
   amount Sample.r1 = (-700)%Z ∧
   total abs_amount [Sample.r4] = 100%Z ∧
   total abs_amount ([Sample.r4] ++ [Sample.r1]) = 800%Z ∧
   total amount ([Sample.r4] ++ [Sample.r1]) = (-600)%Z ∧
   dollars 1234567%Z = VStr "$1,234,567.00") ∧
  let totals key_of (keys : list value) (rows : list row) :=
    (∀ r, r ∈ Sample.records → key_count (key_of r) keys = 1%nat) ∧
    Forall2 (λ k cells,
      cells !! 0%nat = Some k ∧
      cells !! 2%nat
        = Some (dollars (total abs_amount (group key_of k Sample.records))) ∧
      cells !! 3%nat
        = Some (dollars (total claimable (group key_of k Sample.records))))
      keys rows in
  ((fy_header : row) !! 2%nat = Some (VStr "Total Amount") ∧
   (fy_header : row) !! 3%nat = Some (VStr "Claimable Amount") ∧
   (cat_header : row) !! 2%nat = Some (VStr "Total Amount") ∧
   (cat_header : row) !! 3%nat = Some (VStr "Claimable Amount")) ∧
  (∃ years rows,
     files Sample.final1 !! report_path "out" "DRQ" "_Summary_By_FY.csv"
       = Some (fy_header :: rows) ∧
     totals fy_of years rows) ∧
  (∃ cats rows,
     files Sample.final1 !! report_path "out" "DRQ" "_By_Category.csv"
       = Some (cat_header :: rows) ∧
     totals cat_of cats rows) ∧
  (∀ (g : list record) r z, amount r = num_of_Z z → (z < 0)%Z →
     total abs_amount (g ++ [r])
     = num_add (total abs_amount g) (num_of_Z (- z))) ∧
  (∀ (g : list record) r, num_ltb (amount r) (num_of_Z 0) = true →
     ∃ m, num_ltb (num_of_Z 0) m = true ∧
          total abs_amount (g ++ [r]) = num_add (total abs_amount g) m) ∧
  (∀ r : record, num_ltb (amount r) (num_of_Z 0) = false →
     num_eqb (abs_amount r) (amount r) = true) ∧
  (∀ (r : record) x, dict_get r "transaction_amount" VNone = VNum x →
     num_eqb x (num_of_Z 0) = false → amount r = x) ∧
  (∀ (r : record) x, dict_get r "claimable_amount" VNone = VNum x →
     num_eqb x (num_of_Z 0) = false → claimable r = x).
Proof.
  split; [by vm_compute|].
  apply (summary_totals 0%nat Sample.records "DRQ" "out"
           Sample.state1 Sample.stats1 Sample.final1);
    [sample_records [1; 2; 3; 4]%nat | sample_run].
Defined.

Lemma no_results_key_witness :
  load_json (VDict Sample.no_results) = Ok (VList []) ∧
  ∃ st',
    generate_csv_reports 0%nat "DRQ" "out" Sample.empty_state
      = Done (Stats 0 0 0 0 0) st' ∧
    files st' !! report_path "out" "DRQ" "_All_Transactions.csv"
      = Some [master_header] ∧
    files st' !! report_path "out" "DRQ" "_By_Category.csv"
      = Some [cat_header].
Proof.
  assert (Hno : "results" ∉ Sample.no_results.*1).
  { intros [[=]|[]%elem_of_nil]%elem_of_cons. }
  destruct (no_results_key Sample.no_results Hno) as [Hload Hrun].
  split; [exact Hload|].
  destruct (Hrun 0%nat "DRQ" "out" Sample.empty_state)
    as (st' & Hst' & Hmaster & _ & _ & _ & _ & _ & Hcat);
    [vm_compute; reflexivity|].
  exists st'. by split_and!.
Defined.

(** ** The further properties on the sample run *)

Lemma returned_statistics_witness :
  Sample.stats1
  = Stats (length Sample.records)
          (length (filter (λ r, exceeds_500 r = true) Sample.records))
          (count_flagged "is_rnd_candidate" Sample.records)
          (count_flagged "fbt_implications" Sample.records)
          (count_flagged "division7a_risk" Sample.records).
Proof.
  apply (returned_statistics 0%nat Sample.records "DRQ" "out"
           Sample.state1 Sample.stats1 Sample.final1);
    [sample_records [1; 2; 3; 4]%nat | sample_run].
Defined.

Lemma printed_lines_witness :
  stdout Sample.final1
  = stdout Sample.state1 ++ created_lines "out" "DRQ" Sample.stats1.
Proof.
  apply (printed_lines 0%nat Sample.records "DRQ" "out"
           Sample.state1 Sample.stats1 Sample.final1);
    [sample_records [1; 2; 3; 4]%nat | sample_run].
Defined.

Lemma rows_as_wide_as_header_witness :
  let file suffix := files Sample.final1 !! report_path "out" "DRQ" suffix in
  rectangular 18 (file "_All_Transactions.csv") ∧
  rectangular 12 (file "_High_Value_Deductions.csv") ∧
  rectangular 13 (file "_RnD_Candidates.csv") ∧
  rectangular 8 (file "_FBT_Review_Required.csv") ∧
  rectangular 8 (file "_Division7A_Review.csv") ∧
  rectangular 7 (file "_Summary_By_FY.csv") ∧
  rectangular 4 (file "_By_Category.csv").
Proof.
  apply (rows_as_wide_as_header 0%nat Sample.records "DRQ" "out"
           Sample.state1 Sample.stats1 Sample.final1);
    [sample_records [1; 2; 3; 4]%nat | sample_run].
Defined.

Lemma high_value_ties_in_input_order_witness :
  ∃ hv rows,
    files Sample.final1
      !! report_path "out" "DRQ" "_High_Value_Deductions.csv"
      = Some (hv_header :: rows) ∧
    Forall2 (λ p cells, hv_row p.1 p.2 = Ok cells) (enumerate 1 hv) rows ∧
    ∀ r : record,
      filter (λ x, tied claimable r x = true) hv
      = filter (λ x, tied claimable r x = true)
          (filter (λ x, exceeds_500 x = true) Sample.records).
Proof.
  apply (high_value_ties_in_input_order 0%nat Sample.records "DRQ" "out"
           Sample.state1 Sample.stats1 Sample.final1);
    [sample_records [1; 2; 3; 4]%nat | sample_run].
Defined.



Lemma year_rows_ascending_witness :
  ∃ years rows,
    files Sample.final1 !! report_path "out" "DRQ" "_Summary_By_FY.csv"
      = Some (fy_header :: rows) ∧
    Forall2 (λ y cells, cells !! 0%nat = Some (VStr y)) years rows ∧
    StronglySorted (λ a b, String.ltb a b = true) years.
Proof.
  apply (year_rows_ascending 0%nat Sample.records "DRQ" "out"
           Sample.state1 Sample.stats1 Sample.final1);
    [sample_records [1; 2; 3; 4]%nat | | sample_run].
  intros r Hr. unfold Sample.records in Hr.
  repeat (apply elem_of_cons in Hr as [->|Hr]);
    [by eexists..|by apply elem_of_nil in Hr].
Defined.

Lemma second_call_changes_no_file_witness :
  ∃ st'', generate_csv_reports 0%nat "DRQ" "out" Sample.final1
          = Done Sample.stats1 st'' ∧
          files st'' = files Sample.final1.
Proof.
  apply (second_call_changes_no_file 0%nat Sample.records "DRQ" "out"
           Sample.state1 Sample.stats1 Sample.final1);
    [sample_records [1; 2; 3; 4]%nat | sample_run].
Defined.

Lemma year_counts_add_up_witness :
  ∃ years rows,
    files Sample.final1 !! report_path "out" "DRQ" "_Summary_By_FY.csv"
      = Some (fy_header :: rows) ∧
    Forall2 (λ k cells,
      cells = fy_cells (total abs_amount) k (group fy_of k Sample.records))
      years rows ∧
    let sum_over column :=
      sum_list ((λ k, column (group fy_of k Sample.records)) <$> years) in
    sum_over length = total_transactions Sample.stats1 ∧
    sum_over (count_flagged "is_rnd_candidate")
      = rnd_candidates Sample.stats1 ∧
    sum_over (count_flagged "fbt_implications") = fbt_issues Sample.stats1 ∧
    sum_over (count_flagged "division7a_risk") = div7a_issues Sample.stats1.
Proof.
  apply (year_counts_add_up 0%nat Sample.records "DRQ" "out"
           Sample.state1 Sample.stats1 Sample.final1);
    [sample_records [1; 2; 3; 4]%nat | sample_run].
Defined.

Lemma category_counts_add_up_witness :
  ∃ cats rows,
    files Sample.final1 !! report_path "out" "DRQ" "_By_Category.csv"
      = Some (cat_header :: rows) ∧
    Forall2 (λ k cells, cells = cat_cells k (group cat_of k Sample.records))
      cats rows ∧
    sum_list ((λ k, length (group cat_of k Sample.records)) <$> cats)
    = total_transactions Sample.stats1.
Proof.
  apply (category_counts_add_up 0%nat Sample.records "DRQ" "out"
           Sample.state1 Sample.stats1 Sample.final1);
    [sample_records [1; 2; 3; 4]%nat | sample_run].
Defined.

Lemma unusable_record_raises_witness :
  ∃ e h, generate_csv_reports 0%nat "DRQ" "out" Sample.state3 = Failed e h.
Proof.
  apply (unusable_record_raises 0%nat [Sample.bad] "DRQ" "out"
           Sample.state3 Sample.bad);
    [sample_records [1%nat] | left | left].
  intros [H|[n H]]; vm_compute in H; discriminate H.
Defined.

Lemma null_year_raises_witness :
  ∃ e h, generate_csv_reports 0%nat "DRQ" "out" Sample.state4 = Failed e h.
Proof.
  apply (null_year_raises 0%nat [Sample.null_year; Sample.r1] "DRQ" "out"
           Sample.state4 Sample.null_year Sample.r1);
    [sample_records [1; 2]%nat | left | right; left | done | done].
Defined.

Lemma row_counts_witness :
  let rows_of suffix n :=
    ∃ hdr rows, files Sample.final1 !! report_path "out" "DRQ" suffix
                = Some (hdr :: rows) ∧ length rows = n in
  rows_of "_All_Transactions.csv" (total_transactions Sample.stats1) ∧
  rows_of "_High_Value_Deductions.csv" (high_value Sample.stats1) ∧
  rows_of "_RnD_Candidates.csv" (rnd_candidates Sample.stats1) ∧
  rows_of "_FBT_Review_Required.csv" (fbt_issues Sample.stats1) ∧
  rows_of "_Division7A_Review.csv" (div7a_issues Sample.stats1).
Proof.
  apply (row_counts 0%nat Sample.records "DRQ" "out"
           Sample.state1 Sample.stats1 Sample.final1);
    [sample_records [1; 2; 3; 4]%nat | sample_run].
Defined.

Lemma priority_counts_from_one_witness :
  ∃ rows,
    files Sample.final1
      !! report_path "out" "DRQ" "_High_Value_Deductions.csv"
      = Some (hv_header :: rows) ∧
    ∀ i cells, rows !! i = Some cells →
      cells !! 0%nat = Some (VInt (Z.of_nat (i + 1))).
Proof.
  apply (priority_counts_from_one 0%nat Sample.records "DRQ" "out"
           Sample.state1 Sample.stats1 Sample.final1);
    [sample_records [1; 2; 3; 4]%nat | sample_run].
Defined.

Lemma text_cells_are_cut_witness :
  (match files Sample.final7
           !! report_path "out" "DRQ" "_All_Transactions.csv" with
   | Some (_ :: cells :: _) =>
       cells !! 5%nat = Some (VStr (Sample.accents 100)) ∧
       cells !! 13%nat = Some (VStr (Sample.accents 150)) ∧
       cells !! 17%nat
       = Some (VStr (Sample.accents 99 +:+ "; " +:+ Sample.accents 99))
   | _ => False
   end ∧
   cell_size (VStr (Sample.accents 100) : value) = 100%nat ∧
   String.length (Sample.accents 100) = 200%nat ∧
   cell_size
     (VStr (Sample.accents 99 +:+ "; " +:+ Sample.accents 99) : value)
   = 200%nat) ∧
  let rows_of suffix (P : row → Prop) :=
    ∃ hdr rows, files Sample.final7 !! report_path "out" "DRQ" suffix
                = Some (hdr :: rows) ∧ Forall P rows in
  rows_of "_All_Transactions.csv"
    (λ cells, cut_at 100 5 cells ∧ cut_at 150 13 cells ∧ cut_at 200 17 cells) ∧
  rows_of "_High_Value_Deductions.csv" (cut_at 150 11) ∧
  rows_of "_RnD_Candidates.csv" (cut_at 200 11) ∧
  rows_of "_FBT_Review_Required.csv"
    (λ cells, cut_at 100 5 cells ∧ cut_at 200 6 cells) ∧
  rows_of "_Division7A_Review.csv"
    (λ cells, cut_at 100 5 cells ∧ cut_at 200 6 cells).
Proof.
  split; [vm_compute; split_and!; reflexivity|].
  apply (text_cells_are_cut 0%nat [Sample.wordy; Sample.r1] "DRQ" "out"
           Sample.state7 Sample.stats7 Sample.final7);
    [sample_records [1; 2]%nat | sample_run].
Defined.

Lemma non_record_item_raises_witness :
  ∃ e h, generate_csv_reports 0%nat "DRQ" "out" Sample.state6 = Failed e h.
Proof.
  apply (non_record_item_raises 0%nat [1; 2]%nat "DRQ" "out" Sample.state6
           2%nat []);
    [vm_compute; reflexivity | right; left | vm_compute; reflexivity].
Defined.

Lemma unread_fields_do_not_matter_witness :
  match generate_csv_reports 0%nat "DRQ" "out" Sample.state1,
        generate_csv_reports 0%nat "DRQ" "out" Sample.state5 with
  | Done s1 st1', Done s2 st2' =>
      s1 = s2 ∧
      ∀ p, p ∈ report_paths "out" "DRQ" → files st1' !! p = files st2' !! p
  | Failed e1 _, Failed e2 _ => e1 = e2
  | _, _ => False
  end.
Proof.
  apply (unread_fields_do_not_matter 0%nat 0%nat Sample.records
           (Sample.memo <$> Sample.records) "DRQ" "out"
           Sample.state1 Sample.state5);
    [sample_records [1; 2; 3; 4]%nat | sample_records [1; 2; 3; 4]%nat |].
  assert (Hmemo : "memo" ∉ read_fields) by by apply (bool_decide_unpack _).
  unfold Sample.records. csimpl.
  do 4 (apply Forall2_cons; split; [by apply same_fields_extra|]).
  constructor.
Defined.

Lemma high_value_rows_show_amounts_witness :
  ∃ rows amounts,
    files Sample.final1
      !! report_path "out" "DRQ" "_High_Value_Deductions.csv"
      = Some (hv_header :: rows) ∧
    Forall2 (λ cells n, ∃ v : value, cells !! 5%nat = Some v ∧
                                     as_num v = Some n) rows amounts ∧
    Forall (λ n : Z, num_ltb (num_of_Z 500) n = true) amounts ∧
    StronglySorted (λ a b : Z, num_ltb a b = false) amounts.
Proof.
  apply (high_value_rows_show_amounts 0%nat Sample.records "DRQ" "out"
           Sample.state1 Sample.stats1 Sample.final1);
    [sample_records [1; 2; 3; 4]%nat | sample_run].
Defined.

End on_sample.
